(** * Claude Code -> OpenCode bridge: loader, command executor and hook engine

    A shallow embedding of [src/loader.py], [src/commands.py],
    [src/hooks.py] and [src/system_prompt.py], and the properties of the
    design document proved (or refuted) on it.

    Python text is modelled by [string]; a character is a code point
    below 256.  Everything the program asks of its environment (the file
    system, subprocesses, the regular-expression and YAML libraries, the
    host's prompt and agent runners) is a parameter of the section that
    uses it, so that every statement holds for all environments and can be
    run on a concrete one. *)

From Stdlib Require Import String Ascii ZArith List Bool Lia DecimalString.
From stdpp Require Import base option list gmap strings.

Local Open Scope string_scope.
Local Open Scope list_scope.
Set Warnings "-register-all".

(** ** Python strings *)

Module Py.

(** [str.isspace] on one character, which is also what [\s] matches in a
    [str] pattern and what [str.strip()] removes: TAB..CR, FS..US, SPACE,
    NEL and NBSP are the white-space code points below 256. *)
Definition isspace (c : ascii) : bool :=
  let n := nat_of_ascii c in
  (Nat.leb 9 n && Nat.leb n 13) || (Nat.leb 28 n && Nat.leb n 32)
  || Nat.eqb n 133 || Nat.eqb n 160.

Definition newline : ascii := "010"%char.

Fixpoint lstrip (s : string) : string :=
  match s with
  | String c r => if isspace c then lstrip r else s
  | EmptyString => EmptyString
  end.

Fixpoint rstrip (s : string) : string :=
  match s with
  | String c r =>
      match rstrip r with
      | EmptyString => if isspace c then EmptyString else String c EmptyString
      | r' => String c r'
      end
  | EmptyString => EmptyString
  end.

(** [s.strip()] *)
Definition strip (s : string) : string := rstrip (lstrip s).

(** Truth value of a string: [bool(s)], false only for the empty one. *)
Definition truthy (s : string) : bool :=
  match s with EmptyString => false | _ => true end.

Fixpoint drop (n : nat) (s : string) : string :=
  match n, s with
  | S k, String _ r => drop k r
  | _, _ => s
  end.

(** Every character of [s] satisfies [p]. *)
Fixpoint every (p : ascii -> bool) (s : string) : bool :=
  match s with
  | EmptyString => true
  | String c r => p c && every p r
  end.

(** [s.startswith(p)] *)
Fixpoint startswith (p s : string) : bool :=
  match p with
  | EmptyString => true
  | String a p' =>
      match s with
      | String b s' => Ascii.eqb a b && startswith p' s'
      | EmptyString => false
      end
  end.

(** [t in s] *)
Fixpoint contains (t s : string) : bool :=
  startswith t s
  || match s with
     | String _ r => contains t r
     | EmptyString => false
     end.

(** [s.split(sep)] for a one-character separator. *)
Fixpoint split (sep : ascii) (s : string) : list string :=
  match s with
  | EmptyString => [EmptyString]
  | String c r =>
      if Ascii.eqb c sep then EmptyString :: split sep r
      else match split sep r with
           | w :: ws => String c w :: ws
           | [] => [String c EmptyString]
           end
  end.

(** [sep.join(l)] *)
Definition join (sep : string) (l : list string) : string := String.concat sep l.

(** [s.upper()] on the letters a..z.  The characters above 127 are left
    alone: none of them upper-cases to a letter of the word BLOCK, which
    is all that the only caller looks for in the result. *)
Definition upper_char (c : ascii) : ascii :=
  let n := nat_of_ascii c in
  if Nat.leb 97 n && Nat.leb n 122 then ascii_of_nat (n - 32) else c.

Fixpoint upper (s : string) : string :=
  match s with
  | String c r => String (upper_char c) (upper r)
  | EmptyString => EmptyString
  end.

(** What [\w] matches in a [str] pattern, among the code points below
    256: the digits, the letters, the underscore, and the letters and
    numbers of Latin-1. *)
Definition isword (c : ascii) : bool :=
  let n := nat_of_ascii c in
  (Nat.leb 48 n && Nat.leb n 57) || (Nat.leb 65 n && Nat.leb n 90) || Nat.eqb n 95
  || (Nat.leb 97 n && Nat.leb n 122) || Nat.eqb n 170
  || (Nat.leb 178 n && Nat.leb n 179) || Nat.eqb n 181
  || (Nat.leb 185 n && Nat.leb n 186) || (Nat.leb 188 n && Nat.leb n 190)
  || (Nat.leb 192 n && Nat.leb n 214) || (Nat.leb 216 n && Nat.leb n 246)
  || (Nat.leb 248 n && Nat.leb n 255).

(** *** Left-to-right scanning, as [re.sub] and [str.replace] do it

    A matcher looks at the text from one position and answers with the
    captured group and the length of the match.  The scan keeps the
    characters between the matches, takes the leftmost match at each
    position and resumes after it; [skip] counts the characters of the
    current match still to be passed over. *)

Inductive token : Type :=
  | Lit (c : ascii)
  | Group (g : string).

Definition matcher : Type := string -> option (string * nat).

Fixpoint scan_from (m : matcher) (skip : nat) (s : string) : list token :=
  match s with
  | EmptyString => []
  | String c r =>
      match skip with
      | S k => scan_from m k r
      | O =>
          match m s with
          | Some (g, len) => Group g :: scan_from m (len - 1) r
          | None => Lit c :: scan_from m 0 r
          end
      end
  end.

Definition scan (m : matcher) (s : string) : list token := scan_from m 0 s.

(** The matcher of a literal, non-empty needle. *)
Definition literally (old : string) : matcher :=
  fun s => if startswith old s then Some (EmptyString, String.length old) else None.

Fixpoint render (new : string) (ts : list token) : string :=
  match ts with
  | [] => EmptyString
  | Lit c :: ts' => String c (render new ts')
  | Group _ :: ts' => new +:+ render new ts'
  end.

Fixpoint interleave (new s : string) : string :=
  match s with
  | EmptyString => EmptyString
  | String c r => String c (new +:+ interleave new r)
  end.

(** [s.replace(old, new)]: every non-overlapping occurrence of [old],
    found from the left, becomes [new]; an empty [old] matches between all
    characters. *)
Definition replace (old new s : string) : string :=
  match old with
  | EmptyString => new +:+ interleave new s
  | _ => render new (scan (literally old) s)
  end.

(** The scan of a text in which nothing matches. *)
Fixpoint literals (s : string) : list token :=
  match s with
  | EmptyString => []
  | String c r => Lit c :: literals r
  end.

(** Deleting the needles [d k] for the [k] of a list, one after the
    other. *)
Fixpoint delete_pairs (d : ascii) (ks : list ascii) (s : string) : string :=
  match ks with
  | [] => s
  | k :: ks' =>
      delete_pairs d ks' (replace (String d (String k EmptyString)) EmptyString s)
  end.

(** *** Python values

    What [yaml.safe_load] and [json.loads] hand to the loader: the typed
    fields of the records are filled from such values without conversion.
    [PyOther] stands for an object of any other type (a date, a byte
    string, a set), known by what the loader can ask of it: the text that
    [str()] gives, its truth value (an empty byte string or set is false)
    and whether it can be a dictionary key (a set cannot).  Floating-point
    numbers are outside the model. *)

Inductive pyval : Type :=
  | PyNone
  | PyBool (b : bool)
  | PyInt (z : Z)
  | PyStr (s : string)
  | PyList (items : list pyval)
  | PyDict (entries : list (pyval * pyval))
  | PyOther (shown : string) (truth hashes : bool).

(** [bool(v)] *)
Definition value_truthy (v : pyval) : bool :=
  match v with
  | PyNone => false
  | PyBool b => b
  | PyInt z => negb (Z.eqb z 0)
  | PyStr s => truthy s
  | PyList l => match l with [] => false | _ => true end
  | PyDict d => match d with [] => false | _ => true end
  | PyOther _ truth _ => truth
  end.

(** Lists and dicts cannot be dictionary keys. *)
Definition hashable (v : pyval) : bool :=
  match v with
  | PyList _ | PyDict _ => false
  | PyOther _ _ hashes => hashes
  | _ => true
  end.

Definition int_of (v : pyval) : option Z :=
  match v with
  | PyBool b => Some (if b then 1%Z else 0%Z)
  | PyInt z => Some z
  | _ => None
  end.

(** [k1 == k2] between hashable values ([True == 1]). *)
Definition key_eqb (k1 k2 : pyval) : bool :=
  match int_of k1, int_of k2 with
  | Some a, Some b => Z.eqb a b
  | None, None =>
      match k1, k2 with
      | PyNone, PyNone => true
      | PyStr a, PyStr b => String.eqb a b
      | PyOther a _ _, PyOther b _ _ => String.eqb a b
      | _, _ => false
      end
  | _, _ => false
  end.

(** [for x in v]: the items of a list, the characters of a string, the
    keys of a dict.  [None], a number and a truth value are not iterable;
    what an object of another type gives is not known here. *)
Inductive iteration : Type :=
  | Items (items : list pyval)
  | NotIterable
  | UnknownItems.

Definition iterate (v : pyval) : iteration :=
  match v with
  | PyList items => Items items
  | PyStr s => Items (map (fun c => PyStr (String c EmptyString)) (list_ascii_of_string s))
  | PyDict entries => Items (map fst entries)
  | PyNone | PyBool _ | PyInt _ => NotIterable
  | PyOther _ _ _ => UnknownItems
  end.

(** [d.get(key, default)] on the entries of a dict, for a string key. *)
Fixpoint dict_get (d : list (pyval * pyval)) (key : string) (default : pyval) : pyval :=
  match d with
  | [] => default
  | (k, v) :: d' => if key_eqb k (PyStr key) then v else dict_get d' key default
  end.

End Py.

(** ** The environment *)

Module Os.

Import Py.

(** A Python exception that reaches the caller: its class and its text. *)
Inductive exn : Type := Exn (class msg : string).

Inductive result (A : Type) : Type :=
  | Ok (a : A)
  | Raise (e : exn).
Arguments Ok {A} a.
Arguments Raise {A} e.

(** The rest of a computation runs on the value, and is skipped by an
    exception. *)
Definition and_then {A B : Type} (r : result A) (k : A -> result B) : result B :=
  match r with
  | Ok a => k a
  | Raise e => Raise e
  end.

(** What [subprocess.run(..., capture_output=True, text=True)] gives. *)
Record CompletedProcess : Type := {
  returncode : Z;
  stdout : string;
  stderr : string
}.

Inductive run_outcome : Type :=
  | Completed (p : CompletedProcess)
  | TimeoutExpired
  | RunFailed (e : string).

(** The operating system as the program sees it.  [world] is its state:
    queries read it, a subprocess may change it.

    [expanduser] answers [None] where [pathlib] raises [RuntimeError] (a
    [~user] with no home directory).  [path_exists], [is_file] and
    [is_dir] answer or raise: [pathlib] turns a missing file into [False]
    and lets other errors of the status call through (a name that is too
    long, for one).  [iterdir] lists a directory or raises ([None]).
    [glob_md] and [rglob_md] are the scans for [*.md]: the paths that the
    scan yields, and the error that ends it if there is one. *)
Class Host : Type := {
  world : Type;
  path : Type;
  path_str : path -> string;
  joinpath : path -> string -> path;
  expanduser : world -> string -> option path;
  path_exists : world -> path -> result bool;
  is_file : world -> path -> result bool;
  is_dir : world -> path -> result bool;
  read_text : world -> path -> string + string;
  subprocess_run :
    world -> string -> path -> list (string * string) -> Z -> run_outcome * world;
  iterdir : world -> path -> option (list path);
  glob_md : world -> path -> list path * option exn;
  rglob_md : world -> path -> list path * option exn;
  stem : path -> string;
  basename : path -> string;
  relative_parent : path -> path -> string
}.

Inductive yaml_outcome : Type :=
  | YamlValue (v : pyval)
  | YamlError
  | YamlOtherError (e : exn).

(** What [re.match(pattern, s, re.IGNORECASE)] comes to: whether there is
    a match, [re.error] for a pattern that is not a regular expression, or
    another exception (the [OverflowError] of a repeat count that is too
    large, a [RecursionError]). *)
Inductive re_outcome : Type :=
  | ReMatch (found : bool)
  | ReError
  | ReRaised (e : exn).

(** The libraries: [re.match(pattern, s, re.IGNORECASE)],
    [yaml.safe_load], [json.loads] ([None] is a decoding error),
    [json.dumps] (the tool inputs it is given are JSON data) and [repr] of
    a list or dict. *)
Class Library : Type := {
  re_match_ignorecase : string -> string -> re_outcome;
  yaml_safe_load : string -> yaml_outcome;
  json_loads : string -> option pyval;
  json_dumps : pyval -> string;
  repr_container : pyval -> string
}.

End Os.

(** ** The loader ([src/loader.py]) *)

Module Loader.

Import Py Os.

Definition nl : string := String newline EmptyString.

(** *** [parse_frontmatter]

    The pattern, tried at the start of the text with [re.DOTALL], reads:
    three dashes, [\s*], a line end, the header (group 1, lazy, any
    characters), a line end, three dashes, [\s*], a line end, the body
    (group 2, all that remains).  [\s*] is greedy: of the line ends inside
    the white space that follows the dashes it takes the last one that
    lets the rest match; the header stops at the first closing line. *)

Fixpoint span_space (s : string) : string * string :=
  match s with
  | String c r =>
      if isspace c then let (w, t) := span_space r in (String c w, t)
      else (EmptyString, s)
  | EmptyString => (EmptyString, EmptyString)
  end.

Fixpoint after_last_newline (w : string) : option string :=
  match w with
  | EmptyString => None
  | String c r =>
      match after_last_newline r with
      | Some t => Some t
      | None => if Ascii.eqb c newline then Some r else None
      end
  end.

(** White space, a line end and the body, from the text that follows the
    closing dashes. *)
Definition closing (t : string) : option string :=
  let (w, rest) := span_space t in
  match after_last_newline w with
  | Some b => Some (b +:+ rest)
  | None => None
  end.

(** The closing line and the body at the head of [u]. *)
Definition close_here (u : string) : option string :=
  if startswith (nl +:+ "---") u then closing (drop 4 u) else None.

(** Header, closing line and body: the shortest header after which the closing
    line matches. *)
Fixpoint find_close (u : string) : option (string * string) :=
  match close_here u with
  | Some body => Some (EmptyString, body)
  | None =>
      match u with
      | String c r =>
          match find_close r with
          | Some (g, body) => Some (String c g, body)
          | None => None
          end
      | EmptyString => None
      end
  end.

(** The texts that follow each line end of the white space [w], in the
    order of the text. *)
Fixpoint openings (w rest : string) : list string :=
  match w with
  | EmptyString => []
  | String c r =>
      (if Ascii.eqb c newline then [r +:+ rest] else []) ++ openings r rest
  end.

Fixpoint first_match (us : list string) : option (string * string) :=
  match us with
  | [] => None
  | u :: us' =>
      match find_close u with
      | Some m => Some m
      | None => first_match us'
      end
  end.

(** [re.match] of that pattern on [content] with [re.DOTALL]:
    groups 1 and 2. *)
Definition match_frontmatter (content : string) : option (string * string) :=
  if startswith "---" content then
    let (w, rest) := span_space (drop 3 content) in
    first_match (rev (openings w rest))
  else None.

Fixpoint all_space (s : string) : bool :=
  match s with
  | EmptyString => true
  | String c r => isspace c && all_space r
  end.

(** The text begins with a delimiter line: three dashes, white space at
    will, a line end. *)
Definition begins_with_delimiter_line (content : string) : Prop :=
  exists ws rest,
    content = "---" +:+ ws +:+ nl +:+ rest /\ all_space ws = true.

Section Parsing.
Context `{Library}.

Definition parse_frontmatter (content : string) : result (pyval * string) :=
  match match_frontmatter content with
  | Some (header, body) =>
      match yaml_safe_load header with
      | YamlValue v => Ok (if value_truthy v then v else PyDict [], body)
      | YamlError => Ok (PyDict [], content)
      | YamlOtherError e => Raise e
      end
  | None => Ok (PyDict [], content)
  end.

Definition decimal (z : Z) : string :=
  DecimalString.NilZero.string_of_int (Z.to_int z).

(** [str(v)] *)
Definition str_of (v : pyval) : string :=
  match v with
  | PyNone => "None"
  | PyBool true => "True"
  | PyBool false => "False"
  | PyInt z => decimal z
  | PyStr s => s
  | PyOther shown _ _ => shown
  | PyList _ | PyDict _ => repr_container v
  end.

Definition parse_allowed_tools (tools_value : pyval) : list string :=
  match tools_value with
  | PyNone => []
  | PyStr s =>
      flat_map (fun t => if truthy (strip t) then [strip t] else []) (split "," s)
  | PyList items =>
      flat_map
        (fun item =>
           match item with
           | PyStr s => [strip s]
           | PyList inner => map (fun i => strip (str_of i)) inner
           | _ => []
           end)
        items
  | _ => []
  end.

(** [result[hook_type].append(hook)], the key created on first use. *)
Fixpoint group_append (d : list (pyval * list pyval)) (k v : pyval)
  : list (pyval * list pyval) :=
  match d with
  | [] => [(k, [v])]
  | (k', l) :: d' =>
      if key_eqb k' k then (k', l ++ [v]) :: d'
      else (k', l) :: group_append d' k v
  end.

Fixpoint group_hooks (hooks : list pyval) (acc : list (pyval * list pyval))
  : result pyval :=
  match hooks with
  | [] => Ok (PyDict (map (fun kl => (fst kl, PyList (snd kl))) acc))
  | hook :: hooks' =>
      match hook with
      | PyDict d =>
          let hook_type := dict_get d "type" (PyStr "PreToolUse") in
          if hashable hook_type then group_hooks hooks' (group_append acc hook_type hook)
          else Raise (Exn "TypeError" "unhashable type")
      | _ => Raise (Exn "AttributeError" "object has no attribute 'get'")
      end
  end.

Definition parse_hooks_from_frontmatter (hooks_value : pyval) : result pyval :=
  match hooks_value with
  | PyNone => Ok (PyDict [])
  | PyDict _ => Ok hooks_value
  | PyList hooks => group_hooks hooks []
  | _ => Ok (PyDict [])
  end.

End Parsing.

(** *** The component records *)

Module Command.
Section T.
Context `{Host}.
Record t : Type := {
  name : string;
  path : Os.path;
  description : pyval;
  argument_hint : pyval;
  allowed_tools : list string;
  disallowed_tools : list string;
  model : pyval;
  hooks : pyval;
  content : string;
  scope : string;
  namespace : string;
  context : pyval;
  agent : pyval
}.
End T.
End Command.

Module Subagent.
Section T.
Context `{Host}.
Record t : Type := {
  name : pyval;
  path : Os.path;
  description : pyval;
  tools : list string;
  disallowed_tools : list string;
  model : pyval;
  permission_mode : pyval;
  hooks : pyval;
  skills : pyval;
  prompt : string;
  scope : string
}.
End T.
End Subagent.

Module Skill.
Section T.
Context `{Host}.
Record t : Type := {
  name : pyval;
  path : Os.path;
  description : pyval;
  allowed_tools : list string;
  context_mode : pyval;
  user_invocable : pyval;
  hooks : pyval;
  content : string;
  supporting_files : list Os.path;
  agent : pyval
}.
End T.
End Skill.

Module Plugin.
Section T.
Context `{Host}.
Record t : Type := {
  name : pyval;
  path : Os.path;
  version : pyval;
  description : pyval;
  commands : list Command.t;
  agents : list Subagent.t;
  skills : list Skill.t;
  hooks : pyval;
  mcp_config : pyval
}.
End T.
End Plugin.

Section Registry.
Context `{Host} `{Library}.

(** A dict whose keys are Python values, in insertion order. *)
Definition pydict (V : Type) : Type := list (pyval * V).

(** [d[k] = v] for a hashable [k]. *)
Fixpoint dict_set {V : Type} (d : pydict V) (k : pyval) (v : V) : pydict V :=
  match d with
  | [] => [(k, v)]
  | (k', v') :: d' =>
      if key_eqb k' k then (k', v) :: d' else (k', v') :: dict_set d' k v
  end.

Fixpoint dict_lookup {V : Type} (d : pydict V) (k : pyval) : option V :=
  match d with
  | [] => None
  | (k', v') :: d' => if key_eqb k' k then Some v' else dict_lookup d' k
  end.

(** The registry.  Command names are strings by construction; the names
    of the other components come from the front matter as they are.  No
    statement below depends on the order in which a mapping is listed. *)
Record BridgeRegistry : Type := {
  commands : gmap string Command.t;
  subagents : pydict Subagent.t;
  skills : pydict Skill.t;
  plugins : pydict Plugin.t;
  hooks : pydict (list pyval);
  executed_once_hooks : gset string
}.

Definition empty_registry : BridgeRegistry :=
  {| commands := ∅; subagents := []; skills := []; plugins := [];
     hooks := []; executed_once_hooks := ∅ |}.

(** The loader's state: the registry it fills and what it has printed. *)
Record LoadState : Type := {
  registry : BridgeRegistry;
  printed : list string
}.

(** A step of the loader changes the state and returns or raises; what it
    changed before raising stays changed. *)
Definition M (A : Type) : Type := LoadState -> result A * LoadState.

Definition ret {A : Type} (a : A) : M A := fun st => (Ok a, st).

Definition bind {A B : Type} (m : M A) (k : A -> M B) : M B :=
  fun st =>
    match m st with
    | (Ok a, st') => k a st'
    | (Raise e, st') => (Raise e, st')
    end.

Definition lift {A : Type} (r : result A) : M A := fun st => (r, st).

(** [try: body  except Exception as e: handler(e)] *)
Definition try_except (body : M unit) (handler : exn -> M unit) : M unit :=
  fun st =>
    match body st with
    | (Ok tt, st') => (Ok tt, st')
    | (Raise e, st') => handler e st'
    end.

Definition print (line : string) : M unit :=
  fun st => (Ok tt, {| registry := registry st; printed := printed st ++ [line] |}).

Definition update (f : BridgeRegistry -> BridgeRegistry) : M unit :=
  fun st => (Ok tt, {| registry := f (registry st); printed := printed st |}).

Fixpoint for_each {A : Type} (l : list A) (body : A -> M unit) : M unit :=
  match l with
  | [] => ret tt
  | x :: l' => bind (body x) (fun _ => for_each l' body)
  end.

End Registry.

Notation "'do' x <- m ; k" := (bind m (fun x => k))
  (at level 10, x name, m at level 100, k at level 200).
Notation "'do' ' p <- m ; k" := (bind m (fun x => let 'p := x in k))
  (at level 10, p pattern, m at level 100, k at level 200).
Notation "'run' m ; k" := (bind m (fun _ => k))
  (at level 10, m at level 100, k at level 200).

Notation "'get' x <- r ; k" := (and_then r (fun x => k))
  (at level 10, x name, r at level 100, k at level 200).
Notation "'get' ' p <- r ; k" := (and_then r (fun x => let 'p := x in k))
  (at level 10, p pattern, r at level 100, k at level 200).

Section Load.
Context `{Host} `{Library}.

Definition exn_text (e : exn) : string := let 'Exn _ msg := e in msg.

(** [frontmatter.get(key, default)]: only a dict has the method. *)
Definition fm_get (frontmatter : pyval) (key : string) (default : pyval) : result pyval :=
  match frontmatter with
  | PyDict d => Ok (dict_get d key default)
  | _ => Raise (Exn "AttributeError" "object has no attribute 'get'")
  end.

Definition read (w : world) (f : Os.path) : result string :=
  match read_text w f with
  | inl text => Ok text
  | inr e => Raise (Exn "OSError" e)
  end.

(** [D[k] = v]: [TypeError] for an unhashable key. *)
Definition checked_key (k : pyval) : result unit :=
  if hashable k then Ok tt else Raise (Exn "TypeError" "unhashable type").

Definition set_command (k : string) (c : Command.t) (r : BridgeRegistry) : BridgeRegistry :=
  {| commands := <[k := c]> (commands r); subagents := subagents r;
     skills := skills r; plugins := plugins r; hooks := hooks r;
     executed_once_hooks := executed_once_hooks r |}.

Definition set_subagent (k : pyval) (a : Subagent.t) (r : BridgeRegistry) : BridgeRegistry :=
  {| commands := commands r; subagents := dict_set (subagents r) k a;
     skills := skills r; plugins := plugins r; hooks := hooks r;
     executed_once_hooks := executed_once_hooks r |}.

Definition set_skill (k : pyval) (s : Skill.t) (r : BridgeRegistry) : BridgeRegistry :=
  {| commands := commands r; subagents := subagents r;
     skills := dict_set (skills r) k s; plugins := plugins r; hooks := hooks r;
     executed_once_hooks := executed_once_hooks r |}.

Definition set_plugin (k : pyval) (p : Plugin.t) (r : BridgeRegistry) : BridgeRegistry :=
  {| commands := commands r; subagents := subagents r; skills := skills r;
     plugins := dict_set (plugins r) k p; hooks := hooks r;
     executed_once_hooks := executed_once_hooks r |}.

Definition set_hooks (h : pydict (list pyval)) (r : BridgeRegistry) : BridgeRegistry :=
  {| commands := commands r; subagents := subagents r; skills := skills r;
     plugins := plugins r; hooks := h;
     executed_once_hooks := executed_once_hooks r |}.

(** The record that [_load_commands] makes of one file. *)
Definition build_command (w : world) (commands_dir : Os.path) (scope : string)
    (cmd_file : Os.path) : result Command.t :=
  get content <- read w cmd_file;
  get '(frontmatter, body) <- parse_frontmatter content;
  let rel_parent := relative_parent cmd_file commands_dir in
  let namespace := if String.eqb rel_parent "." then "" else rel_parent in
  let name := stem cmd_file in
  let display_name := if truthy namespace then namespace +:+ ":" +:+ name else name in
  get description <- fm_get frontmatter "description" (PyStr "");
  get argument_hint <- fm_get frontmatter "argument-hint" (PyStr "");
  get allowed <- fm_get frontmatter "allowed-tools" PyNone;
  get disallowed <- fm_get frontmatter "disallowedTools" PyNone;
  get model <- fm_get frontmatter "model" PyNone;
  get hooks_value <- fm_get frontmatter "hooks" PyNone;
  get hooks <- parse_hooks_from_frontmatter hooks_value;
  get context <- fm_get frontmatter "context" (PyStr "main");
  get agent <- fm_get frontmatter "agent" PyNone;
  Ok {| Command.name := display_name;
        Command.path := cmd_file;
        Command.description := description;
        Command.argument_hint := argument_hint;
        Command.allowed_tools := parse_allowed_tools allowed;
        Command.disallowed_tools := parse_allowed_tools disallowed;
        Command.model := model;
        Command.hooks := hooks;
        Command.content := body;
        Command.scope := scope;
        Command.namespace := namespace;
        Command.context := context;
        Command.agent := agent |}.

(** The body of the [try] of [_load_commands], for one file: the record
    is made, then written under its display name. *)
Definition load_command_file (w : world) (commands_dir : Os.path) (scope : string)
    (cmd_file : Os.path) : M unit :=
  do cmd <- lift (build_command w commands_dir scope cmd_file);
  update (set_command (Command.name cmd) cmd).

(** The error, if there is one, that ends the scan of a directory: it is
    raised where the loop over the paths of the scan ends. *)
Definition scan_end (failure : option exn) : M unit :=
  match failure with
  | Some e => lift (Raise e)
  | None => ret tt
  end.

Definition _load_commands (w : world) (commands_dir : Os.path) (scope : string) : M unit :=
  do found <- lift (path_exists w commands_dir);
  if negb found then ret tt
  else
    run for_each (fst (rglob_md w commands_dir)) (fun cmd_file =>
      try_except (load_command_file w commands_dir scope cmd_file) (fun e =>
        print ("Warning: Failed to load command " +:+ path_str cmd_file
               +:+ ": " +:+ exn_text e)));
    scan_end (snd (rglob_md w commands_dir)).

Definition build_subagent (w : world) (scope : string) (agent_file : Os.path)
  : result Subagent.t :=
  get content <- read w agent_file;
  get '(frontmatter, body) <- parse_frontmatter content;
  get name <- fm_get frontmatter "name" (PyStr (stem agent_file));
  get description <- fm_get frontmatter "description" (PyStr "");
  get tools <- fm_get frontmatter "tools" PyNone;
  get disallowed <- fm_get frontmatter "disallowedTools" PyNone;
  get model <- fm_get frontmatter "model" (PyStr "sonnet");
  get permission_mode <- fm_get frontmatter "permissionMode" (PyStr "default");
  get hooks_value <- fm_get frontmatter "hooks" PyNone;
  get hooks <- parse_hooks_from_frontmatter hooks_value;
  get skills <- fm_get frontmatter "skills" (PyList []);
  Ok {| Subagent.name := name;
        Subagent.path := agent_file;
        Subagent.description := description;
        Subagent.tools := parse_allowed_tools tools;
        Subagent.disallowed_tools := parse_allowed_tools disallowed;
        Subagent.model := model;
        Subagent.permission_mode := permission_mode;
        Subagent.hooks := hooks;
        Subagent.skills := skills;
        Subagent.prompt := body;
        Subagent.scope := scope |}.

Definition load_agent_file (w : world) (scope : string) (agent_file : Os.path) : M unit :=
  do agent <- lift (build_subagent w scope agent_file);
  run lift (checked_key (Subagent.name agent));
  update (set_subagent (Subagent.name agent) agent).

Definition _load_subagents (w : world) (agents_dir : Os.path) (scope : string) : M unit :=
  do found <- lift (path_exists w agents_dir);
  if negb found then ret tt
  else
    run for_each (fst (glob_md w agents_dir)) (fun agent_file =>
      try_except (load_agent_file w scope agent_file) (fun e =>
        print ("Warning: Failed to load subagent " +:+ path_str agent_file
               +:+ ": " +:+ exn_text e)));
    scan_end (snd (glob_md w agents_dir)).

(** [d.iterdir()], which raises on what is not a readable directory. *)
Definition listdir (w : world) (d : Os.path) : result (list Os.path) :=
  match iterdir w d with
  | Some l => Ok l
  | None => Raise (Exn "OSError" "cannot list the directory")
  end.

(** [[f for f in entries if f.is_file() and f.name != "SKILL.md"]] *)
Fixpoint supporting_of (w : world) (entries : list Os.path) : result (list Os.path) :=
  match entries with
  | [] => Ok []
  | f :: rest =>
      get regular <- is_file w f;
      get others <- supporting_of w rest;
      Ok (if regular && negb (String.eqb (basename f) "SKILL.md")
          then f :: others else others)
  end.

Definition build_skill (w : world) (skill_dir skill_file : Os.path) : result Skill.t :=
  get content <- read w skill_file;
  get '(frontmatter, body) <- parse_frontmatter content;
  get name <- fm_get frontmatter "name" (PyStr (basename skill_dir));
  get entries <- listdir w skill_dir;
  get supporting <- supporting_of w entries;
  get description <- fm_get frontmatter "description" (PyStr "");
  get allowed <- fm_get frontmatter "allowed-tools" PyNone;
  get context_mode <- fm_get frontmatter "context" (PyStr "main");
  get user_invocable <- fm_get frontmatter "user-invocable" (PyBool true);
  get hooks_value <- fm_get frontmatter "hooks" PyNone;
  get hooks <- parse_hooks_from_frontmatter hooks_value;
  get agent <- fm_get frontmatter "agent" PyNone;
  Ok {| Skill.name := name;
        Skill.path := skill_file;
        Skill.description := description;
        Skill.allowed_tools := parse_allowed_tools allowed;
        Skill.context_mode := context_mode;
        Skill.user_invocable := user_invocable;
        Skill.hooks := hooks;
        Skill.content := body;
        Skill.supporting_files := supporting;
        Skill.agent := agent |}.

Definition load_skill_dir (w : world) (skill_dir skill_file : Os.path) : M unit :=
  do skill <- lift (build_skill w skill_dir skill_file);
  run lift (checked_key (Skill.name skill));
  update (set_skill (Skill.name skill) skill).

(** The [scope] argument is accepted and not used: a skill has no scope. *)
Definition _load_skills (w : world) (skills_dir : Os.path) (scope : string) : M unit :=
  do found <- lift (path_exists w skills_dir);
  if negb found then ret tt
  else
    do entries <- lift (listdir w skills_dir);
    for_each entries (fun skill_dir =>
      do directory <- lift (is_dir w skill_dir);
      if negb directory then ret tt
      else
        let skill_file := joinpath skill_dir "SKILL.md" in
        do present <- lift (path_exists w skill_file);
        if negb present then ret tt
        else
          try_except (load_skill_dir w skill_dir skill_file) (fun e =>
            print ("Warning: Failed to load skill " +:+ path_str skill_dir
                   +:+ ": " +:+ exn_text e))).

(** [self.registry.hooks[hook_type]] is created when missing, then
    extended when the value is a list. *)
Definition merge_entry (reg_hooks : pydict (list pyval)) (hook_type hook_list : pyval)
  : pydict (list pyval) :=
  let created :=
    match dict_lookup reg_hooks hook_type with
    | Some _ => reg_hooks
    | None => dict_set reg_hooks hook_type []
    end in
  match hook_list with
  | PyList l =>
      match dict_lookup created hook_type with
      | Some old => dict_set created hook_type (old ++ l)
      | None => created
      end
  | _ => created
  end.

Definition _merge_hooks (hooks_value : pyval) : M unit :=
  match hooks_value with
  | PyDict entries =>
      for_each entries (fun entry =>
        update (fun r => set_hooks (merge_entry (hooks r) (fst entry) (snd entry)) r))
  | _ => lift (Raise (Exn "AttributeError" "object has no attribute 'items'"))
  end.

(** [json.loads(f.read_text(encoding="utf-8"))] *)
Definition read_json (w : world) (f : Os.path) : result pyval :=
  get text <- read w f;
  match json_loads text with
  | Some v => Ok v
  | None => Raise (Exn "JSONDecodeError" "invalid JSON")
  end.

(** [plugin_dir / v]: the operand has to be a string. *)
Definition join_value (d : Os.path) (v : pyval) : result Os.path :=
  match v with
  | PyStr s => Ok (joinpath d s)
  | _ => Raise (Exn "TypeError" "unsupported operand type(s) for /")
  end.

Definition set_plugin_hooks (p : Plugin.t) (h : pyval) : Plugin.t :=
  {| Plugin.name := Plugin.name p; Plugin.path := Plugin.path p;
     Plugin.version := Plugin.version p; Plugin.description := Plugin.description p;
     Plugin.commands := Plugin.commands p; Plugin.agents := Plugin.agents p;
     Plugin.skills := Plugin.skills p; Plugin.hooks := h;
     Plugin.mcp_config := Plugin.mcp_config p |}.

Definition set_plugin_mcp (p : Plugin.t) (c : pyval) : Plugin.t :=
  {| Plugin.name := Plugin.name p; Plugin.path := Plugin.path p;
     Plugin.version := Plugin.version p; Plugin.description := Plugin.description p;
     Plugin.commands := Plugin.commands p; Plugin.agents := Plugin.agents p;
     Plugin.skills := Plugin.skills p; Plugin.hooks := Plugin.hooks p;
     Plugin.mcp_config := c |}.

(** [if d.exists(): load(d, scope="plugin")] *)
Definition load_if_exists (w : world) (load : world -> Os.path -> string -> M unit)
    (d : Os.path) : M unit :=
  do found <- lift (path_exists w d);
  if found then load w d "plugin" else ret tt.

(** The body of the [try] of [_load_plugin]. *)
Definition load_plugin_manifest (w : world) (plugin_dir manifest_file : Os.path) : M unit :=
  do manifest <- lift (read_json w manifest_file);
  do name <- lift (fm_get manifest "name" (PyStr (basename plugin_dir)));
  do version <- lift (fm_get manifest "version" (PyStr "1.0.0"));
  do description <- lift (fm_get manifest "description" (PyStr ""));
  let plugin :=
    {| Plugin.name := name; Plugin.path := plugin_dir;
       Plugin.version := version; Plugin.description := description;
       Plugin.commands := []; Plugin.agents := []; Plugin.skills := [];
       Plugin.hooks := PyDict []; Plugin.mcp_config := PyNone |} in
  do commands_value <- lift (fm_get manifest "commands" (PyStr "commands"));
  do commands_dir <- lift (join_value plugin_dir commands_value);
  run load_if_exists w _load_commands commands_dir;
  run load_if_exists w _load_commands
        (joinpath (joinpath plugin_dir ".claude") "commands");
  do agents_value <- lift (fm_get manifest "agents" (PyStr "agents"));
  do agents_dir <- lift (join_value plugin_dir agents_value);
  run load_if_exists w _load_subagents agents_dir;
  run load_if_exists w _load_subagents
        (joinpath (joinpath plugin_dir ".claude") "agents");
  do skills_value <- lift (fm_get manifest "skills" (PyStr "skills"));
  do skills_dir <- lift (join_value plugin_dir skills_value);
  run load_if_exists w _load_skills skills_dir;
  run load_if_exists w _load_skills
        (joinpath (joinpath plugin_dir ".claude") "skills");
  let hooks_file := joinpath (joinpath plugin_dir "hooks") "hooks.json" in
  do hooks_found <- lift (path_exists w hooks_file);
  do plugin <-
    (if hooks_found then
       do hooks_data <- lift (read_json w hooks_file);
       do plugin_hooks <- lift (fm_get hooks_data "hooks" (PyDict []));
       run _merge_hooks plugin_hooks;
       ret (set_plugin_hooks plugin plugin_hooks)
     else ret plugin);
  let mcp_file := joinpath plugin_dir ".mcp.json" in
  do mcp_found <- lift (path_exists w mcp_file);
  do plugin <-
    (if mcp_found then
       do config <- lift (read_json w mcp_file);
       ret (set_plugin_mcp plugin config)
     else ret plugin);
  run lift (checked_key (Plugin.name plugin));
  update (set_plugin (Plugin.name plugin) plugin).

(** The manifest that [_load_plugin] looks for in a plugin directory:
    the one of the marker directory when it exists, or else the one of the
    plugin directory itself. *)
Definition manifest_path (w : world) (plugin_dir : Os.path) : result Os.path :=
  let manifest_file := joinpath (joinpath plugin_dir ".claude-plugin") "plugin.json" in
  get found <- path_exists w manifest_file;
  Ok (if negb found then joinpath plugin_dir "plugin.json" else manifest_file).

Definition _load_plugin (w : world) (plugin_dir : Os.path) : M unit :=
  do manifest_file <- lift (manifest_path w plugin_dir);
  do found <- lift (path_exists w manifest_file);
  if negb found then ret tt
  else
    try_except (load_plugin_manifest w plugin_dir manifest_file) (fun e =>
      print ("Warning: Failed to load plugin " +:+ path_str plugin_dir
             +:+ ": " +:+ exn_text e)).

(** [for plugin_dir in d.iterdir(): if plugin_dir.is_dir(): ...], when [d] exists. *)
Definition load_plugins_under (w : world) (d : Os.path) : M unit :=
  do found <- lift (path_exists w d);
  if found then
    do entries <- lift (listdir w d);
    for_each entries (fun plugin_dir =>
      do directory <- lift (is_dir w plugin_dir);
      if directory then _load_plugin w plugin_dir else ret tt)
  else ret tt.

(** [module_dir] is the directory of the loader's own file. *)
Definition _load_plugins (w : world) (project_root module_dir : Os.path) : M unit :=
  run load_plugins_under w (joinpath project_root ".claude-plugins");
  do local <- lift (path_exists w (joinpath project_root ".claude-plugin"));
  run (if local then _load_plugin w project_root else ret tt);
  load_plugins_under w (joinpath module_dir "plugins").

Definition load_all (w : world) (project_root module_dir : Os.path) : M BridgeRegistry :=
  let project_claude := joinpath project_root ".claude" in
  run _load_commands w (joinpath project_claude "commands") "project";
  run _load_subagents w (joinpath project_claude "agents") "project";
  run _load_skills w (joinpath project_claude "skills") "project";
  run _load_plugins w project_root module_dir;
  fun st => (Ok (registry st), st).

(** The state of a fresh [BridgeLoader]. *)
Definition fresh : LoadState := {| registry := empty_registry; printed := [] |}.

(** *** The vocabulary of the precedence property *)

(** The record [c], of display name [n], is the one that the load of a
    commands directory makes of one of the files of its scan. *)
Definition made_in (w : world) (commands_dir : Os.path) (scope n : string)
    (c : Command.t) : Prop :=
  exists cmd_file,
    In cmd_file (fst (rglob_md w commands_dir))
    /\ build_command w commands_dir scope cmd_file = Ok c
    /\ Command.name c = n.

(** A commands directory defines the display name [n] when it exists and
    one of its files makes a record of that name. *)
Definition defines_command (w : world) (commands_dir : Os.path) (scope n : string)
  : Prop :=
  path_exists w commands_dir = Ok true /\ exists c, made_in w commands_dir scope n c.

(** The two directories a plugin's commands are loaded from, given the
    entries of its manifest. *)
Definition plugin_command_dirs (plugin_dir : Os.path) (manifest : list (pyval * pyval))
  : list Os.path :=
  match dict_get manifest "commands" (PyStr "commands") with
  | PyStr sub =>
      [joinpath plugin_dir sub; joinpath (joinpath plugin_dir ".claude") "commands"]
  | _ => []
  end.

(** The record [c], of display name [n], is made of a command file of the
    plugin: of a file of one of the two commands directories that the
    plugin's manifest, read as a JSON object, gives. *)
Definition made_by_plugin (w : world) (plugin_dir : Os.path) (n : string)
    (c : Command.t) : Prop :=
  exists manifest_file manifest commands_dir,
    manifest_path w plugin_dir = Ok manifest_file
    /\ read_json w manifest_file = Ok (PyDict manifest)
    /\ In commands_dir (plugin_command_dirs plugin_dir manifest)
    /\ made_in w commands_dir "plugin" n c.

(** The load of a commands directory does not raise: the directory can be
    asked for, and the scan of an existing one ends without error. *)
Definition loads_quietly (w : world) (commands_dir : Os.path) : Prop :=
  match path_exists w commands_dir with
  | Ok true => snd (rglob_md w commands_dir) = None
  | Ok false => True
  | Raise _ => False
  end.

(** The sub-directories of [d], when [d] exists. *)
Definition plugin_dirs_under (w : world) (d : Os.path) : list Os.path :=
  match path_exists w d, iterdir w d with
  | Ok true, Some entries =>
      List.filter (fun entry => match is_dir w entry with
                                | Ok directory => directory
                                | Raise _ => false
                                end) entries
  | _, _ => []
  end.

(** The plugin directories of a load pass, in the order of their visit. *)
Definition plugin_dirs (w : world) (project_root module_dir : Os.path) : list Os.path :=
  plugin_dirs_under w (joinpath project_root ".claude-plugins")
  ++ match path_exists w (joinpath project_root ".claude-plugin") with
     | Ok true => [project_root]
     | _ => []
     end
  ++ plugin_dirs_under w (joinpath module_dir "plugins").

(** The record [c], of display name [n], is made of a command file of
    one of the plugins that the pass visits. *)
Definition made_by_visited_plugin (w : world) (project_root module_dir : Os.path)
    (n : string) (c : Command.t) : Prop :=
  exists plugin_dir,
    In plugin_dir (plugin_dirs w project_root module_dir)
    /\ made_by_plugin w plugin_dir n c.

(** A step keeps a property of the commands mapping, leaves the mapping
    alone, or always returns. *)
Definition preserves (Q : gmap string Command.t -> Prop) {A : Type} (m : M A) : Prop :=
  forall st, Q (commands (registry st)) -> Q (commands (registry (snd (m st)))).

Definition silent {A : Type} (m : M A) : Prop :=
  forall st, commands (registry (snd (m st))) = commands (registry st).

Definition total (m : M unit) : Prop :=
  forall st, fst (m st) = Ok tt.

(** Under the name [n] the mapping holds a record of which [origin]
    holds, whole. *)
Definition holds (origin : Command.t -> Prop) (n : string)
    (m : gmap string Command.t) : Prop :=
  exists c, m !! n = Some c /\ origin c.

End Load.

End Loader.

(** ** The command executor ([src/commands.py]) *)

Module CommandExecutor.

Import Py Os Loader.

(** [f"${i}"] *)
Definition placeholder (i : nat) : string := "$" +:+ decimal (Z.of_nat i).

(** [for i, arg in enumerate(arguments, start=i): content = content.replace(f"${i}", arg)] *)
Fixpoint substitute_positional (i : nat) (arguments : list string) (content : string)
  : string :=
  match arguments with
  | [] => content
  | arg :: rest => substitute_positional (S i) rest (replace (placeholder i) arg content)
  end.

(** [for i in indices: content = content.replace(f"${i}", "")] *)
Fixpoint remove_positional (indices : list nat) (content : string) : string :=
  match indices with
  | [] => content
  | i :: rest => remove_positional rest (replace (placeholder i) "" content)
  end.

Definition _substitute_arguments (content : string) (arguments : list string) : string :=
  let all_args := join " " arguments in
  let content := replace "$ARGUMENTS" all_args content in
  let content := substitute_positional 1 (firstn 9 arguments) content in
  remove_positional (seq 1 9) content.

Fixpoint take_while (p : ascii -> bool) (s : string) : string :=
  match s with
  | String c r => if p c then String c (take_while p r) else EmptyString
  | EmptyString => EmptyString
  end.

(** An at sign, then one or more characters that are neither white space
    nor an at sign (the group), as many as there are. *)
Definition file_reference : matcher :=
  fun s =>
    match s with
    | String c r =>
        if Ascii.eqb c "@" then
          let g := take_while (fun c => negb (isspace c || Ascii.eqb c "@")) r in
          if truthy g then Some (g, S (String.length g)) else None
        else None
    | EmptyString => None
    end.

(** An exclamation mark, a backtick, one or more characters other than a
    backtick (the group), a backtick. *)
Definition inline_command : matcher :=
  fun s =>
    match s with
    | String c1 (String c2 r) =>
        if Ascii.eqb c1 "!" && Ascii.eqb c2 "`" then
          let g := take_while (fun c => negb (Ascii.eqb c "`")) r in
          if truthy g && startswith "`" (drop (String.length g) r)
          then Some (g, 3 + String.length g)
          else None
        else None
    | _ => None
    end.

Section Executor.
Context `{Host}.

Record t : Type := { project_root : Os.path }.

(** [re.sub(pattern, repl, content)] for a [repl] that may raise: the
    matches are replaced from the left, and the first exception ends the
    substitution. *)
Fixpoint sub_or_raise (repl : string -> result string) (ts : list token) : result string :=
  match ts with
  | [] => Ok EmptyString
  | Lit c :: ts' =>
      match sub_or_raise repl ts' with
      | Ok r => Ok (String c r)
      | Raise e => Raise e
      end
  | Group g :: ts' =>
      match repl g with
      | Ok x =>
          match sub_or_raise repl ts' with
          | Ok r => Ok (x +:+ r)
          | Raise e => Raise e
          end
      | Raise e => Raise e
      end
  end.

(** [re.sub] for a [repl] that acts on the world. *)
Fixpoint sub_in_world (repl : string -> world -> string * world) (ts : list token)
    (w : world) : string * world :=
  match ts with
  | [] => (EmptyString, w)
  | Lit c :: ts' =>
      let (r, w') := sub_in_world repl ts' w in (String c r, w')
  | Group g :: ts' =>
      let (x, w1) := repl g w in
      let (r, w2) := sub_in_world repl ts' w1 in
      (x +:+ r, w2)
  end.

(** The status queries and the expansion of a user directory stand
    before the [try]: what they raise leaves the function. *)
Definition replace_reference (self : t) (w : world) (file_path : string) : result string :=
  let full_path := joinpath (project_root self) file_path in
  get found <- path_exists w full_path;
  get full_path <-
    (if negb found then
       match expanduser w file_path with
       | Some p => Ok p
       | None => Raise (Exn "RuntimeError" "Could not determine home directory.")
       end
     else Ok full_path);
  get present <- path_exists w full_path;
  get regular <- (if present then is_file w full_path else Ok false);
  if regular then
    match read_text w full_path with
    | inl file_content =>
        Ok (nl +:+ "--- Content of " +:+ file_path +:+ " ---" +:+ nl
            +:+ file_content +:+ nl
            +:+ "--- End of " +:+ file_path +:+ " ---" +:+ nl)
    | inr e => Ok ("[Error reading " +:+ file_path +:+ ": " +:+ e +:+ "]")
    end
  else Ok ("[File not found: " +:+ file_path +:+ "]").

Definition _resolve_file_references (self : t) (w : world) (content : string)
  : result string :=
  sub_or_raise (replace_reference self w) (scan file_reference content).

Definition execute_and_replace (self : t) (command : string) (w : world)
  : string * world :=
  match subprocess_run w command (project_root self) [] 30 with
  | (Completed result, w') =>
      let output := strip (stdout result) in
      let output :=
        if negb (Z.eqb (returncode result) 0) && truthy (stderr result)
        then output +:+ nl +:+ "[stderr: " +:+ strip (stderr result) +:+ "]"
        else output in
      (if truthy output then output else "[no output]", w')
  | (TimeoutExpired, w') => ("[Command timed out: " +:+ command +:+ "]", w')
  | (RunFailed e, w') =>
      ("[Error executing '" +:+ command +:+ "': " +:+ e +:+ "]", w')
  end.

Definition _execute_inline_bash (self : t) (content : string) (w : world)
  : string * world :=
  sub_in_world (execute_and_replace self) (scan inline_command content) w.

Definition prepare_prompt (self : t) (command : Command.t) (arguments : list string)
    (w : world) : result string * world :=
  let content := Command.content command in
  let content := _substitute_arguments content arguments in
  match _resolve_file_references self w content with
  | Raise e => (Raise e, w)
  | Ok content =>
      let (content, w') := _execute_inline_bash self content w in
      (Ok content, w')
  end.

(** [dataclasses.replace(command, content=text)] *)
Definition with_content (command : Command.t) (text : string) : Command.t :=
  {| Command.name := Command.name command;
     Command.path := Command.path command;
     Command.description := Command.description command;
     Command.argument_hint := Command.argument_hint command;
     Command.allowed_tools := Command.allowed_tools command;
     Command.disallowed_tools := Command.disallowed_tools command;
     Command.model := Command.model command;
     Command.hooks := Command.hooks command;
     Command.content := text;
     Command.scope := Command.scope command;
     Command.namespace := Command.namespace command;
     Command.context := Command.context command;
     Command.agent := Command.agent command |}.

End Executor.

(** *** Tool restrictions and the prompt for the agent *)

(** [re.match] of the tool pattern: a run of word characters (group 1),
    an opening parenthesis, one or more characters other than a closing
    parenthesis (group 2), a closing parenthesis.  The match is tried at
    the start of the text and need not reach its end. *)
Definition tool_pattern (tool : string) : option (string * string) :=
  let tool_name := take_while isword tool in
  if truthy tool_name then
    match drop (String.length tool_name) tool with
    | String c r =>
        if Ascii.eqb c "(" then
          let pattern := take_while (fun c => negb (Ascii.eqb c ")")) r in
          if truthy pattern && startswith ")" (drop (String.length pattern) r)
          then Some (tool_name, pattern)
          else None
        else None
    | EmptyString => None
    end
  else None.

(** An entry of [restrictions["allowed_patterns"]]. *)
Record ToolPattern : Type := {
  tool : string;
  pattern : string
}.

(** The dict that [get_tool_restrictions] returns. *)
Record Restrictions : Type := {
  allowed : list string;
  allowed_patterns : list ToolPattern;
  disallowed : list string
}.

(** One turn of the loop over [command.allowed_tools]. *)
Definition sort_tool (restrictions : Restrictions) (entry : string) : Restrictions :=
  match tool_pattern entry with
  | Some (tool_name, pattern) =>
      {| allowed := allowed restrictions;
         allowed_patterns :=
           allowed_patterns restrictions ++ [{| tool := tool_name; pattern := pattern |}];
         disallowed := disallowed restrictions |}
  | None =>
      {| allowed := allowed restrictions ++ [entry];
         allowed_patterns := allowed_patterns restrictions;
         disallowed := disallowed restrictions |}
  end.

(** [f"{p['tool']}({p['pattern']})"] *)
Definition show_pattern (p : ToolPattern) : string :=
  tool p +:+ "(" +:+ pattern p +:+ ")".

Section Agent.
Context `{Host} `{Library}.

Definition get_tool_restrictions (command : Command.t) : Restrictions :=
  fold_left sort_tool (Command.allowed_tools command)
    {| allowed := [];
       allowed_patterns := [];
       disallowed := Command.disallowed_tools command |}.

(** The header that [format_for_agent] puts before the prompt. *)
Definition agent_header (command : Command.t) : string :=
  let restrictions := get_tool_restrictions command in
  let header := "# Executing Command: /" +:+ Command.name command +:+ nl +:+ nl in
  let header :=
    match allowed restrictions with
    | [] => header
    | _ => header +:+ "**Allowed Tools**: " +:+ join ", " (allowed restrictions) +:+ nl
    end in
  let header :=
    match allowed_patterns restrictions with
    | [] => header
    | _ =>
        let patterns := map show_pattern (allowed_patterns restrictions) in
        header +:+ "**Tool Patterns**: " +:+ join ", " patterns +:+ nl
    end in
  let header :=
    match disallowed restrictions with
    | [] => header
    | _ => header +:+ "**Disallowed Tools**: " +:+ join ", " (disallowed restrictions) +:+ nl
    end in
  let header :=
    if value_truthy (Command.model command)
    then header +:+ "**Preferred Model**: " +:+ str_of (Command.model command) +:+ nl
    else header in
  header +:+ nl +:+ "---" +:+ nl +:+ nl.

(** The prompt is prepared first: an exception of that step leaves before
    any header is made. *)
Definition format_for_agent (self : t) (command : Command.t) (arguments : list string)
    (w : world) : result string * world :=
  match prepare_prompt self command arguments w with
  | (Raise e, w') => (Raise e, w')
  | (Ok prompt, w') => (Ok (agent_header command +:+ prompt), w')
  end.

End Agent.

End CommandExecutor.

(** ** The hook engine ([src/hooks.py]) *)

Module HookEngine.

Import Py Os Loader.

Inductive HookType : Type :=
  | PRETOOLUSE | POSTTOOLUSE | POSTTOOLUSEFAILURE | STOP
  | SESSIONSTART | SESSIONEND | SUBAGENTSTART | SUBAGENTSTOP
  | PERMISSIONREQUEST.

(** [hook_type.value] *)
Definition value (hook_type : HookType) : string :=
  match hook_type with
  | PRETOOLUSE => "PreToolUse"
  | POSTTOOLUSE => "PostToolUse"
  | POSTTOOLUSEFAILURE => "PostToolUseFailure"
  | STOP => "Stop"
  | SESSIONSTART => "SessionStart"
  | SESSIONEND => "SessionEnd"
  | SUBAGENTSTART => "SubagentStart"
  | SUBAGENTSTOP => "SubagentStop"
  | PERMISSIONREQUEST => "PermissionRequest"
  end.

Inductive HookResult : Type :=
  | CONTINUE
  | ERROR
  | BLOCK.

Record HookContext : Type := {
  hook_type : HookType;
  tool_name : string;
  tool_input : pyval;
  tool_output : string;
  error : string;
  session_id : string;
  agent_name : string;
  plugin_root : string;
  ctx_project_root : string  (* [project_root]; the engine has a field of that name *)
}.

(** The payload fields are [Optional[str]]: [None] is Python's [None]. *)
Record HookConfig : Type := {
  type : string;
  matcher : string;
  command : option string;
  prompt : option string;
  agent : option string;
  timeout : Z;
  once : bool
}.

(** [a or b] *)
Definition py_or (a b : option string) : option string :=
  match a with
  | Some s => if truthy s then a else b
  | None => b
  end.

(** [f"{v}"] *)
Definition format (v : option string) : string :=
  match v with
  | Some s => s
  | None => "None"
  end.


Definition hook_id (type_str : string) (hook : HookConfig) : string :=
  type_str +:+ ":" +:+ matcher hook +:+ ":"
  +:+ format (py_or (py_or (command hook) (prompt hook)) (agent hook)).

(** What a dispatch does to the outside, in order. *)
Inductive event : Type :=
  | Ran (command : string)
  | Prompted (prompt : string)
  | Delegated (agent : string)
  | Printed (line : string).

Definition is_execution (e : event) : bool :=
  match e with
  | Printed _ => false
  | _ => true
  end.

(** The number of payload executions recorded in a trace. *)
Definition executions (trace : list event) : nat :=
  length (List.filter is_execution trace).

Inductive call_outcome : Type :=
  | Returned (s : string)
  | Raised (e : string).

Section Engine.
Context `{Host} `{Library}.

(** A host-supplied runner of prompt or agent hooks. *)
Definition executor : Type :=
  string -> HookContext -> world -> call_outcome * world.

Record t : Type := {
  project_root : Os.path;
  hooks : gmap string (list HookConfig);
  prompt_executor : option executor;
  agent_executor : option executor
}.

(** What a dispatch changes: the once-hooks already run, the world, and
    the trace of what was done. *)
Record State : Type := {
  executed_once_hooks : gset string;
  os : world;
  trace : list event
}.

Definition log (e : event) (st : State) : State :=
  {| executed_once_hooks := executed_once_hooks st; os := os st;
     trace := trace st ++ [e] |}.

Definition print_if (cond : bool) (line : string) (st : State) : State :=
  if cond then log (Printed line) st else st.

Definition with_os (w : world) (st : State) : State :=
  {| executed_once_hooks := executed_once_hooks st; os := w; trace := trace st |}.

Definition mark (id : string) (st : State) : State :=
  {| executed_once_hooks := {[ id ]} ∪ executed_once_hooks st; os := os st;
     trace := trace st |}.

(** [re.error] is caught; another exception of the library leaves the
    function. *)
Definition _matches (matcher tool_name : string) : result bool :=
  match re_match_ignorecase matcher tool_name with
  | ReMatch found => Ok found
  | ReError => Ok false
  | ReRaised e => Raise e
  end.

(** [str(context.project_root or self.project_root)] *)
Definition root_text (self : t) (context : HookContext) : string :=
  if truthy (ctx_project_root context) then ctx_project_root context
  else path_str (project_root self).

Definition _substitute_variables (self : t) (template : string) (context : HookContext)
  : string :=
  let result := template in
  let result := replace "${TOOL_NAME}" (tool_name context) result in
  let result := replace "$TOOL_NAME" (tool_name context) result in
  let result := replace "${TOOL_INPUT}" (json_dumps (tool_input context)) result in
  let result := replace "$TOOL_INPUT" (json_dumps (tool_input context)) result in
  let result := replace "${TOOL_OUTPUT}" (tool_output context) result in
  let result := replace "$TOOL_OUTPUT" (tool_output context) result in
  let result := replace "${SESSION_ID}" (session_id context) result in
  let result := replace "$SESSION_ID" (session_id context) result in
  let result := replace "${AGENT_NAME}" (agent_name context) result in
  let result := replace "$AGENT_NAME" (agent_name context) result in
  let result := replace "${CLAUDE_PLUGIN_ROOT}" (plugin_root context) result in
  let result := replace "$CLAUDE_PLUGIN_ROOT" (plugin_root context) result in
  let result := replace "${PROJECT_ROOT}" (root_text self context) result in
  let result := replace "$PROJECT_ROOT" (root_text self context) result in
  result.

(** The variables set on top of a copy of [os.environ]. *)
Definition hook_env (self : t) (context : HookContext) : list (string * string) :=
  [ ("TOOL_NAME", tool_name context);
    ("TOOL_INPUT", json_dumps (tool_input context));
    ("TOOL_OUTPUT", tool_output context);
    ("SESSION_ID", session_id context);
    ("AGENT_NAME", agent_name context);
    ("CLAUDE_PLUGIN_ROOT", plugin_root context);
    ("PROJECT_ROOT", root_text self context) ].

Definition _execute_command_hook (self : t) (hook : HookConfig) (context : HookContext)
    (st : State) : HookResult * State :=
  match command hook with
  | None => (ERROR, st)
  | Some template =>
      if negb (truthy template) then (ERROR, st)
      else
        let command := _substitute_variables self template context in
        let env := hook_env self context in
        let (outcome, w') :=
          subprocess_run (os st) command (project_root self) env (timeout hook) in
        let st := log (Ran command) (with_os w' st) in
        match outcome with
        | Completed result =>
            if Z.eqb (returncode result) 0 then
              (CONTINUE,
               print_if (truthy (stdout result))
                 ("[Hook] " +:+ strip (stdout result)) st)
            else if Z.eqb (returncode result) 2 then
              (BLOCK,
               print_if (truthy (stderr result))
                 ("[Hook BLOCKED] " +:+ strip (stderr result)) st)
            else
              (ERROR,
               print_if (truthy (stderr result))
                 ("[Hook ERROR] " +:+ strip (stderr result)) st)
        | TimeoutExpired =>
            (ERROR,
             log (Printed ("[Hook TIMEOUT] Command timed out after "
                           +:+ decimal (timeout hook) +:+ "s")) st)
        | RunFailed e => (ERROR, log (Printed ("[Hook ERROR] " +:+ e)) st)
        end
  end.

(** [result and "BLOCK" in result.upper()] *)
Definition block_signal (result : string) : bool :=
  truthy result && contains "BLOCK" (upper result).

Definition _execute_prompt_hook (self : t) (hook : HookConfig) (context : HookContext)
    (st : State) : HookResult * State :=
  match prompt hook, prompt_executor self with
  | Some template, Some run_prompt =>
      if negb (truthy template) then (ERROR, st)
      else
        let prompt := _substitute_variables self template context in
        let (outcome, w') := run_prompt prompt context (os st) in
        let st := log (Prompted prompt) (with_os w' st) in
        match outcome with
        | Returned result =>
            (if block_signal result then BLOCK else CONTINUE, st)
        | Raised e =>
            (ERROR, log (Printed ("[Hook ERROR] Prompt execution failed: " +:+ e)) st)
        end
  | _, _ => (ERROR, st)
  end.

Definition _execute_agent_hook (self : t) (hook : HookConfig) (context : HookContext)
    (st : State) : HookResult * State :=
  match agent hook, agent_executor self with
  | Some name, Some run_agent =>
      if negb (truthy name) then (ERROR, st)
      else
        let (outcome, w') := run_agent name context (os st) in
        let st := log (Delegated name) (with_os w' st) in
        match outcome with
        | Returned result =>
            (if block_signal result then BLOCK else CONTINUE, st)
        | Raised e =>
            (ERROR, log (Printed ("[Hook ERROR] Agent execution failed: " +:+ e)) st)
        end
  | _, _ => (ERROR, st)
  end.

Definition _execute_hook (self : t) (hook : HookConfig) (context : HookContext)
    (st : State) : HookResult * State :=
  if String.eqb (type hook) "command" then _execute_command_hook self hook context st
  else if String.eqb (type hook) "prompt" then _execute_prompt_hook self hook context st
  else if String.eqb (type hook) "agent" then _execute_agent_hook self hook context st
  else (ERROR, log (Printed ("Warning: Unknown hook type: " +:+ type hook)) st).

(** The loop of [execute] over the hooks of one event type; [result] is
    the outcome so far.  An exception of the matcher leaves the loop, and
    [execute], with the state as it is then. *)
Fixpoint dispatch (self : t) (type_str : string) (context : HookContext)
    (pending : list HookConfig) (result : HookResult) (st : State)
  : Os.result HookResult * State :=
  match pending with
  | [] => (Ok result, st)
  | hook :: rest =>
      match _matches (matcher hook) (tool_name context) with
      | Raise e => (Raise e, st)
      | Ok false => dispatch self type_str context rest result st
      | Ok true =>
          let id := hook_id type_str hook in
          if once hook && bool_decide (id ∈ executed_once_hooks st) then
            dispatch self type_str context rest result st
          else
            let (hook_result, st) := _execute_hook self hook context st in
            let st := if once hook then mark id st else st in
            match hook_result with
            | BLOCK => (Ok BLOCK, st)
            | ERROR => dispatch self type_str context rest ERROR st
            | CONTINUE => dispatch self type_str context rest result st
            end
      end
  end.

Definition execute (self : t) (hook_type : HookType) (context : HookContext)
    (st : State) : Os.result HookResult * State :=
  let type_str := value hook_type in
  match hooks self !! type_str with
  | None => (Ok CONTINUE, st)
  | Some registered => dispatch self type_str context registered CONTINUE st
  end.

(** *** Registering executors and hooks *)

Definition register_prompt_executor (self : t) (run_prompt : executor) : t :=
  {| project_root := project_root self; hooks := hooks self;
     prompt_executor := Some run_prompt; agent_executor := agent_executor self |}.

Definition register_agent_executor (self : t) (run_agent : executor) : t :=
  {| project_root := project_root self; hooks := hooks self;
     prompt_executor := prompt_executor self; agent_executor := Some run_agent |}.

Definition with_hooks (registered : gmap string (list HookConfig)) (self : t) : t :=
  {| project_root := project_root self; hooks := registered;
     prompt_executor := prompt_executor self; agent_executor := agent_executor self |}.

(** [hook_dict.get(key, default)], read at the type that [HookConfig]
    declares for the field.  Python stores whatever the entry holds: an
    entry whose value has another type than the declared one gives [None]
    here, and the hooks data is then outside this model. *)
Definition get_str (d : list (pyval * pyval)) (key default : string) : option string :=
  match dict_get d key (PyStr default) with
  | PyStr s => Some s
  | _ => None
  end.

Definition get_optional_str (d : list (pyval * pyval)) (key : string)
  : option (option string) :=
  match dict_get d key PyNone with
  | PyNone => Some None
  | PyStr s => Some (Some s)
  | _ => None
  end.

Definition get_int (d : list (pyval * pyval)) (key : string) (default : Z) : option Z :=
  match dict_get d key (PyInt default) with
  | PyInt z => Some z
  | _ => None
  end.

Definition get_bool (d : list (pyval * pyval)) (key : string) (default : bool)
  : option bool :=
  match dict_get d key (PyBool default) with
  | PyBool b => Some b
  | _ => None
  end.

(** The [HookConfig] made of one entry of a hook list.  Only a dict has
    the method [get]. *)
Definition config_of (hook_dict : pyval) : result (option HookConfig) :=
  match hook_dict with
  | PyDict d =>
      Ok match get_str d "type" "command", get_str d "matcher" ".*",
               get_optional_str d "command", get_optional_str d "prompt",
               get_optional_str d "agent", get_int d "timeout" 600,
               get_bool d "once" false with
         | Some type, Some matcher, Some command, Some prompt, Some agent,
           Some timeout, Some once =>
             Some {| type := type; matcher := matcher; command := command;
                     prompt := prompt; agent := agent; timeout := timeout;
                     once := once |}
         | _, _, _, _, _, _, _ => None
         end
  | _ => Raise (Exn "AttributeError" "object has no attribute 'get'")
  end.

(** What a load of hooks comes to: it returns, it raises part-way (what
    was registered before stays registered), or the data is outside the
    model. *)
Inductive load_outcome : Type :=
  | Loaded (engine : t)
  | LoadRaised (e : exn) (engine : t)
  | Untyped.

(** [if hook_type not in self.hooks: self.hooks[hook_type] = []] *)
Definition ensure_key (hook_type : string) (self : t) : t :=
  match hooks self !! hook_type with
  | Some _ => self
  | None => with_hooks (<[hook_type := []]> (hooks self)) self
  end.

(** [self.hooks[hook_type].append(config)] *)
Definition append_config (hook_type : string) (config : HookConfig) (self : t) : t :=
  match hooks self !! hook_type with
  | Some registered => with_hooks (<[hook_type := registered ++ [config]]> (hooks self)) self
  | None => self
  end.

(** The inner loop of [load_hooks]. *)
Fixpoint load_list (self : t) (hook_type : string) (hook_list : list pyval)
  : load_outcome :=
  match hook_list with
  | [] => Loaded self
  | hook_dict :: rest =>
      match config_of hook_dict with
      | Raise e => LoadRaised e self
      | Ok None => Untyped
      | Ok (Some config) => load_list (append_config hook_type config self) hook_type rest
      end
  end.

(** The outer loop of [load_hooks], over the items of the dict.  The
    keys of [self.hooks] are strings. *)
Fixpoint load_items (self : t) (items : list (pyval * pyval)) : load_outcome :=
  match items with
  | [] => Loaded self
  | (PyStr hook_type, hook_list) :: rest =>
      let self := ensure_key hook_type self in
      match iterate hook_list with
      | Items hook_dicts =>
          match load_list self hook_type hook_dicts with
          | Loaded self => load_items self rest
          | stopped => stopped
          end
      | NotIterable => LoadRaised (Exn "TypeError" "object is not iterable") self
      | UnknownItems => Untyped
      end
  | _ :: _ => Untyped
  end.

Definition load_hooks (self : t) (hooks_data : pyval) : load_outcome :=
  match hooks_data with
  | PyDict items => load_items self items
  | _ => LoadRaised (Exn "AttributeError" "object has no attribute 'items'") self
  end.

(** Whether the call returns, the engine after it and the lines printed;
    [None] when the data is outside the model.  The check that the file
    exists stands before the [try]. *)
Definition load_hooks_from_file (self : t) (w : world) (hooks_file : Os.path)
  : option (Os.result unit * t * list string) :=
  match path_exists w hooks_file with
  | Raise e => Some (Raise e, self, [])
  | Ok false => Some (Ok tt, self, [])
  | Ok true =>
    let warning (e : exn) :=
      "Warning: Failed to load hooks from " +:+ path_str hooks_file
      +:+ ": " +:+ exn_text e in
    match (get data <- read_json w hooks_file; fm_get data "hooks" data) with
    | Raise e => Some (Ok tt, self, [warning e])
    | Ok hooks_dict =>
        match load_hooks self hooks_dict with
        | Loaded self => Some (Ok tt, self, [])
        | LoadRaised e self => Some (Ok tt, self, [warning e])
        | Untyped => None
        end
    end
  end.

Definition load_hooks_from_frontmatter (self : t) (hooks_data : pyval) : load_outcome :=
  if negb (value_truthy hooks_data) then Loaded self
  else load_hooks self hooks_data.

End Engine.

End HookEngine.

(** ** The system prompt ([src/system_prompt.py]) *)

Module SystemPrompt.

Import Py Os Loader.

Section Manager.
Context `{Host}.

(** [home_dir] is what [Path.home()] gave when the manager was made. *)
Record t : Type := {
  project_root : Os.path;
  home_dir : Os.path
}.

(** One of the three blocks of [get_system_prompt]: the file, when it
    exists and is not blank, adds its section to the list. *)
Definition add_section (w : world) (file : Os.path) (title : string)
    (sections : list string) : result (list string) :=
  get found <- path_exists w file;
  if found then
    get text <- read w file;
    let content := strip text in
    if truthy content then Ok (sections ++ [title +:+ nl +:+ content])
    else Ok sections
  else Ok sections.

Definition get_system_prompt (self : t) (w : world) : result string :=
  let sections := [] in
  let global_claude := joinpath (joinpath (home_dir self) ".claude") "CLAUDE.md" in
  get sections <- add_section w global_claude "## GLOBAL INSTRUCTIONS" sections;
  let project_claude := joinpath (project_root self) "CLAUDE.md" in
  get sections <- add_section w project_claude "## PROJECT INSTRUCTIONS" sections;
  let project_context :=
    joinpath (joinpath (project_root self) ".claude") "project-context.md" in
  get sections <- add_section w project_context "## PROJECT CONTEXT" sections;
  match sections with
  | [] => Ok ""
  | _ => Ok (join (nl +:+ nl) sections)
  end.

(** The dict for OpenCode's instructions file, as its items. *)
Definition get_opencode_instruction_config (self : t) (w : world)
  : result (list (string * string)) :=
  get prompt <- get_system_prompt self w;
  if truthy prompt then Ok [("instructions", prompt)] else Ok [].

End Manager.

End SystemPrompt.

(** ** A small concrete environment

    Paths are strings.  The world lists its regular files with their
    text, its directories, the shell commands it knows with what they
    answer, and the commands run so far. *)

Module Sample.

Import Py Os.

Record World : Type := {
  files : list (string * string);
  dirs : list string;
  programs : list (string * CompletedProcess);
  history : list string
}.

Fixpoint lookup {V : Type} (key : string) (table : list (string * V)) : option V :=
  match table with
  | [] => None
  | (k, v) :: rest => if String.eqb k key then Some v else lookup key rest
  end.

Definition mem (key : string) (l : list string) : bool :=
  existsb (String.eqb key) l.

(** The text after the last slash, and the text before it. *)
Fixpoint base (p : string) : string :=
  match p with
  | EmptyString => EmptyString
  | String c r => if contains "/" r then base r else if Ascii.eqb c "/" then r else p
  end.

Fixpoint parent (p : string) : string :=
  match p with
  | EmptyString => EmptyString
  | String c r =>
      if contains "/" r then String c (parent r) else EmptyString
  end.

Fixpoint without_suffix (p : string) : string :=
  match p with
  | EmptyString => EmptyString
  | String c r =>
      if contains "." r then String c (without_suffix r)
      else if Ascii.eqb c "." then EmptyString else p
  end.

Definition ends_with_md (p : string) : bool :=
  String.eqb (drop (String.length p - 3) p) ".md" && Nat.leb 4 (String.length p).

Definition join_path (p s : string) : string :=
  if startswith "/" s then s else p +:+ "/" +:+ s.

(** Only the user's own home is known: another user's [~name] fails. *)
Definition expand (s : string) : option string :=
  match s with
  | String "~" EmptyString => Some "/home/user"
  | String "~" (String "/" r) => Some ("/home/user/" +:+ r)
  | String "~" _ => None
  | _ => Some s
  end.

Definition all_paths (w : World) : list string := map fst (files w) ++ dirs w.

(** The shell runs the commands it knows and answers 127 for the
    others; a command that begins with [sleep] outlasts every timeout, and
    a command with a null character cannot be started. *)
Definition run_shell (w : World) (command : string) : run_outcome * World :=
  let w' := {| files := files w; dirs := dirs w; programs := programs w;
               history := history w ++ [command] |} in
  if contains (String "000" EmptyString) command
  then (RunFailed "embedded null byte", w)
  else if startswith "sleep " command then (TimeoutExpired, w')
  else
    match lookup command (programs w) with
    | Some answer => (Completed answer, w')
    | None =>
        (Completed {| returncode := 127; stdout := ""; stderr := "command not found" |},
         w')
    end.

(** A status query answers, unless the last name of the path has more
    than 255 characters. *)
Definition status (p : string) (answer : bool) : result bool :=
  if Nat.ltb 255 (String.length (base p))
  then Raise (Exn "OSError" "[Errno 36] File name too long")
  else Ok answer.

#[export] Instance host : Host := {|
  world := World;
  path := string;
  path_str := fun p => p;
  joinpath := join_path;
  expanduser := fun _ s => expand s;
  path_exists := fun w p => status p (mem p (all_paths w));
  is_file := fun w p => status p (mem p (map fst (files w)));
  is_dir := fun w p => status p (mem p (dirs w));
  read_text := fun w p =>
    match lookup p (files w) with
    | Some text => inl text
    | None =>
        if mem p (dirs w) then inr "[Errno 21] Is a directory"
        else inr "[Errno 2] No such file or directory"
    end;
  subprocess_run := fun w command _ _ _ => run_shell w command;
  iterdir := fun w d =>
    if mem d (dirs w)
    then Some (List.filter (fun p => String.eqb (parent p) d) (all_paths w))
    else None;
  glob_md := fun w d =>
    (List.filter (fun p => String.eqb (parent p) d && ends_with_md p)
       (map fst (files w)), None);
  rglob_md := fun w d =>
    (List.filter (fun p => startswith (d +:+ "/") p && ends_with_md p)
       (map fst (files w)), None);
  stem := fun p => without_suffix (base p);
  basename := base;
  relative_parent := fun f d =>
    match drop (S (String.length d)) (parent f) with
    | EmptyString => "."
    | rel => rel
    end
|}.

(** A stand-in for the libraries.  A pattern with a repeat count of
    4294967295 or more overflows; a pattern is not a regular expression
    when it opens a group it never closes; [.*] matches everything; any
    other pattern is read as plain text at the start of the name.  A
    front-matter block is valid YAML when it is empty or every line has a
    colon; a value written as a date is made into a date, which fails
    for a day that does not exist; JSON is the empty object, or the empty
    object under the key [hooks]. *)
Definition digit_of (c : ascii) : option N :=
  let n := nat_of_ascii c in
  if Nat.leb 48 n && Nat.leb n 57 then Some (N.of_nat (n - 48)) else None.

Fixpoint number_at (s : string) (so_far : N) : N :=
  match s with
  | EmptyString => so_far
  | String c r =>
      match digit_of c with
      | Some d => number_at r (so_far * 10 + d)
      | None => so_far
      end
  end.

(** The largest number that follows an opening brace. *)
Fixpoint repeat_count (pattern : string) : N :=
  match pattern with
  | EmptyString => 0
  | String c r =>
      if Ascii.eqb c "{" then N.max (number_at r 0) (repeat_count r)
      else repeat_count r
  end.

Definition toy_match (pattern s : string) : re_outcome :=
  if N.leb 4294967295 (repeat_count pattern)
  then ReRaised (Exn "OverflowError" "the repetition number is too large")
  else if contains "(" pattern && negb (contains ")" pattern) then ReError
  else if String.eqb pattern ".*" then ReMatch true
  else ReMatch (startswith (upper pattern) (upper s)).

(** The year, the month and the day of a text of the shape
    [dddd-dd-dd]. *)
Definition date_of (v : string) : option (N * N * N) :=
  match v with
  | String y1 (String y2 (String y3 (String y4 (String "-"
      (String m1 (String m2 (String "-" (String d1 (String d2 EmptyString))))))))) =>
      match digit_of y1, digit_of y2, digit_of y3, digit_of y4,
            digit_of m1, digit_of m2, digit_of d1, digit_of d2 with
      | Some a, Some b, Some c, Some d, Some e, Some f, Some g, Some h =>
          Some (((a * 10 + b) * 10 + c) * 10 + d, e * 10 + f, g * 10 + h)%N
      | _, _, _, _, _, _, _, _ => None
      end
  | _ => None
  end.

Definition leap (year : N) : bool :=
  (N.eqb (year mod 4) 0 && negb (N.eqb (year mod 100) 0)) || N.eqb (year mod 400) 0.

Definition days_in_month (year month : N) : N :=
  if N.eqb month 2 then (if leap year then 29 else 28)
  else if N.eqb month 4 || N.eqb month 6 || N.eqb month 9 || N.eqb month 11 then 30
  else 31.

(** The value that a scalar stands for: a date for a text written as a
    date, made as [datetime.date] makes it, the text itself otherwise. *)
Definition toy_scalar (v : string) : result pyval :=
  match date_of v with
  | Some (year, month, day) =>
      if N.eqb year 0 then Raise (Exn "ValueError" "year 0 is out of range")
      else if negb (N.leb 1 month && N.leb month 12)
      then Raise (Exn "ValueError" "month must be in 1..12")
      else if negb (N.leb 1 day && N.leb day (days_in_month year month))
      then Raise (Exn "ValueError" "day is out of range for month")
      else Ok (PyOther v true true)
  | None => Ok (PyStr v)
  end.

Fixpoint key_value (line : string) : option (string * string) :=
  match line with
  | EmptyString => None
  | String ":" r => Some (EmptyString, strip r)
  | String c r =>
      match key_value r with
      | Some (k, v) => Some (String c k, v)
      | None => None
      end
  end.

Fixpoint toy_yaml_lines (lines : list string) : option (list (string * string)) :=
  match lines with
  | [] => Some []
  | line :: rest =>
      match key_value line, toy_yaml_lines rest with
      | Some (k, v), Some d => Some ((k, v) :: d)
      | _, _ => None
      end
  end.

(** The mapping made of the parsed lines; the first value that cannot be
    made ends it. *)
Fixpoint toy_construct (entries : list (string * string)) : result (list (pyval * pyval)) :=
  match entries with
  | [] => Ok []
  | (k, v) :: rest =>
      and_then (toy_scalar v) (fun x =>
      and_then (toy_construct rest) (fun d =>
      Ok ((PyStr k, x) :: d)))
  end.

Definition toy_yaml (text : string) : yaml_outcome :=
  if truthy (strip text) then
    match toy_yaml_lines (split newline text) with
    | Some entries =>
        match toy_construct entries with
        | Ok d => YamlValue (PyDict d)
        | Raise e => YamlOtherError e
        end
    | None => YamlError
    end
  else YamlValue PyNone.

Definition quote : string := String (ascii_of_nat 34) EmptyString.

Definition toy_json (text : string) : option pyval :=
  if String.eqb (strip text) "{}" then Some (PyDict [])
  else if String.eqb (strip text) ("{" +:+ quote +:+ "hooks" +:+ quote +:+ ": {}}")
  then Some (PyDict [(PyStr "hooks", PyDict [])])
  else None.

#[export] Instance library : Library := {|
  re_match_ignorecase := toy_match;
  yaml_safe_load := toy_yaml;
  json_loads := toy_json;
  json_dumps := fun _ => "{}";
  repr_container := fun _ => "[...]"
|}.

(** *** A project to run the examples on *)

Definition process (code : Z) (out err : string) : CompletedProcess :=
  {| returncode := code; stdout := out; stderr := err |}.

Definition line (text : string) : string := text +:+ String newline EmptyString.

(** A project with one note, and four commands the shell knows: a build
    that succeeds with a warning, an echo, a check that vetoes and an
    audit that passes. *)
Definition workshop : @world host := {|
  files := [("/proj/notes.txt", "pay $1 now")];
  dirs := ["/proj"];
  programs :=
    [ ("build", process 0 (line "done") (line "warning: x"));
      ("echo hi", process 0 (line "hi") "");
      ("check", process 2 "" (line "denied"));
      ("audit", process 0 "" "") ];
  history := []
|}.

(** A project and a plugin that both have a command named foo. *)
Definition checkout : @world host := {|
  files :=
    [ ("/proj/.claude/commands/foo.md", "project version");
      ("/proj/.claude-plugins/pack/plugin.json", "{}");
      ("/proj/.claude-plugins/pack/commands/foo.md", "plugin version") ];
  dirs :=
    [ "/proj"; "/proj/.claude"; "/proj/.claude/commands"; "/proj/.claude-plugins";
      "/proj/.claude-plugins/pack"; "/proj/.claude-plugins/pack/commands" ];
  programs := [];
  history := []
|}.

(** A project with a file of steps that holds a reference, an inline
    command and a placeholder, beside the note. *)
Definition desk : @world host := {|
  files :=
    [ ("/proj/notes.txt", "pay $1 now");
      ("/proj/steps.md", "see @notes.txt then !`echo hi` for $1") ];
  dirs := ["/proj"];
  programs := [("echo hi", process 0 (line "hi") "")];
  history := []
|}.

(** A project with two commands, the first with a date in its front
    matter that cannot be made. *)
Definition shelf : @world host := {|
  files :=
    [ ("/proj/.claude/commands/a.md",
       "---" +:+ line "" +:+ "d: 2001-13-45" +:+ line "" +:+ "---" +:+ line "" +:+ "body");
      ("/proj/.claude/commands/b.md", "plain body") ];
  dirs := ["/proj"; "/proj/.claude"; "/proj/.claude/commands"];
  programs := [];
  history := []
|}.

(** A home and a project with the three sources of the system prompt;
    the same with a blank context and no global instructions; and a home
    where the global instructions are a directory. *)
Definition study : @world host := {|
  files :=
    [ ("/home/user/.claude/CLAUDE.md", line "Be brief.");
      ("/proj/CLAUDE.md", line "Use tabs.");
      ("/proj/.claude/project-context.md", line "Sprint 3") ];
  dirs := ["/home/user"; "/home/user/.claude"; "/proj"; "/proj/.claude"];
  programs := [];
  history := []
|}.

Definition study_blank : @world host := {|
  files :=
    [ ("/proj/CLAUDE.md", line "Use tabs.");
      ("/proj/.claude/project-context.md", line "  ") ];
  dirs := ["/home/user"; "/proj"; "/proj/.claude"];
  programs := [];
  history := []
|}.


(** A project with two hooks files, one that gives its hooks under the
    key [hooks] and one that is the mapping itself. *)
Definition hooked : @world host := {|
  files :=
    [ ("/proj/hooks/hooks.json", "{" +:+ quote +:+ "hooks" +:+ quote +:+ ": {}}");
      ("/proj/hooks/bare.json", "{}") ];
  dirs := ["/proj"; "/proj/hooks"];
  programs := [];
  history := []
|}.

Definition manager : SystemPrompt.t :=
  {| SystemPrompt.project_root := "/proj"; SystemPrompt.home_dir := "/home/user" |}.

Definition executor : CommandExecutor.t := {| CommandExecutor.project_root := "/proj" |}.

(** A command that is only a body. *)
Definition command_with (text : string) : Loader.Command.t := {|
  Loader.Command.name := "demo";
  Loader.Command.path := "/proj/.claude/commands/demo.md";
  Loader.Command.description := PyStr "";
  Loader.Command.argument_hint := PyStr "";
  Loader.Command.allowed_tools := [];
  Loader.Command.disallowed_tools := [];
  Loader.Command.model := PyNone;
  Loader.Command.hooks := PyDict [];
  Loader.Command.content := text;
  Loader.Command.scope := "project";
  Loader.Command.namespace := "";
  Loader.Command.context := PyStr "main";
  Loader.Command.agent := PyNone
|}.

(** A command with tools and a model. *)
Definition tooled (tools disallowed : list string) (model : pyval)
  : Loader.Command.t := {|
  Loader.Command.name := "ship";
  Loader.Command.path := "/proj/.claude/commands/ship.md";
  Loader.Command.description := PyStr "";
  Loader.Command.argument_hint := PyStr "";
  Loader.Command.allowed_tools := tools;
  Loader.Command.disallowed_tools := disallowed;
  Loader.Command.model := model;
  Loader.Command.hooks := PyDict [];
  Loader.Command.content := "Ship it";
  Loader.Command.scope := "project";
  Loader.Command.namespace := "";
  Loader.Command.context := PyStr "main";
  Loader.Command.agent := PyNone
|}.

Definition command_hook (pattern shell : string) (only_once : bool)
  : HookEngine.HookConfig := {|
  HookEngine.type := "command";
  HookEngine.matcher := pattern;
  HookEngine.command := Some shell;
  HookEngine.prompt := None;
  HookEngine.agent := None;
  HookEngine.timeout := 600;
  HookEngine.once := only_once
|}.

(** Five hooks: a guard that vetoes every tool, an auditor that runs once
    for Bash, a hook whose matcher is not a regular expression, a hook
    whose matcher asks for more repeats than the library can count, and a
    guard of the writing tools. *)
Definition guard : HookEngine.HookConfig := command_hook ".*" "check" false.
Definition auditor : HookEngine.HookConfig := command_hook "Bash" "audit" true.
Definition broken : HookEngine.HookConfig := command_hook "(" "audit" false.
Definition overflowing : HookEngine.HookConfig :=
  command_hook "x{4294967295}" "audit" false.

(** An engine whose hooks are all registered for PreToolUse. *)
Definition engine_with (registered : list HookEngine.HookConfig) : HookEngine.t := {|
  HookEngine.project_root := "/proj";
  HookEngine.hooks := {[ "PreToolUse" := registered ]};
  HookEngine.prompt_executor := None;
  HookEngine.agent_executor := None
|}.

(** A prompt hook, and a runner of prompts that always gives the same
    answer. *)
Definition prompt_hook (pattern text : string) : HookEngine.HookConfig := {|
  HookEngine.type := "prompt";
  HookEngine.matcher := pattern;
  HookEngine.command := None;
  HookEngine.prompt := Some text;
  HookEngine.agent := None;
  HookEngine.timeout := 600;
  HookEngine.once := false
|}.

Definition answering (answer : string) : @HookEngine.executor host :=
  fun _ _ w => (HookEngine.Returned answer, w).

(** A command hook whose command the shell does not know. *)
Definition linter : HookEngine.HookConfig := command_hook ".*" "lint" false.

Definition use_of (tool : string) : HookEngine.HookContext := {|
  HookEngine.hook_type := HookEngine.PRETOOLUSE;
  HookEngine.tool_name := tool;
  HookEngine.tool_input := PyDict [];
  HookEngine.tool_output := "";
  HookEngine.error := "";
  HookEngine.session_id := "s1";
  HookEngine.agent_name := "";
  HookEngine.plugin_root := "";
  HookEngine.ctx_project_root := ""
|}.

Definition start (w : @world host) : HookEngine.State := {|
  HookEngine.executed_once_hooks := ∅;
  HookEngine.os := w;
  HookEngine.trace := []
|}.

End Sample.

(** * Properties *)

(** ** Scanning and replacing *)

Module PyFacts.

Import Py.

Lemma str_app_cons (a : ascii) (s t : string) : String a s +:+ t = String a (s +:+ t).
Proof. reflexivity. Qed.

Lemma str_app_nil_l (s : string) : EmptyString +:+ s = s.
Proof. reflexivity. Qed.

Lemma str_app_nil_r (s : string) : s +:+ EmptyString = s.
Proof.
  induction s as [|a s IH]; [reflexivity|]. rewrite str_app_cons, IH. reflexivity.
Qed.

Lemma str_app_assoc (s t u : string) : (s +:+ t) +:+ u = s +:+ (t +:+ u).
Proof.
  induction s as [|a s IH]; [reflexivity|]. rewrite !str_app_cons, IH. reflexivity.
Qed.

Lemma drop_length_app (s t : string) : drop (String.length s) (s +:+ t) = t.
Proof.
  induction s as [|a s IH]; [reflexivity|]. rewrite str_app_cons. simpl. exact IH.
Qed.

Lemma drop_past (s : string) (c : ascii) (t : string) :
  drop (S (String.length s)) (s +:+ String c t) = t.
Proof.
  induction s as [|a s IH]; [reflexivity|]. rewrite str_app_cons. simpl. exact IH.
Qed.

Lemma scan_from_drop (m : matcher) (k : nat) (s : string) :
  scan_from m k s = scan_from m 0 (drop k s).
Proof.
  revert k. induction s as [|c r IH]; intros [|k]; try reflexivity.
  simpl. apply IH.
Qed.

Lemma scan_nil (m : matcher) : scan m EmptyString = [].
Proof. reflexivity. Qed.

Lemma scan_match (m : matcher) (c : ascii) (r g : string) (len : nat) :
  m (String c r) = Some (g, len) ->
  scan m (String c r) = Group g :: scan m (drop (len - 1) r).
Proof.
  intros Hm. unfold scan. simpl. rewrite Hm. f_equal. apply scan_from_drop.
Qed.

Lemma scan_no_match (m : matcher) (c : ascii) (r : string) :
  m (String c r) = None ->
  scan m (String c r) = Lit c :: scan m r.
Proof. intros Hm. unfold scan. simpl. rewrite Hm. reflexivity. Qed.

(** The defining equations of [str.replace] for a needle [String a old]. *)
Lemma replace_empty (old new : string) :
  replace old new EmptyString =
  match old with
  | EmptyString => new
  | _ => EmptyString
  end.
Proof.
  destruct old; [|reflexivity].
  unfold replace. simpl. apply str_app_nil_r.
Qed.

Lemma replace_cons (a : ascii) (old new : string) (c : ascii) (r : string) :
  replace (String a old) new (String c r) =
  if startswith (String a old) (String c r)
  then new +:+ replace (String a old) new (drop (String.length old) r)
  else String c (replace (String a old) new r).
Proof.
  unfold replace.
  destruct (startswith (String a old) (String c r)) eqn:Hp.
  - rewrite (scan_match _ c r EmptyString (String.length (String a old))).
    + simpl. rewrite Nat.sub_0_r. reflexivity.
    + unfold literally. rewrite Hp. reflexivity.
  - rewrite scan_no_match; [reflexivity|].
    unfold literally. rewrite Hp. reflexivity.
Qed.

Lemma length_drop_le (k : nat) (s : string) : String.length (drop k s) <= String.length s.
Proof.
  revert k. induction s as [|c r IH]; intros [|k]; simpl; try lia.
  specialize (IH k). lia.
Qed.

Lemma contains_tail (t : string) (c : ascii) (r : string) :
  contains t (String c r) = false -> contains t r = false.
Proof. simpl. intros Hc. apply orb_false_elim in Hc. tauto. Qed.

Lemma contains_drop (t : string) (k : nat) (s : string) :
  contains t s = false -> contains t (drop k s) = false.
Proof.
  revert k. induction s as [|c r IH]; intros [|k] Hc; simpl; auto.
  apply IH. eapply contains_tail, Hc.
Qed.

Lemma prefix_pair (a b c : ascii) (r : string) :
  startswith (String a (String b EmptyString)) (String c r) = true <->
  a = c /\ exists r', r = String b r'.
Proof.
  simpl. destruct r as [|c' r'].
  - rewrite andb_false_r. split; [discriminate|intros [_ [? ?]]; discriminate].
  - rewrite andb_true_r, andb_true_iff, !Ascii.eqb_eq. split.
    + intros [-> ->]. eauto.
    + intros [-> [r0 Hr]]. injection Hr as -> _. auto.
Qed.

Lemma prefix_head (a : ascii) (old : string) (c : ascii) (r : string) :
  startswith (String a old) (String c r) = true -> a = c.
Proof. simpl. rewrite andb_true_iff, Ascii.eqb_eq. tauto. Qed.

Lemma no_double_head (d : ascii) (r : string) :
  contains (String d (String d EmptyString)) (String d r) = false ->
  startswith (String d EmptyString) r = false.
Proof.
  intros Hdd. simpl in Hdd. apply orb_false_elim in Hdd. destruct Hdd as [Hh _].
  rewrite Ascii.eqb_refl in Hh. simpl in Hh.
  destruct r as [|c' r']; [reflexivity|]. simpl.
  rewrite andb_true_r in *. exact Hh.
Qed.

(** Deleting a needle that starts with [d] from a text in which no [d]
    follows a [d] leaves such a text. *)
Lemma delete_keeps_no_double (d : ascii) (old : string) (n : nat) (s : string) :
  String.length s <= n ->
  contains (String d (String d EmptyString)) s = false ->
  contains (String d (String d EmptyString)) (replace (String d old) EmptyString s) = false.
Proof.
  revert s. induction n as [|n IH]; intros s Hlen Hdd.
  - destruct s; [|simpl in Hlen; lia]. rewrite replace_empty. reflexivity.
  - destruct s as [|c r]; [rewrite replace_empty; reflexivity|].
    simpl in Hlen. rewrite replace_cons.
    destruct (startswith (String d old) (String c r)) eqn:Hp.
    + rewrite str_app_nil_l. apply IH.
      * pose proof (length_drop_le (String.length old) r). lia.
      * apply contains_drop. eapply contains_tail, Hdd.
    + pose proof (contains_tail _ _ _ Hdd) as Hr.
      assert (IHr := IH r ltac:(lia) Hr).
      change (contains ?t (String c ?x)) with (startswith t (String c x) || contains t x).
      rewrite IHr, orb_false_r.
      destruct (startswith (String d (String d EmptyString))
                  (String c (replace (String d old) EmptyString r))) eqn:Hq; [|reflexivity].
      apply prefix_pair in Hq. destruct Hq as [<- [r' Hr']].
      destruct r as [|c' r0]; [rewrite replace_empty in Hr'; discriminate|].
      rewrite replace_cons in Hr'.
      destruct (startswith (String d old) (String c' r0)) eqn:Hp'.
      * apply prefix_head in Hp'. subst c'.
        apply no_double_head in Hdd. simpl in Hdd.
        rewrite Ascii.eqb_refl in Hdd. discriminate.
      * injection Hr' as -> _.
        apply no_double_head in Hdd. simpl in Hdd.
        rewrite Ascii.eqb_refl in Hdd. discriminate.
Qed.

(** Deleting the two-character needle [d k]: no pair [d j] appears that
    was not there, and no [d k] remains. *)
Lemma delete_pair (d k j : ascii) (n : nat) (s : string) :
  String.length s <= n ->
  contains (String d (String d EmptyString)) s = false ->
  j = k \/ contains (String d (String j EmptyString)) s = false ->
  contains (String d (String j EmptyString))
    (replace (String d (String k EmptyString)) EmptyString s) = false.
Proof.
  revert s. induction n as [|n IH]; intros s Hlen Hdd Hj.
  - destruct s; [|simpl in Hlen; lia]. rewrite replace_empty. reflexivity.
  - destruct s as [|c r]; [rewrite replace_empty; reflexivity|].
    simpl in Hlen. rewrite replace_cons.
    destruct (startswith (String d (String k EmptyString)) (String c r)) eqn:Hp.
    + rewrite str_app_nil_l. apply IH.
      * pose proof (length_drop_le 1 r).
        change (String.length (String k EmptyString)) with 1. lia.
      * apply contains_drop. eapply contains_tail, Hdd.
      * destruct Hj as [Hj|Hj]; [left; exact Hj|right].
        apply contains_drop. eapply contains_tail, Hj.
    + pose proof (contains_tail _ _ _ Hdd) as Hr.
      assert (Hjr : j = k \/ contains (String d (String j EmptyString)) r = false).
      { destruct Hj as [Hj|Hj]; [left; exact Hj|right; eapply contains_tail, Hj]. }
      assert (IHr := IH r ltac:(lia) Hr Hjr).
      change (contains ?t (String c ?x)) with (startswith t (String c x) || contains t x).
      rewrite IHr, orb_false_r.
      destruct (startswith (String d (String j EmptyString))
                  (String c (replace (String d (String k EmptyString)) EmptyString r)))
        eqn:Hq; [|reflexivity].
      apply prefix_pair in Hq. destruct Hq as [<- [r' Hr']].
      destruct r as [|c' r0]; [rewrite replace_empty in Hr'; discriminate|].
      rewrite replace_cons in Hr'.
      destruct (startswith (String d (String k EmptyString)) (String c' r0)) eqn:Hp'.
      * apply prefix_head in Hp'. subst c'.
        apply no_double_head in Hdd. simpl in Hdd.
        rewrite Ascii.eqb_refl in Hdd. discriminate.
      * injection Hr' as -> _.
        destruct Hj as [->|Hj].
        -- simpl in Hp. rewrite !Ascii.eqb_refl in Hp. discriminate.
        -- simpl in Hj. rewrite !Ascii.eqb_refl in Hj. discriminate.
Qed.

Lemma delete_pairs_clean (d : ascii) (ks : list ascii) (s : string) (j : ascii) :
  contains (String d (String d EmptyString)) s = false ->
  In j ks \/ contains (String d (String j EmptyString)) s = false ->
  contains (String d (String j EmptyString)) (delete_pairs d ks s) = false.
Proof.
  revert s. induction ks as [|k ks IH]; intros s Hdd Hj; simpl.
  - destruct Hj as [[]|Hj]. exact Hj.
  - apply IH.
    + apply (delete_pair d k d (String.length s)); auto.
    + destruct Hj as [[->|Hin]|Hj].
      * right. apply (delete_pair d j j (String.length s)); auto.
      * left. exact Hin.
      * right. apply (delete_pair d k j (String.length s)); auto.
Qed.

Lemma contains_char_cons (a c : ascii) (r : string) :
  contains (String a EmptyString) (String c r) = false ->
  Ascii.eqb c a = false /\ contains (String a EmptyString) r = false.
Proof.
  simpl. rewrite andb_true_r. intros Hc. apply orb_false_elim in Hc.
  destruct Hc as [Hh Ht]. rewrite Ascii.eqb_sym. auto.
Qed.

Lemma contains_char_app (d : ascii) (a b : string) :
  contains (String d EmptyString) a = false ->
  contains (String d EmptyString) b = false ->
  contains (String d EmptyString) (a +:+ b) = false.
Proof.
  induction a as [|c r IH]; intros Ha Hb; [exact Hb|].
  apply contains_char_cons in Ha. destruct Ha as [Hh Ht].
  rewrite str_app_cons.
  change (contains (String d EmptyString) (String c (r +:+ b)))
    with (Ascii.eqb d c && true || contains (String d EmptyString) (r +:+ b)).
  rewrite (Ascii.eqb_sym d c), Hh. cbn [andb orb]. apply IH; assumption.
Qed.

(** A needle whose first character the text does not hold is not found. *)
Lemma replace_absent (d : ascii) (old new s : string) :
  contains (String d EmptyString) s = false ->
  replace (String d old) new s = s.
Proof.
  induction s as [|c r IH]; intros Hc; [apply replace_empty|].
  apply contains_char_cons in Hc. destruct Hc as [Hh Ht].
  rewrite replace_cons.
  change (startswith (String d old) (String c r))
    with (Ascii.eqb d c && startswith old r).
  rewrite (Ascii.eqb_sym d c), Hh. cbn [andb]. rewrite (IH Ht). reflexivity.
Qed.


Lemma contains_cons (t : string) (c : ascii) (r : string) :
  contains t (String c r) = startswith t (String c r) || contains t r.
Proof. reflexivity. Qed.

Lemma startswith_app (p s : string) : startswith p (p +:+ s) = true.
Proof.
  induction p as [|a p IH]; [reflexivity|].
  rewrite str_app_cons. simpl. rewrite Ascii.eqb_refl. exact IH.
Qed.

(** A needle that does not occur is not replaced. *)
Lemma replace_not_found (a : ascii) (old new s : string) :
  contains (String a old) s = false -> replace (String a old) new s = s.
Proof.
  induction s as [|c r IH]; intros Hc; [apply replace_empty|].
  rewrite contains_cons in Hc. apply orb_false_elim in Hc. destruct Hc as [Hh Ht].
  rewrite replace_cons, Hh, (IH Ht). reflexivity.
Qed.



Lemma every_no_char (d : ascii) (s : string) :
  every (fun c => negb (Ascii.eqb c d)) s = true <->
  contains (String d EmptyString) s = false.
Proof.
  induction s as [|c r IH]; [split; reflexivity|].
  rewrite contains_cons. simpl. rewrite andb_true_r, (Ascii.eqb_sym d c).
  destruct (Ascii.eqb c d); simpl; [split; discriminate|exact IH].
Qed.


End PyFacts.

(** ** The command executor *)

Module CommandFacts.

Import Py Os Loader CommandExecutor PyFacts.

(** *** Stage 1: argument substitution *)

Lemma remove_positional_digits (s : string) :
  remove_positional (seq 1 9) s =
  delete_pairs "$" ["1"; "2"; "3"; "4"; "5"; "6"; "7"; "8"; "9"]%char s.
Proof. reflexivity. Qed.

Lemma substitute_no_arguments (content : string) :
  _substitute_arguments content [] =
  remove_positional (seq 1 9) (replace "$ARGUMENTS" "" content).
Proof. reflexivity. Qed.

(** With no argument and a body without two dollar signs in a row, what
    stage 1 returns holds none of the nine positional placeholders. *)
Lemma substitute_removes_placeholders (content : string) (i : nat) :
  contains "$$" content = false ->
  1 <= i <= 9 ->
  contains (placeholder i) (_substitute_arguments content []) = false.
Proof.
  intros Hdd Hi.
  rewrite substitute_no_arguments, remove_positional_digits.
  assert (Hclean : contains "$$" (replace "$ARGUMENTS" "" content) = false).
  { apply (delete_keeps_no_double "$" "ARGUMENTS" (String.length content)); auto. }
  assert (Hcases : i = 1 \/ i = 2 \/ i = 3 \/ i = 4 \/ i = 5 \/ i = 6 \/ i = 7
                   \/ i = 8 \/ i = 9) by lia.
  destruct Hcases as [->|[->|[->|[->|[->|[->|[->|[->| ->]]]]]]]];
    apply (delete_pairs_clean "$"); auto; left; simpl; tauto.
Qed.

(** A text without dollar sign is left as it is, whatever the arguments. *)
Lemma substitute_plain_text (text : string) (arguments : list string) :
  contains "$" text = false -> _substitute_arguments text arguments = text.
Proof.
  intros Hplain. unfold _substitute_arguments.
  rewrite (replace_absent "$" "ARGUMENTS" _ text Hplain).
  assert (Hpos : forall args i, substitute_positional i args text = text).
  { induction args as [|arg args IH]; intros i; [reflexivity|].
    cbn [substitute_positional].
    change (placeholder i) with (String "$" (decimal (Z.of_nat i))).
    rewrite (replace_absent "$" _ arg text Hplain). apply IH. }
  rewrite Hpos, remove_positional_digits. unfold delete_pairs.
  repeat match goal with
         | |- context [replace (String "$" ?digit) EmptyString text] =>
             rewrite (replace_absent "$" digit EmptyString text Hplain)
         end.
  reflexivity.
Qed.











(** *** Texts without tokens pass a stage unchanged *)

Lemma scan_without_at (s : string) :
  contains "@" s = false -> scan file_reference s = literals s.
Proof.
  induction s as [|c r IH]; intros Hc; [reflexivity|].
  apply contains_char_cons in Hc. destruct Hc as [Hh Ht].
  rewrite scan_no_match.
  - simpl. f_equal. apply IH, Ht.
  - unfold file_reference. rewrite Hh. reflexivity.
Qed.

Lemma scan_without_bang (s : string) :
  contains "!" s = false -> scan inline_command s = literals s.
Proof.
  induction s as [|c r IH]; intros Hc; [reflexivity|].
  apply contains_char_cons in Hc. destruct Hc as [Hh Ht].
  rewrite scan_no_match.
  - simpl. f_equal. apply IH, Ht.
  - unfold inline_command. destruct r; [reflexivity|]. rewrite Hh. reflexivity.
Qed.

Section Stages.
Context `{Host}.

Lemma sub_or_raise_literals (repl : string -> result string) (s : string) :
  sub_or_raise repl (literals s) = Ok s.
Proof. induction s as [|c r IH]; simpl; [reflexivity|]. rewrite IH. reflexivity. Qed.

Lemma sub_in_world_literals (repl : string -> world -> string * world) (s : string)
    (w : world) :
  sub_in_world repl (literals s) w = (s, w).
Proof. induction s as [|c r IH]; simpl; [reflexivity|]. rewrite IH. reflexivity. Qed.

Lemma sub_in_world_app (repl : string -> world -> string * world)
    (ts1 ts2 : list token) (w : world) :
  sub_in_world repl (ts1 ++ ts2) w =
  let (t1, w1) := sub_in_world repl ts1 w in
  let (t2, w2) := sub_in_world repl ts2 w1 in
  (t1 +:+ t2, w2).
Proof.
  revert w. induction ts1 as [|[c|g] ts1 IH]; intros w; simpl.
  - destruct (sub_in_world repl ts2 w). reflexivity.
  - rewrite IH. destruct (sub_in_world repl ts1 w) as [t1 w1].
    destruct (sub_in_world repl ts2 w1). reflexivity.
  - destruct (repl g w) as [x w0]. rewrite IH.
    destruct (sub_in_world repl ts1 w0) as [t1 w1].
    destruct (sub_in_world repl ts2 w1). rewrite str_app_assoc. reflexivity.
Qed.

(** A text with neither an at sign nor an exclamation mark is its own
    prompt. *)
Lemma stages_keep_plain_text (self : CommandExecutor.t) (s : string) (w : world) :
  contains "@" s = false ->
  contains "!" s = false ->
  _resolve_file_references self w s = Ok s /\ _execute_inline_bash self s w = (s, w).
Proof.
  intros Hat Hbang. unfold _resolve_file_references, _execute_inline_bash.
  rewrite scan_without_at, scan_without_bang by assumption.
  rewrite sub_or_raise_literals, sub_in_world_literals. auto.
Qed.

(** C4 (amended).  For a body in which no dollar sign follows another,
    argument substitution with an empty argument list returns a text that
    holds none of $1 .. $9; and when that text has no at sign and no
    exclamation mark, [prepare_prompt] returns exactly that text.  Text
    inlined by the later stages is not substituted, and bodies with two
    dollar signs in a row are left out. *)
Theorem no_arguments_no_placeholders
    (self : CommandExecutor.t) (command : Command.t) (w : world) (i : nat) :
  contains "$$" (Command.content command) = false ->
  1 <= i <= 9 ->
  let substituted := _substitute_arguments (Command.content command) [] in
  contains (placeholder i) substituted = false
  /\ (contains "@" substituted = false ->
      contains "!" substituted = false ->
      prepare_prompt self command [] w = (Ok substituted, w)).
Proof.
  intros Hdd Hi substituted. split.
  - apply substitute_removes_placeholders; assumption.
  - intros Hat Hbang. unfold prepare_prompt. fold substituted.
    destruct (stages_keep_plain_text self substituted w Hat Hbang) as [-> ->].
    reflexivity.
Qed.

(** *** Stage 2: file references *)

Lemma reference_not_found (self : CommandExecutor.t) (w : world)
    (file_path : string) (p : Os.path) :
  path_exists w (joinpath (project_root self) file_path) = Ok false ->
  expanduser w file_path = Some p ->
  path_exists w p = Ok false
  \/ (path_exists w p = Ok true /\ is_file w p = Ok false) ->
  replace_reference self w file_path = Ok ("[File not found: " +:+ file_path +:+ "]").
Proof.
  intros Hrel Hexp Hnone. unfold replace_reference, and_then.
  rewrite Hrel. cbn [negb]. rewrite Hexp.
  destruct Hnone as [Hex|[Hex Hfile]]; rewrite Hex; [|rewrite Hfile]; reflexivity.
Qed.

Lemma reference_directory (self : CommandExecutor.t) (w : world) (file_path : string) :
  path_exists w (joinpath (project_root self) file_path) = Ok true ->
  is_file w (joinpath (project_root self) file_path) = Ok false ->
  replace_reference self w file_path = Ok ("[File not found: " +:+ file_path +:+ "]").
Proof.
  intros Hrel Hdir. unfold replace_reference, and_then.
  rewrite Hrel. cbn [negb]. rewrite Hrel, Hdir. reflexivity.
Qed.

Lemma reference_unreadable (self : CommandExecutor.t) (w : world)
    (file_path : string) (p : Os.path) (e : string) :
  (path_exists w (joinpath (project_root self) file_path) = Ok true
   /\ p = joinpath (project_root self) file_path)
  \/ (path_exists w (joinpath (project_root self) file_path) = Ok false
      /\ expanduser w file_path = Some p) ->
  path_exists w p = Ok true -> is_file w p = Ok true ->
  read_text w p = inr e ->
  replace_reference self w file_path =
  Ok ("[Error reading " +:+ file_path +:+ ": " +:+ e +:+ "]").
Proof.
  intros [[Hrel ->]|[Hrel Hexp]] Hex Hfile Hread; unfold replace_reference, and_then.
  - rewrite Hrel. cbn [negb]. rewrite Hrel, Hfile, Hread. reflexivity.
  - rewrite Hrel. cbn [negb]. rewrite Hexp, Hex, Hfile, Hread. reflexivity.
Qed.

Lemma reference_found (self : CommandExecutor.t) (w : world)
    (file_path : string) (p : Os.path) (file_content : string) :
  (path_exists w (joinpath (project_root self) file_path) = Ok true
   /\ p = joinpath (project_root self) file_path)
  \/ (path_exists w (joinpath (project_root self) file_path) = Ok false
      /\ expanduser w file_path = Some p) ->
  path_exists w p = Ok true -> is_file w p = Ok true ->
  read_text w p = inl file_content ->
  replace_reference self w file_path
  = Ok (nl +:+ "--- Content of " +:+ file_path +:+ " ---" +:+ nl
        +:+ file_content +:+ nl
        +:+ "--- End of " +:+ file_path +:+ " ---" +:+ nl).
Proof.
  intros [[Hrel ->]|[Hrel Hexp]] Hex Hfile Hread; unfold replace_reference, and_then.
  - rewrite Hrel. cbn [negb]. rewrite Hrel, Hfile, Hread. reflexivity.
  - rewrite Hrel. cbn [negb]. rewrite Hexp, Hex, Hfile, Hread. reflexivity.
Qed.

Lemma reference_unknown_user (self : CommandExecutor.t) (w : world) (file_path : string) :
  path_exists w (joinpath (project_root self) file_path) = Ok false ->
  expanduser w file_path = None ->
  replace_reference self w file_path =
  Raise (Exn "RuntimeError" "Could not determine home directory.").
Proof.
  intros Hrel Hexp. unfold replace_reference, and_then. rewrite Hrel. cbn [negb].
  rewrite Hexp. reflexivity.
Qed.

(** An error of the first status query leaves the function. *)
Lemma reference_status_raises (self : CommandExecutor.t) (w : world)
    (file_path : string) (e : exn) :
  path_exists w (joinpath (project_root self) file_path) = Raise e ->
  replace_reference self w file_path = Raise e.
Proof. intros Hrel. unfold replace_reference, and_then. rewrite Hrel. reflexivity. Qed.

Lemma sub_or_raise_app (repl : string -> result string) (ts1 ts2 : list token) :
  sub_or_raise repl (ts1 ++ ts2) =
  match sub_or_raise repl ts1 with
  | Ok t1 =>
      match sub_or_raise repl ts2 with
      | Ok t2 => Ok (t1 +:+ t2)
      | Raise e => Raise e
      end
  | Raise e => Raise e
  end.
Proof.
  induction ts1 as [|[c|g] ts1 IH]; simpl.
  - destruct (sub_or_raise repl ts2); reflexivity.
  - rewrite IH. destruct (sub_or_raise repl ts1); [|reflexivity].
    destruct (sub_or_raise repl ts2); reflexivity.
  - destruct (repl g) as [x|e]; [|reflexivity]. rewrite IH.
    destruct (sub_or_raise repl ts1); [|reflexivity].
    destruct (sub_or_raise repl ts2); [|reflexivity].
    rewrite str_app_assoc. reflexivity.
Qed.

(** A reference that no candidate path resolves to a regular file is
    replaced, where it stands, by the not-found marker. *)
Lemma missing_reference_marked (self : CommandExecutor.t) (w : world)
    (content : string) (before : list token) (file_path : string)
    (after : list token) (p : Os.path) (t1 t2 : string) :
  scan file_reference content = before ++ Group file_path :: after ->
  sub_or_raise (replace_reference self w) before = Ok t1 ->
  sub_or_raise (replace_reference self w) after = Ok t2 ->
  path_exists w (joinpath (project_root self) file_path) = Ok false ->
  expanduser w file_path = Some p ->
  path_exists w p = Ok false
  \/ (path_exists w p = Ok true /\ is_file w p = Ok false) ->
  _resolve_file_references self w content =
  Ok (t1 +:+ "[File not found: " +:+ file_path +:+ "]" +:+ t2).
Proof.
  intros Hscan Hb Ha Hrel Hexp Hnone. unfold _resolve_file_references.
  rewrite Hscan, sub_or_raise_app, Hb. simpl.
  rewrite (reference_not_found self w file_path p Hrel Hexp Hnone), Ha.
  rewrite !str_app_assoc. reflexivity.
Qed.

(** Where the status queries answer and the expansion of a user
    directory does not fail, stage 2 returns on every text. *)
Lemma resolution_returns (self : CommandExecutor.t) (w : world) (content : string) :
  (forall p, exists found, path_exists w p = Ok found) ->
  (forall p, exists regular, is_file w p = Ok regular) ->
  (forall file_path, expanduser w file_path <> None) ->
  exists text, _resolve_file_references self w content = Ok text.
Proof.
  intros Hex Hfile Hexp. unfold _resolve_file_references.
  induction (scan file_reference content) as [|[c|g] ts [text IH]]; simpl.
  - eauto.
  - rewrite IH. eauto.
  - assert (Hrepl : exists x, replace_reference self w g = Ok x).
    { unfold replace_reference, and_then.
      destruct (Hex (joinpath (project_root self) g)) as [found ->].
      assert (Hloc : exists p,
                (if negb found
                 then match expanduser w g with
                      | Some p => Ok p
                      | None => Raise (Exn "RuntimeError"
                                         "Could not determine home directory.")
                      end
                 else Ok (joinpath (project_root self) g)) = Ok p).
      { destruct found; cbn [negb]; [eauto|].
        specialize (Hexp g). destruct (expanduser w g) as [p|]; [eauto|contradiction]. }
      destruct Hloc as [p ->].
      destruct (Hex p) as [present ->].
      destruct present.
      - destruct (Hfile p) as [regular ->]. destruct regular; [|eauto].
        destruct (read_text w p); eauto.
      - eauto. }
    destruct Hrepl as [x ->]. rewrite IH. eauto.
Qed.

Lemma take_while_app (p : ascii -> bool) (g after : string) :
  every p g = true ->
  match after with
  | EmptyString => True
  | String c _ => p c = false
  end ->
  take_while p (g +:+ after) = g.
Proof.
  induction g as [|a g IH]; intros Hg Hafter.
  - rewrite str_app_nil_l. destruct after as [|c r]; [reflexivity|].
    simpl. rewrite Hafter. reflexivity.
  - simpl in Hg. apply andb_true_iff in Hg. destruct Hg as [Ha Hg].
    rewrite str_app_cons. simpl. rewrite Ha, (IH Hg Hafter). reflexivity.
Qed.

Lemma file_reference_here (file_path after : string) :
  file_path <> "" ->
  every (fun c => negb (isspace c || Ascii.eqb c "@")) file_path = true ->
  match after with
  | EmptyString => True
  | String c _ => negb (isspace c || Ascii.eqb c "@") = false
  end ->
  file_reference (String "@" (file_path +:+ after))
  = Some (file_path, S (String.length file_path)).
Proof.
  intros Hne Hpath Hafter. unfold file_reference.
  change (Ascii.eqb "@" "@") with true. cbv beta iota zeta.
  rewrite take_while_app by assumption.
  destruct file_path; [contradiction|]. reflexivity.
Qed.

(** The reference that follows a text without at sign is the first match
    of the scan. *)
Lemma scan_reference_token (before file_path after : string) :
  contains "@" before = false ->
  file_path <> "" ->
  every (fun c => negb (isspace c || Ascii.eqb c "@")) file_path = true ->
  match after with
  | EmptyString => True
  | String c _ => negb (isspace c || Ascii.eqb c "@") = false
  end ->
  scan file_reference (before +:+ String "@" (file_path +:+ after))
  = literals before ++ Group file_path :: scan file_reference after.
Proof.
  intros Hat Hne Hpath Hafter. induction before as [|c r IH].
  - rewrite str_app_nil_l.
    rewrite (scan_match _ _ _ file_path (S (String.length file_path)))
      by (apply file_reference_here; assumption).
    simpl literals. simpl app. f_equal. f_equal.
    replace (S (String.length file_path) - 1) with (String.length file_path) by lia.
    apply drop_length_app.
  - apply contains_char_cons in Hat. destruct Hat as [Hh Ht].
    rewrite str_app_cons, scan_no_match.
    + simpl. f_equal. apply IH, Ht.
    + unfold file_reference. rewrite Hh. reflexivity.
Qed.

(** *** Stage 3: inline commands *)

(** C3 (amended).  For every inline token whose subprocess completes:
    when the exit code is 0, or standard error is empty, the trimmed
    standard output replaces the token, the marker [no output] standing
    for an empty one, and nothing is appended; the bracketed stderr suffix
    is appended when, and only when, the exit code is not 0 and standard
    error is not empty. *)
Theorem inline_command_replacement
    (self : CommandExecutor.t) (content : string) (w : world)
    (before : list token) (command : string) (after : list token)
    (result : CompletedProcess) (w' : world) :
  scan inline_command content = before ++ Group command :: after ->
  subprocess_run (snd (sub_in_world (execute_and_replace self) before w))
    command (project_root self) [] 30 = (Completed result, w') ->
  exists replacement,
    fst (_execute_inline_bash self content w) =
      fst (sub_in_world (execute_and_replace self) before w)
      +:+ replacement
      +:+ fst (sub_in_world (execute_and_replace self) after w')
    /\ (returncode result = 0%Z \/ stderr result = "" ->
        replacement = if truthy (strip (stdout result))
                      then strip (stdout result) else "[no output]")
    /\ (returncode result <> 0%Z -> stderr result <> "" ->
        replacement = strip (stdout result) +:+ nl +:+ "[stderr: "
                      +:+ strip (stderr result) +:+ "]").
Proof.
  intros Hscan Hrun. unfold _execute_inline_bash. rewrite Hscan, sub_in_world_app.
  destruct (sub_in_world (execute_and_replace self) before w) as [t1 w1].
  simpl in Hrun. simpl sub_in_world.
  unfold execute_and_replace at 1. rewrite Hrun.
  destruct (sub_in_world (execute_and_replace self) after w') as [t2 w2].
  eexists. split; [reflexivity|]. split.
  - intros [Hrc|Herr].
    + rewrite Hrc. reflexivity.
    + rewrite Herr, andb_false_r. reflexivity.
  - intros Hrc Herr. apply Z.eqb_neq in Hrc. rewrite Hrc.
    destruct (stderr result) as [|c r]; [contradiction|].
    cbn [negb andb truthy].
    assert (Hfull : forall a b, truthy (a +:+ nl +:+ b) = true)
      by (intros [|? ?] b; reflexivity).
    rewrite Hfull. reflexivity.
Qed.

(** The token that follows a text without exclamation mark is the first
    match of the scan. *)
Lemma take_until_backtick (txt after : string) :
  contains "`" txt = false ->
  take_while (fun c => negb (Ascii.eqb c "`")) (txt +:+ String "`" after) = txt.
Proof.
  induction txt as [|a txt IH]; intros Ht; [reflexivity|].
  apply contains_char_cons in Ht. destruct Ht as [Ha Ht].
  rewrite str_app_cons. simpl. rewrite Ha. simpl. rewrite (IH Ht). reflexivity.
Qed.

Lemma inline_command_here (command after : string) :
  command <> "" ->
  contains "`" command = false ->
  inline_command (String "!" (String "`" (command +:+ String "`" after))) =
  Some (command, 3 + String.length command).
Proof.
  intros Hne Htick. unfold inline_command.
  change (Ascii.eqb "!" "!" && Ascii.eqb "`" "`") with true. cbv beta iota zeta.
  rewrite take_until_backtick by assumption.
  rewrite drop_length_app.
  change (startswith "`" (String "`" after)) with true.
  destruct command; [contradiction|]. reflexivity.
Qed.

Lemma scan_inline_token (before command after : string) :
  contains "!" before = false ->
  command <> "" ->
  contains "`" command = false ->
  scan inline_command
    (before +:+ String "!" (String "`" (command +:+ String "`" after))) =
  literals before ++ Group command :: scan inline_command after.
Proof.
  intros Hbang Hne Htick. induction before as [|c r IH].
  - rewrite str_app_nil_l.
    rewrite (scan_match _ _ _ command (3 + String.length command))
      by (apply inline_command_here; assumption).
    simpl literals. simpl app. f_equal. f_equal.
    replace (3 + String.length command - 1) with (S (S (String.length command)))
      by lia.
    change (drop (S (S ?n)) (String ?c ?x)) with (drop (S n) x).
    apply drop_past.
  - apply contains_char_cons in Hbang. destruct Hbang as [Hh Ht].
    rewrite str_app_cons, scan_no_match.
    + simpl. f_equal. apply IH, Ht.
    + unfold inline_command.
      destruct (r +:+ String "!" (String "`" (command +:+ String "`" after)));
        [reflexivity|].
      rewrite Hh. reflexivity.
Qed.

(** The run of a text that begins, after a stretch without exclamation
    mark, with an inline command. *)
Lemma inline_token_runs (self : CommandExecutor.t)
    (before command after : string) (w : world) :
  contains "!" before = false ->
  command <> "" ->
  contains "`" command = false ->
  _execute_inline_bash self (before +:+ "!`" +:+ command +:+ "`" +:+ after) w
  = let (output, w1) := execute_and_replace self command w in
    let (text, w2) := _execute_inline_bash self after w1 in
    (before +:+ output +:+ text, w2).
Proof.
  intros Hbang Hne Htick. unfold _execute_inline_bash.
  change ("!`" +:+ command +:+ "`" +:+ after)
    with (String "!" (String "`" (command +:+ String "`" after))).
  rewrite scan_inline_token by assumption.
  rewrite sub_in_world_app, sub_in_world_literals.
  simpl sub_in_world.
  destruct (execute_and_replace self command w) as [output w1].
  destruct (sub_in_world (execute_and_replace self) (scan inline_command after) w1)
    as [text w2].
  reflexivity.
Qed.

(** The resolution of a text that begins, after a stretch without at
    sign, with a reference to a readable file. *)
Lemma reference_token_resolves (self : CommandExecutor.t) (w : world)
    (before file_path after : string) (p : Os.path) (file_content rest : string) :
  contains "@" before = false ->
  file_path <> "" ->
  every (fun c => negb (isspace c || Ascii.eqb c "@")) file_path = true ->
  match after with
  | EmptyString => True
  | String c _ => negb (isspace c || Ascii.eqb c "@") = false
  end ->
  (path_exists w (joinpath (project_root self) file_path) = Ok true
   /\ p = joinpath (project_root self) file_path)
  \/ (path_exists w (joinpath (project_root self) file_path) = Ok false
      /\ expanduser w file_path = Some p) ->
  path_exists w p = Ok true ->
  is_file w p = Ok true ->
  read_text w p = inl file_content ->
  _resolve_file_references self w after = Ok rest ->
  _resolve_file_references self w (before +:+ "@" +:+ file_path +:+ after)
  = Ok (before +:+ nl +:+ "--- Content of " +:+ file_path +:+ " ---" +:+ nl
        +:+ file_content +:+ nl
        +:+ "--- End of " +:+ file_path +:+ " ---" +:+ nl +:+ rest).
Proof.
  intros Hat Hne Hpath Hafter Hloc Hex Hfile Hread Hrest.
  unfold _resolve_file_references in *.
  change ("@" +:+ file_path +:+ after) with (String "@" (file_path +:+ after)).
  rewrite scan_reference_token by assumption.
  rewrite sub_or_raise_app, sub_or_raise_literals. simpl sub_or_raise.
  rewrite (reference_found self w file_path p file_content Hloc Hex Hfile Hread).
  rewrite Hrest. rewrite !str_app_assoc. reflexivity.
Qed.

(** *** The pipeline *)

Lemma prepare_prompt_stages (self : CommandExecutor.t) (command : Command.t)
    (arguments : list string) (w : world) :
  prepare_prompt self command arguments w =
  match _resolve_file_references self w
          (_substitute_arguments (Command.content command) arguments) with
  | Raise e => (Raise e, w)
  | Ok resolved =>
      (Ok (fst (_execute_inline_bash self resolved w)),
       snd (_execute_inline_bash self resolved w))
  end.
Proof.
  unfold prepare_prompt.
  destruct (_resolve_file_references self w _) as [resolved|e]; [|reflexivity].
  destruct (_execute_inline_bash self resolved w). reflexivity.
Qed.


End Stages.

End CommandFacts.

(** ** The hook engine *)

Module HookFacts.

Import Py Os Loader HookEngine PyFacts.

Section Dispatch.
Context `{Host} `{Library}.


Lemma trace_print_if (cond : bool) (line : string) (st : State) :
  trace (print_if cond line st) = trace st ++ (if cond then [Printed line] else []).
Proof. destruct cond; simpl; [reflexivity|]. rewrite app_nil_r. reflexivity. Qed.

Lemma os_print_if (cond : bool) (line : string) (st : State) :
  os (print_if cond line st) = os st.
Proof. destruct cond; reflexivity. Qed.

Lemma once_print_if (cond : bool) (line : string) (st : State) :
  executed_once_hooks (print_if cond line st) = executed_once_hooks st.
Proof. destruct cond; reflexivity. Qed.



(** No hook removes an identity from the executed-once set. *)
Lemma execute_hook_keeps_once (self : HookEngine.t) (hook : HookConfig)
    (context : HookContext) (st : State) :
  executed_once_hooks (snd (_execute_hook self hook context st)) = executed_once_hooks st.
Proof.
  unfold _execute_hook.
  destruct (String.eqb (type hook) "command");
    [|destruct (String.eqb (type hook) "prompt");
      [|destruct (String.eqb (type hook) "agent")]].
  - unfold _execute_command_hook.
    destruct (command hook) as [template|]; [|reflexivity].
    destruct (truthy template); [|reflexivity]. cbn [negb].
    destruct (subprocess_run _ _ _ _ _) as [[result| |e] w']; try reflexivity.
    destruct (Z.eqb (returncode result) 0); [|destruct (Z.eqb (returncode result) 2)];
      simpl; rewrite once_print_if; reflexivity.
  - unfold _execute_prompt_hook.
    destruct (prompt hook) as [template|]; [|reflexivity].
    destruct (prompt_executor self) as [run_prompt|]; [|reflexivity].
    destruct (truthy template); [|reflexivity]. cbn [negb].
    destruct (run_prompt _ _ _) as [[result|e] w']; reflexivity.
  - unfold _execute_agent_hook.
    destruct (agent hook) as [name|]; [|reflexivity].
    destruct (agent_executor self) as [run_agent|]; [|reflexivity].
    destruct (truthy name); [|reflexivity]. cbn [negb].
    destruct (run_agent _ _ _) as [[result|e] w']; reflexivity.
  - reflexivity.
Qed.

(** One turn of the loop, for a hook that is neither filtered out by its
    matcher nor already run. *)
Lemma dispatch_runs (self : HookEngine.t) (type_str : string) (context : HookContext)
    (hook : HookConfig) (rest : list HookConfig) (result : HookResult) (st : State) :
  _matches (matcher hook) (tool_name context) = Ok true ->
  (once hook = true -> hook_id type_str hook ∉ executed_once_hooks st) ->
  dispatch self type_str context (hook :: rest) result st =
  let st1 := snd (_execute_hook self hook context st) in
  let st2 := if once hook then mark (hook_id type_str hook) st1 else st1 in
  match fst (_execute_hook self hook context st) with
  | BLOCK => (Ok BLOCK, st2)
  | ERROR => dispatch self type_str context rest ERROR st2
  | CONTINUE => dispatch self type_str context rest result st2
  end.
Proof.
  intros Hm Honce. simpl. rewrite Hm.
  assert (Hskip : once hook && bool_decide (hook_id type_str hook ∈ executed_once_hooks st)
                  = false).
  { destruct (once hook); [|reflexivity]. simpl.
    apply bool_decide_eq_false. auto. }
  rewrite Hskip.
  destruct (_execute_hook self hook context st) as [r st1]. reflexivity.
Qed.

Lemma dispatch_skips_mismatch (self : HookEngine.t) (type_str : string)
    (context : HookContext) (hook : HookConfig) (rest : list HookConfig)
    (result : HookResult) (st : State) :
  _matches (matcher hook) (tool_name context) = Ok false ->
  dispatch self type_str context (hook :: rest) result st =
  dispatch self type_str context rest result st.
Proof. intros Hm. simpl. rewrite Hm. reflexivity. Qed.

(** An exception of the matcher ends the loop: the hook and those after
    it are not run. *)
Lemma dispatch_raises (self : HookEngine.t) (type_str : string)
    (context : HookContext) (hook : HookConfig) (rest : list HookConfig)
    (result : HookResult) (st : State) (e : exn) :
  _matches (matcher hook) (tool_name context) = Raise e ->
  dispatch self type_str context (hook :: rest) result st = (Raise e, st).
Proof. intros Hm. simpl. rewrite Hm. reflexivity. Qed.


(** The loop over a list in two parts: the second part runs unless the
    first has blocked or raised. *)
Lemma dispatch_app (self : HookEngine.t) (type_str : string) (context : HookContext)
    (l1 l2 : list HookConfig) (result : HookResult) (st : State) :
  result <> BLOCK ->
  dispatch self type_str context (l1 ++ l2) result st =
  match fst (dispatch self type_str context l1 result st) with
  | Raise _ | Ok BLOCK => dispatch self type_str context l1 result st
  | Ok so_far =>
      dispatch self type_str context l2 so_far
        (snd (dispatch self type_str context l1 result st))
  end.
Proof.
  revert result st. induction l1 as [|hook l1 IH]; intros result st Hres.
  - simpl. destruct result; [reflexivity|reflexivity|contradiction].
  - simpl.
    destruct (_matches (matcher hook) (tool_name context)) as [[|]|e];
      [|apply IH, Hres|reflexivity].
    destruct (once hook && bool_decide (hook_id type_str hook ∈ executed_once_hooks st));
      [apply IH, Hres|].
    destruct (_execute_hook self hook context st) as [[| |] st1].
    + apply IH, Hres.
    + apply IH. discriminate.
    + reflexivity.
Qed.

(** A hook on whose matcher the library raises [re.error] is passed over
    in every dispatch: the result and the state are those of the dispatch
    over the registered hooks without it, so the hook is never run and adds
    neither BLOCK nor ERROR. *)
Lemma rejected_matcher_is_skipped
    (self : HookEngine.t) (hook_type : HookType) (context : HookContext)
    (before : list HookConfig) (hook : HookConfig) (after : list HookConfig)
    (st : State) :
  (forall name, re_match_ignorecase (matcher hook) name = ReError) ->
  hooks self !! value hook_type = Some (before ++ hook :: after) ->
  execute self hook_type context st =
  dispatch self (value hook_type) context (before ++ after) CONTINUE st.
Proof.
  intros Hinvalid Hreg. unfold execute. rewrite Hreg.
  rewrite !dispatch_app by discriminate.
  destruct (dispatch self (value hook_type) context before CONTINUE st)
    as [[[| |]|e] st0];
    cbn [fst snd]; try reflexivity;
    apply dispatch_skips_mismatch; unfold _matches; rewrite Hinvalid; reflexivity.
Qed.

(** A hook on whose matcher the library raises another exception than
    [re.error]: when the loop reaches it, the exception leaves [execute]. *)
Lemma raising_matcher_ends_dispatch
    (self : HookEngine.t) (hook_type : HookType) (context : HookContext)
    (before : list HookConfig) (hook : HookConfig) (after : list HookConfig)
    (st : State) (so_far : HookResult) (st0 : State) (e : exn) :
  hooks self !! value hook_type = Some (before ++ hook :: after) ->
  dispatch self (value hook_type) context before CONTINUE st = (Ok so_far, st0) ->
  so_far <> BLOCK ->
  re_match_ignorecase (matcher hook) (tool_name context) = ReRaised e ->
  execute self hook_type context st = (Raise e, st0).
Proof.
  intros Hreg Hbefore Hnb Hraise. unfold execute.
  rewrite Hreg, dispatch_app by discriminate. rewrite Hbefore. cbn [fst snd].
  destruct so_far; [| |contradiction];
    apply dispatch_raises; unfold _matches; rewrite Hraise; reflexivity.
Qed.

(** C9.  A hook whose matcher the library does not accept, registered for
    an event type among other hooks.  When the library answers with
    [re.error], for every name, the hook is passed over in every dispatch:
    the result and the state are those of the dispatch over the registered
    hooks without it, so the hook is never run and adds neither BLOCK nor
    ERROR.  When the library raises another exception for the tool name
    (the [OverflowError] of a repeat count that is too large), the hook is
    not passed over: if the hooks registered before it did not block, the
    exception leaves [execute] with the state as they left it, no result is
    returned, and the hooks registered after it are not reached. *)
Theorem matcher_failure_outcomes
    (self : HookEngine.t) (hook_type : HookType) (context : HookContext)
    (before : list HookConfig) (hook : HookConfig) (after : list HookConfig)
    (st : State) :
  hooks self !! value hook_type = Some (before ++ hook :: after) ->
  ((forall name, re_match_ignorecase (matcher hook) name = ReError) ->
   execute self hook_type context st
   = dispatch self (value hook_type) context (before ++ after) CONTINUE st)
  /\ (forall so_far st0 e,
        dispatch self (value hook_type) context before CONTINUE st = (Ok so_far, st0) ->
        so_far <> BLOCK ->
        re_match_ignorecase (matcher hook) (tool_name context) = ReRaised e ->
        _matches (matcher hook) (tool_name context) = Raise e
        /\ execute self hook_type context st = (Raise e, st0)).
Proof.
  intros Hreg. split.
  - intros Hinvalid. apply (rejected_matcher_is_skipped _ _ _ _ hook); assumption.
  - intros so_far st0 e Hbefore Hnb Hraise. split.
    + unfold _matches. rewrite Hraise. reflexivity.
    + eapply raising_matcher_ends_dispatch; eassumption.
Qed.

(** What a command hook does when its subprocess completes. *)
Lemma command_hook_completed (self : HookEngine.t) (hook : HookConfig)
    (context : HookContext) (st : State) (template : string)
    (result : CompletedProcess) (w' : world) :
  type hook = "command" ->
  command hook = Some template ->
  template <> "" ->
  subprocess_run (os st) (_substitute_variables self template context)
    (project_root self) (hook_env self context) (timeout hook)
  = (Completed result, w') ->
  _execute_hook self hook context st =
  let ran := log (Ran (_substitute_variables self template context)) (with_os w' st) in
  if Z.eqb (returncode result) 0 then
    (CONTINUE,
     print_if (truthy (stdout result)) ("[Hook] " +:+ strip (stdout result)) ran)
  else if Z.eqb (returncode result) 2 then
    (BLOCK,
     print_if (truthy (stderr result)) ("[Hook BLOCKED] " +:+ strip (stderr result)) ran)
  else
    (ERROR,
     print_if (truthy (stderr result)) ("[Hook ERROR] " +:+ strip (stderr result)) ran).
Proof.
  intros Htype Hcmd Hne Hrun. unfold _execute_hook. rewrite Htype.
  change (String.eqb "command" "command") with true. cbv iota.
  unfold _execute_command_hook. rewrite Hcmd.
  destruct template; [contradiction|]. cbn [truthy negb]. rewrite Hrun.
  reflexivity.
Qed.

(** C1.  A matching command hook whose subprocess exits with code 2
    resolves to BLOCK, and the dispatch returns BLOCK at once: its trace
    ends with the run of that hook, whatever hooks are registered after
    it.  Exit code 0 resolves to CONTINUE and any other code to ERROR, and
    in both cases the dispatch goes on with the hooks that follow. *)
Theorem exit_code_decides
    (self : HookEngine.t) (hook_type : HookType) (context : HookContext)
    (before : list HookConfig) (hook : HookConfig) (after : list HookConfig)
    (st : State) (so_far : HookResult) (st0 : State)
    (template : string) (result : CompletedProcess) (w' : world) :
  hooks self !! value hook_type = Some (before ++ hook :: after) ->
  dispatch self (value hook_type) context before CONTINUE st = (Ok so_far, st0) ->
  so_far <> BLOCK ->
  _matches (matcher hook) (tool_name context) = Ok true ->
  (once hook = true -> hook_id (value hook_type) hook ∉ executed_once_hooks st0) ->
  type hook = "command" ->
  command hook = Some template ->
  template <> "" ->
  subprocess_run (os st0) (_substitute_variables self template context)
    (project_root self) (hook_env self context) (timeout hook)
  = (Completed result, w') ->
  let outcome := fst (_execute_hook self hook context st0) in
  let st1 := snd (_execute_hook self hook context st0) in
  let st2 := if once hook then mark (hook_id (value hook_type) hook) st1 else st1 in
  (returncode result = 2%Z ->
   outcome = BLOCK
   /\ execute self hook_type context st = (Ok BLOCK, st2)
   /\ os st2 = w'
   /\ trace st2 =
      trace st0 ++ Ran (_substitute_variables self template context)
        :: (if truthy (stderr result)
            then [Printed ("[Hook BLOCKED] " +:+ strip (stderr result))] else []))
  /\ (returncode result = 0%Z ->
      outcome = CONTINUE
      /\ execute self hook_type context st =
         dispatch self (value hook_type) context after so_far st2)
  /\ (returncode result <> 0%Z -> returncode result <> 2%Z ->
      outcome = ERROR
      /\ execute self hook_type context st =
         dispatch self (value hook_type) context after ERROR st2).
Proof.
  intros Hreg Hbefore Hnb Hm Honce Htype Hcmd Hne Hrun outcome st1 st2.
  assert (Hexec : execute self hook_type context st =
                  match outcome with
                  | BLOCK => (Ok BLOCK, st2)
                  | ERROR => dispatch self (value hook_type) context after ERROR st2
                  | CONTINUE => dispatch self (value hook_type) context after so_far st2
                  end).
  { unfold execute. rewrite Hreg, dispatch_app by discriminate. rewrite Hbefore.
    cbn [fst snd].
    destruct so_far; [| |contradiction];
      rewrite (dispatch_runs self _ context hook after _ st0 Hm Honce); reflexivity. }
  pose proof (command_hook_completed self hook context st0 template result w'
                Htype Hcmd Hne Hrun) as Hhook.
  cbv zeta in Hhook.
  split; [|split].
  - intros Hrc. rewrite Hrc in Hhook. change (Z.eqb 2 0) with false in Hhook.
    change (Z.eqb 2 2) with true in Hhook. cbv iota in Hhook.
    assert (Ho : outcome = BLOCK) by (unfold outcome; rewrite Hhook; reflexivity).
    split; [exact Ho|]. split; [rewrite Hexec, Ho; reflexivity|].
    unfold st2, st1. rewrite Hhook. simpl snd.
    split.
    + destruct (once hook); simpl; rewrite os_print_if; reflexivity.
    + assert (Htr : forall s, trace (if once hook then mark (hook_id (value hook_type) hook) s
                                     else s) = trace s) by (destruct (once hook); reflexivity).
      rewrite Htr, trace_print_if. simpl. rewrite <- app_assoc. reflexivity.
  - intros Hrc. rewrite Hrc in Hhook. change (Z.eqb 0 0) with true in Hhook.
    cbv iota in Hhook.
    assert (Ho : outcome = CONTINUE) by (unfold outcome; rewrite Hhook; reflexivity).
    split; [exact Ho|]. rewrite Hexec, Ho. reflexivity.
  - intros Hrc0 Hrc2. apply Z.eqb_neq in Hrc0, Hrc2. rewrite Hrc0, Hrc2 in Hhook.
    assert (Ho : outcome = ERROR) by (unfold outcome; rewrite Hhook; reflexivity).
    split; [exact Ho|]. rewrite Hexec, Ho. reflexivity.
Qed.

Lemma dispatch_none_match (self : HookEngine.t) (type_str : string)
    (context : HookContext) (l : list HookConfig) (result : HookResult) (st : State) :
  Forall (fun h => _matches (matcher h) (tool_name context) = Ok false) l ->
  dispatch self type_str context l result st = (Ok result, st).
Proof.
  induction 1 as [|h l Hh _ IH]; [reflexivity|].
  rewrite dispatch_skips_mismatch by exact Hh. exact IH.
Qed.


End Dispatch.

End HookFacts.

(** ** The loader *)

Module LoaderFacts.

Import Py Os Loader PyFacts.

(** *** Front matter *)

Lemma startswith_split (p s : string) :
  startswith p s = true -> s = p +:+ drop (String.length p) s.
Proof.
  revert s. induction p as [|a p IH]; intros s Hp; [reflexivity|].
  destruct s as [|b s]; [discriminate|]. simpl in Hp.
  apply andb_true_iff in Hp. destruct Hp as [Hab Hp].
  apply Ascii.eqb_eq in Hab. subst b.
  rewrite str_app_cons. simpl. f_equal. apply IH, Hp.
Qed.

Lemma span_space_split (t : string) :
  t = fst (span_space t) +:+ snd (span_space t)
  /\ all_space (fst (span_space t)) = true.
Proof.
  induction t as [|c r [IH1 IH2]]; [split; reflexivity|].
  simpl. destruct (isspace c) eqn:Hc.
  - destruct (span_space r) as [w rest]. simpl in *.
    rewrite Hc, IH2. split; [|reflexivity]. rewrite str_app_cons. f_equal. exact IH1.
  - split; reflexivity.
Qed.

Lemma all_space_app (a b : string) :
  all_space (a +:+ b) = true -> all_space a = true.
Proof.
  induction a as [|c a IH]; [reflexivity|]. rewrite str_app_cons. simpl.
  intros Hs. apply andb_true_iff in Hs. destruct Hs as [-> Hs]. apply IH, Hs.
Qed.

(** Every opening stands after a line end of the white space. *)
Lemma openings_spec (w rest u : string) :
  In u (openings w rest) ->
  exists w1 w2, w = w1 +:+ nl +:+ w2 /\ u = w2 +:+ rest.
Proof.
  induction w as [|c r IH]; [intros []|].
  simpl. intros Hin. apply in_app_or in Hin. destruct Hin as [Hin|Hin].
  - destruct (Ascii.eqb c newline) eqn:Hc; [|destruct Hin].
    destruct Hin as [<-|[]]. apply Ascii.eqb_eq in Hc. subst c.
    exists EmptyString, r. split; reflexivity.
  - destruct (IH Hin) as [w1 [w2 [-> ->]]].
    exists (String c w1), w2. split; reflexivity.
Qed.

Lemma first_match_some (us : list string) (m : string * string) :
  first_match us = Some m -> exists u, In u us.
Proof. destruct us as [|u us]; [discriminate|]. intros _. exists u. left. reflexivity. Qed.

(** The pattern only matches a text that begins with a delimiter line. *)
Lemma match_needs_delimiter_line (content : string) (m : string * string) :
  match_frontmatter content = Some m -> begins_with_delimiter_line content.
Proof.
  unfold match_frontmatter. destruct (startswith "---" content) eqn:Hp; [|discriminate].
  apply startswith_split in Hp.
  destruct (span_space_split (drop 3 content)) as [Hsplit Hspace].
  destruct (span_space (drop 3 content)) as [w rest]. cbn [fst snd] in Hsplit, Hspace.
  intros Hm. apply first_match_some in Hm. destruct Hm as [u Hu].
  apply in_rev in Hu. apply openings_spec in Hu.
  destruct Hu as [w1 [w2 [-> _]]].
  exists w1, (w2 +:+ rest). split.
  - rewrite Hp at 1. change (String.length "---") with 3. rewrite Hsplit.
    rewrite !str_app_assoc. reflexivity.
  - eapply all_space_app, Hspace.
Qed.

Section Parsing.
Context `{Library}.

(** C7.  What [parse_frontmatter] comes to, case by case.  A document
    that does not begin with the delimiter line gives the empty header and
    the whole text.  When the pattern matches, the document begins with the
    delimiter line, and the YAML loader decides: a YAML error gives the
    empty header and the whole original text; a value gives the value (the
    empty header for a value that is false) and the text after the closing
    line; any other exception of the loader is not caught and leaves
    [parse_frontmatter], so that no pair is returned. *)
Theorem frontmatter_outcomes (content : string) :
  (~ begins_with_delimiter_line content ->
   parse_frontmatter content = Ok (PyDict [], content))
  /\ (forall header body,
        match_frontmatter content = Some (header, body) ->
        begins_with_delimiter_line content
        /\ (yaml_safe_load header = YamlError ->
            parse_frontmatter content = Ok (PyDict [], content))
        /\ (forall v,
              yaml_safe_load header = YamlValue v ->
              parse_frontmatter content
              = Ok (if value_truthy v then v else PyDict [], body))
        /\ (forall e,
              yaml_safe_load header = YamlOtherError e ->
              parse_frontmatter content = Raise e
              /\ parse_frontmatter content <> Ok (PyDict [], content))).
Proof.
  split.
  - intros Hno. unfold parse_frontmatter.
    destruct (match_frontmatter content) as [m|] eqn:Hm; [|reflexivity].
    exfalso. apply Hno. eapply match_needs_delimiter_line, Hm.
  - intros header body Hm.
    split; [eapply match_needs_delimiter_line, Hm|].
    unfold parse_frontmatter. rewrite Hm.
    split; [intros ->; reflexivity|].
    split; [intros v ->; reflexivity|].
    intros e ->. split; [reflexivity|discriminate].
Qed.

(** Without a match the text is the body, whatever it is. *)
Lemma frontmatter_without_match (content : string) :
  match_frontmatter content = None ->
  parse_frontmatter content = Ok (PyDict [], content).
Proof. intros Hm. unfold parse_frontmatter. rewrite Hm. reflexivity. Qed.

(** *** Tool lists *)

Lemma rstrip_idempotent (s : string) : rstrip (rstrip s) = rstrip s.
Proof.
  induction s as [|c r IH]; [reflexivity|]. simpl.
  destruct (rstrip r) as [|c' r'] eqn:Hr.
  - destruct (isspace c) eqn:Hc; [reflexivity|]. simpl. rewrite Hc. reflexivity.
  - change (rstrip (String c (String c' r'))) with
      (match rstrip (String c' r') with
       | EmptyString => if isspace c then EmptyString else String c EmptyString
       | x => String c x
       end).
    rewrite IH. reflexivity.
Qed.

Lemma lstrip_head (s : string) :
  match lstrip s with
  | EmptyString => True
  | String c _ => isspace c = false
  end.
Proof.
  induction s as [|c r IH]; [exact I|]. simpl.
  destruct (isspace c) eqn:Hc; [exact IH|exact Hc].
Qed.

Lemma rstrip_head (c : ascii) (r : string) :
  isspace c = false -> exists r', rstrip (String c r) = String c r'.
Proof.
  intros Hc. simpl. destruct (rstrip r); [rewrite Hc|]; eauto.
Qed.

Lemma strip_idempotent (s : string) : strip (strip s) = strip s.
Proof.
  unfold strip. pose proof (lstrip_head s) as Hh.
  destruct (lstrip s) as [|c r]; [reflexivity|].
  destruct (rstrip_head c r Hh) as [r' Hr]. rewrite Hr.
  simpl lstrip. rewrite Hh. rewrite <- Hr. apply rstrip_idempotent.
Qed.

(** From a delimited string, every entry is trimmed and none is empty. *)
Lemma tools_of_string (s e : string) :
  In e (parse_allowed_tools (PyStr s)) -> strip e = e /\ e <> "".
Proof.
  simpl. intros Hin. apply in_flat_map in Hin. destruct Hin as [t [_ Hin]].
  destruct (strip t) as [|c r] eqn:Ht; simpl in Hin; [destruct Hin|].
  destruct Hin as [<-|[]]. split; [|discriminate].
  rewrite <- Ht. apply strip_idempotent.
Qed.

(** From a list, flat or nested, every entry is trimmed. *)
Lemma tools_of_list (items : list pyval) (e : string) :
  In e (parse_allowed_tools (PyList items)) -> strip e = e.
Proof.
  simpl. intros Hin. apply in_flat_map in Hin. destruct Hin as [item [_ Hin]].
  destruct item as [| | |s|inner| |]; simpl in Hin; try contradiction.
  - destruct Hin as [<-|[]]. apply strip_idempotent.
  - apply in_map_iff in Hin. destruct Hin as [i [<- _]]. apply strip_idempotent.
Qed.

(** C5 (the code is at fault).  An empty entry of a list is kept: the
    list branch trims and does not filter, unlike the string branch. *)
Theorem list_keeps_empty_entries :
  parse_allowed_tools (PyList [PyStr "Bash"; PyStr "  "; PyList [PyStr ""]])
  = ["Bash"; ""; ""]
  /\ parse_allowed_tools (PyStr "Bash,  ,") = ["Bash"].
Proof. split; reflexivity. Qed.

End Parsing.

(** *** The load pass *)

Section Pass.
Context `{Host} `{Library}.

Lemma bind_ok {A B : Type} (m : M A) (k : A -> M B) (st : LoadState) (a : A) :
  fst (m st) = Ok a -> bind m k st = k a (snd (m st)).
Proof. unfold bind. destruct (m st) as [[a'|e] st']; simpl; congruence. Qed.

Lemma bind_returned {A B : Type} (m : M A) (k : A -> M B) (st : LoadState) (b : B) :
  fst (bind m k st) = Ok b ->
  exists a, fst (m st) = Ok a /\ bind m k st = k a (snd (m st)).
Proof.
  unfold bind. destruct (m st) as [[a|e] st']; simpl; [eauto|discriminate].
Qed.

Lemma bind_lift_ok {A B : Type} (a : A) (k : A -> M B) (st : LoadState) :
  bind (lift (Ok a)) k st = k a st.
Proof. reflexivity. Qed.

Lemma bind_lift_returned {A B : Type} (r : result A) (k : A -> M B) (st : LoadState)
    (b : B) :
  fst (bind (lift r) k st) = Ok b ->
  exists a, r = Ok a /\ bind (lift r) k st = k a st.
Proof. destruct r as [a|e]; simpl; [eauto|discriminate]. Qed.

(** **** Steps that keep a property of the commands *)

Section Keeping.
Variable Q : gmap string Command.t -> Prop.

Lemma silent_preserves {A : Type} (m : M A) : silent m -> preserves Q m.
Proof. intros Hs st HQ. rewrite Hs. exact HQ. Qed.

Lemma preserves_bind {A B : Type} (m : M A) (k : A -> M B) :
  preserves Q m -> (forall a, preserves Q (k a)) -> preserves Q (bind m k).
Proof.
  intros Hm Hk st HQ. unfold bind. specialize (Hm st HQ).
  destruct (m st) as [[a|e] st']; simpl in *; [apply Hk, Hm|exact Hm].
Qed.

(** What follows a pure step is only run on the value that the step
    gave. *)
Lemma preserves_bind_lift {A B : Type} (r : result A) (k : A -> M B) :
  (forall a, r = Ok a -> preserves Q (k a)) -> preserves Q (bind (lift r) k).
Proof.
  intros Hk st HQ. destruct r as [a|e]; simpl; [|exact HQ].
  apply (Hk a eq_refl), HQ.
Qed.

Lemma preserves_ext {A : Type} (m m' : M A) :
  (forall st, m st = m' st) -> preserves Q m' -> preserves Q m.
Proof. intros Heq Hm st HQ. rewrite Heq. apply Hm, HQ. Qed.

Lemma preserves_try (body : M unit) (handler : exn -> M unit) :
  preserves Q body -> (forall e, preserves Q (handler e)) ->
  preserves Q (try_except body handler).
Proof.
  intros Hb Hh st HQ. unfold try_except. specialize (Hb st HQ).
  destruct (body st) as [[[]|e] st']; simpl in *; [exact Hb|apply Hh, Hb].
Qed.

Lemma preserves_for_each {A : Type} (l : list A) (body : A -> M unit) :
  (forall x, In x l -> preserves Q (body x)) -> preserves Q (for_each l body).
Proof.
  intros Hb. induction l as [|x l IH]; simpl.
  - intros st HQ. exact HQ.
  - apply preserves_bind; [apply Hb; left; reflexivity|].
    intros _. apply IH. intros y Hy. apply Hb. right. exact Hy.
Qed.

(** In a loop that returns, what one turn establishes and the others
    keep holds after the loop. *)
Lemma for_each_establishes {A : Type} (l : list A) (body : A -> M unit) (x0 : A)
    (st : LoadState) :
  fst (for_each l body st) = Ok tt ->
  (forall x, In x l -> preserves Q (body x)) ->
  In x0 l ->
  (forall st0, Q (commands (registry (snd (body x0 st0))))) ->
  Q (commands (registry (snd (for_each l body st)))).
Proof.
  intros Hret Hkeep Hin Hest. revert st Hret.
  induction l as [|x l IH]; [destruct Hin|].
  intros st Hret. simpl in Hret |- *.
  pose proof Hret as Hrest.
  apply bind_returned in Hret. destruct Hret as [[] [Hx Heq]].
  rewrite Heq in Hrest.
  rewrite (bind_ok _ _ st tt Hx).
  destruct Hin as [->|Hin].
  - apply preserves_for_each.
    + intros y Hy. apply Hkeep. right. exact Hy.
    + apply Hest.
  - apply IH; [|exact Hin|exact Hrest].
    intros y Hy. apply Hkeep. right. exact Hy.
Qed.

End Keeping.

Lemma silent_ret {A : Type} (a : A) : silent (ret a).
Proof. intros st. reflexivity. Qed.

Lemma silent_lift {A : Type} (r : result A) : silent (lift r).
Proof. intros st. reflexivity. Qed.

Lemma silent_print (line : string) : silent (print line).
Proof. intros st. reflexivity. Qed.

Lemma silent_scan_end (failure : option exn) : silent (scan_end failure).
Proof. intros st. destruct failure; reflexivity. Qed.

Lemma silent_update (f : BridgeRegistry -> BridgeRegistry) :
  (forall r, commands (f r) = commands r) -> silent (update f).
Proof. intros Hf st. simpl. apply Hf. Qed.

Lemma silent_bind {A B : Type} (m : M A) (k : A -> M B) :
  silent m -> (forall a, silent (k a)) -> silent (bind m k).
Proof.
  intros Hm Hk st. unfold bind. specialize (Hm st).
  destruct (m st) as [[a|e] st']; simpl in *; [rewrite Hk; exact Hm|exact Hm].
Qed.

Lemma silent_try (body : M unit) (handler : exn -> M unit) :
  silent body -> (forall e, silent (handler e)) -> silent (try_except body handler).
Proof.
  intros Hb Hh st. unfold try_except. specialize (Hb st).
  destruct (body st) as [[[]|e] st']; simpl in *; [exact Hb|rewrite Hh; exact Hb].
Qed.

Lemma silent_for_each {A : Type} (l : list A) (body : A -> M unit) :
  (forall x, silent (body x)) -> silent (for_each l body).
Proof.
  intros Hb. induction l as [|x l IH]; simpl; [apply silent_ret|].
  apply silent_bind; [apply Hb|intros _; exact IH].
Qed.

Ltac quiet :=
  repeat first
    [ apply silent_ret | apply silent_lift | apply silent_print
    | apply silent_scan_end
    | apply silent_update; intros ?; reflexivity
    | apply silent_bind; [|intros ?]
    | apply silent_try; [|intros ?]
    | apply silent_for_each; intros ?
    | match goal with |- silent (if ?b then _ else _) => destruct b end ].

Lemma silent_load_subagents (w : world) (d : Os.path) (scope : string) :
  silent (_load_subagents w d scope).
Proof. unfold _load_subagents, load_agent_file. quiet. Qed.

Lemma silent_load_skills (w : world) (d : Os.path) (scope : string) :
  silent (_load_skills w d scope).
Proof. unfold _load_skills, load_skill_dir. quiet. Qed.

Lemma silent_merge_hooks (v : pyval) : silent (_merge_hooks v).
Proof. unfold _merge_hooks. destruct v; quiet. Qed.

(** **** Steps that always return *)

Lemma total_try_print (body : M unit) (line : exn -> string) :
  total (try_except body (fun e => print (line e))).
Proof.
  intros st. unfold try_except. destruct (body st) as [[[]|e] st']; reflexivity.
Qed.

Lemma total_for_each {A : Type} (l : list A) (body : A -> M unit) :
  (forall x, total (body x)) -> total (for_each l body).
Proof.
  intros Hb. induction l as [|x l IH]; intros st; simpl; [reflexivity|].
  rewrite (bind_ok _ _ st tt) by apply Hb. apply IH.
Qed.

(** The loop of [_load_commands] over the files of the scan. *)
Lemma command_files_total (w : world) (d : Os.path) (scope : string)
    (files : list Os.path) :
  total (for_each files (fun cmd_file =>
           try_except (load_command_file w d scope cmd_file) (fun e =>
             print ("Warning: Failed to load command " +:+ path_str cmd_file
                    +:+ ": " +:+ exn_text e)))).
Proof. apply total_for_each. intros f. apply total_try_print. Qed.

(** The load of a commands directory returns when the directory can be
    asked for and its scan ends without error. *)
Lemma load_if_exists_returns (w : world) (d : Os.path) (st : LoadState) :
  loads_quietly w d ->
  fst (load_if_exists w _load_commands d st) = Ok tt.
Proof.
  unfold loads_quietly, load_if_exists.
  destruct (path_exists w d) as [[|]|e] eqn:Hex; [| |intros []].
  - intros Hscan. rewrite bind_lift_ok. unfold _load_commands.
    rewrite Hex, bind_lift_ok. cbn [negb].
    rewrite (bind_ok _ _ st tt) by apply command_files_total.
    rewrite Hscan. reflexivity.
  - intros _. reflexivity.
Qed.

(** **** Loading a commands directory *)

Lemma build_command_scope (w : world) (d : Os.path) (scope : string) (f : Os.path)
    (c : Command.t) :
  build_command w d scope f = Ok c -> Command.scope c = scope.
Proof.
  unfold build_command, and_then.
  repeat match goal with
         | |- context [match ?r with Ok _ => _ | Raise _ => _ end] =>
             destruct r; [|discriminate]
         | |- context [let '(_, _) := ?p in _] => destruct p
         end.
  intros [= <-]. reflexivity.
Qed.

Section Origin.
Variable origin : Command.t -> Prop.
Variable n : string.

(** A write keeps [holds] when the record written, if it goes under [n],
    is of the origin. *)
Lemma write_keeps_origin (c : Command.t) (m : gmap string Command.t) :
  (Command.name c = n -> origin c) ->
  holds origin n m ->
  holds origin n (<[Command.name c := c]> m).
Proof.
  intros Hc (c0 & Hlook & Horigin).
  destruct (decide (Command.name c = n)) as [Heq|Hne].
  - exists c. rewrite Heq, lookup_insert_eq. auto.
  - exists c0. rewrite lookup_insert_ne by exact Hne. auto.
Qed.

Lemma load_command_file_keeps (w : world) (scope : string) (d f : Os.path) :
  In f (fst (rglob_md w d)) ->
  (forall c, made_in w d scope n c -> origin c) ->
  preserves (holds origin n) (load_command_file w d scope f).
Proof.
  intros Hin Horigin st HQ. unfold load_command_file, bind, lift.
  destruct (build_command w d scope f) as [c|e] eqn:Hc; simpl; [|exact HQ].
  apply write_keeps_origin; [|exact HQ].
  intros Hname. apply Horigin. exists f. auto.
Qed.

Lemma load_commands_keeps (w : world) (scope : string) (d : Os.path) :
  (forall c, made_in w d scope n c -> origin c) ->
  preserves (holds origin n) (_load_commands w d scope).
Proof.
  intros Horigin. unfold _load_commands.
  apply preserves_bind_lift. intros found _.
  destruct (negb found); [intros st HQ; exact HQ|].
  apply preserves_bind; [|intros _; apply silent_preserves, silent_scan_end].
  apply preserves_for_each. intros f Hin. apply preserves_try.
  - apply load_command_file_keeps; assumption.
  - intros e. apply silent_preserves, silent_print.
Qed.

(** After the load of a directory that defines [n], the mapping holds
    under [n] a record made there. *)
Lemma load_commands_establishes (w : world) (scope : string) (d : Os.path)
    (st : LoadState) :
  defines_command w d scope n ->
  (forall c, made_in w d scope n c -> origin c) ->
  holds origin n (commands (registry (snd (_load_commands w d scope st)))).
Proof.
  intros [Hex (c & f & Hin & Hbuilt & Hname)] Horigin.
  unfold _load_commands. rewrite Hex, bind_lift_ok. cbn [negb].
  rewrite (bind_ok _ _ st tt) by apply command_files_total.
  rewrite silent_scan_end.
  apply (for_each_establishes _ _ _ f).
  - apply command_files_total.
  - intros x Hx. apply preserves_try.
    + apply load_command_file_keeps; assumption.
    + intros e. apply silent_preserves, silent_print.
  - exact Hin.
  - intros st0. unfold try_except, load_command_file, bind, lift.
    rewrite Hbuilt. simpl. exists c.
    rewrite Hname, lookup_insert_eq. split; [reflexivity|].
    apply Horigin. exists f. auto.
Qed.

Lemma load_if_exists_keeps (w : world) (d : Os.path) :
  (forall c, made_in w d "plugin" n c -> origin c) ->
  preserves (holds origin n) (load_if_exists w _load_commands d).
Proof.
  intros Horigin. unfold load_if_exists.
  apply preserves_bind_lift. intros found _. destruct found.
  - apply load_commands_keeps, Horigin.
  - intros st HQ. exact HQ.
Qed.

Lemma load_if_exists_establishes (w : world) (d : Os.path) (st : LoadState) :
  defines_command w d "plugin" n ->
  (forall c, made_in w d "plugin" n c -> origin c) ->
  holds origin n
    (commands (registry (snd (load_if_exists w _load_commands d st)))).
Proof.
  intros Hdef Horigin. unfold load_if_exists.
  destruct Hdef as [Hex Hmade]. rewrite Hex, bind_lift_ok.
  apply load_commands_establishes; [split; assumption|exact Horigin].
Qed.

(** What a step establishes, the steps that keep it leave standing. *)
Lemma established_then_kept {A B : Type} (m : M A) (k : A -> M B) (st : LoadState) :
  holds origin n (commands (registry (snd (m st)))) ->
  (forall a, preserves (holds origin n) (k a)) ->
  holds origin n (commands (registry (snd (bind m k st)))).
Proof.
  intros Hm Hk. unfold bind.
  destruct (m st) as [[a|e] st']; simpl in *; [apply Hk, Hm|exact Hm].
Qed.

End Origin.

(** **** Loading a plugin *)

Section Plugins.
Variable w : world.
Variable project_root module_dir : Os.path.
Variable n : string.

(** The steps of a plugin load that do not write commands. *)
Ltac quiet_plugin :=
  repeat first
    [ apply silent_ret | apply silent_lift | apply silent_print
    | apply silent_merge_hooks
    | apply silent_load_subagents | apply silent_load_skills
    | apply silent_update; intros ?; reflexivity
    | apply silent_bind; [|intros ?]
    | progress unfold load_if_exists
    | match goal with |- silent (if ?b then _ else _) => destruct b end ].

(** The body of the [try], from the agents on. *)
Lemma plugin_tail_silent (plugin_dir : Os.path) (manifest : pyval) (plugin : Plugin.t) :
  silent
    (do agents_value <- lift (fm_get manifest "agents" (PyStr "agents"));
     do agents_dir <- lift (join_value plugin_dir agents_value);
     run load_if_exists w _load_subagents agents_dir;
     run load_if_exists w _load_subagents
           (joinpath (joinpath plugin_dir ".claude") "agents");
     do skills_value <- lift (fm_get manifest "skills" (PyStr "skills"));
     do skills_dir <- lift (join_value plugin_dir skills_value);
     run load_if_exists w _load_skills skills_dir;
     run load_if_exists w _load_skills
           (joinpath (joinpath plugin_dir ".claude") "skills");
     let hooks_file := joinpath (joinpath plugin_dir "hooks") "hooks.json" in
     do hooks_found <- lift (path_exists w hooks_file);
     do plugin <-
       (if hooks_found then
          do hooks_data <- lift (read_json w hooks_file);
          do plugin_hooks <- lift (fm_get hooks_data "hooks" (PyDict []));
          run _merge_hooks plugin_hooks;
          ret (set_plugin_hooks plugin plugin_hooks)
        else ret plugin);
     let mcp_file := joinpath plugin_dir ".mcp.json" in
     do mcp_found <- lift (path_exists w mcp_file);
     do plugin <-
       (if mcp_found then
          do config <- lift (read_json w mcp_file);
          ret (set_plugin_mcp plugin config)
        else ret plugin);
     run lift (checked_key (Plugin.name plugin));
     update (set_plugin (Plugin.name plugin) plugin)).
Proof. cbv zeta. quiet_plugin. Qed.

(** The body of the [try] for a manifest that is a JSON object and names
    its commands directory by a string: the two loads of commands, then
    steps that write no command. *)
Lemma load_plugin_manifest_steps (plugin_dir manifest_file : Os.path)
    (manifest : list (pyval * pyval)) (sub : string) :
  read_json w manifest_file = Ok (PyDict manifest) ->
  dict_get manifest "commands" (PyStr "commands") = PyStr sub ->
  exists tail : M unit,
    silent tail
    /\ forall st,
         load_plugin_manifest w plugin_dir manifest_file st
         = (run load_if_exists w _load_commands (joinpath plugin_dir sub);
            run load_if_exists w _load_commands
                  (joinpath (joinpath plugin_dir ".claude") "commands");
            tail) st.
Proof.
  intros Hread Hsub. eexists. split.
  - apply (plugin_tail_silent plugin_dir (PyDict manifest)
             {| Plugin.name := dict_get manifest "name" (PyStr (basename plugin_dir));
                Plugin.path := plugin_dir;
                Plugin.version := dict_get manifest "version" (PyStr "1.0.0");
                Plugin.description := dict_get manifest "description" (PyStr "");
                Plugin.commands := []; Plugin.agents := []; Plugin.skills := [];
                Plugin.hooks := PyDict []; Plugin.mcp_config := PyNone |}).
  - intros st. unfold load_plugin_manifest. rewrite Hread, bind_lift_ok.
    cbv zeta. unfold fm_get at 1 2 3 4. rewrite !bind_lift_ok, Hsub.
    unfold join_value at 1. rewrite bind_lift_ok. reflexivity.
Qed.

(** A manifest that is not such an object ends the [try] before any
    command is written. *)
Lemma load_plugin_manifest_silent (plugin_dir manifest_file : Os.path) :
  (forall manifest sub,
     read_json w manifest_file = Ok (PyDict manifest) ->
     dict_get manifest "commands" (PyStr "commands") <> PyStr sub) ->
  silent (load_plugin_manifest w plugin_dir manifest_file).
Proof.
  intros Hnot st. unfold load_plugin_manifest.
  destruct (read_json w manifest_file) as [manifest|e] eqn:Hread; [|reflexivity].
  destruct manifest as [| | | | |manifest|]; try reflexivity.
  cbv zeta. unfold fm_get at 1 2 3 4. rewrite !bind_lift_ok.
  destruct (dict_get manifest "commands" (PyStr "commands")) as [| | |sub| | |] eqn:Hsub;
    try reflexivity.
  exfalso. exact (Hnot manifest sub eq_refl Hsub).
Qed.

Lemma load_plugin_keeps (plugin_dir : Os.path) :
  In plugin_dir (plugin_dirs w project_root module_dir) ->
  preserves (holds (made_by_visited_plugin w project_root module_dir n) n)
    (_load_plugin w plugin_dir).
Proof.
  intros Hvisited. unfold _load_plugin.
  apply preserves_bind_lift. intros manifest_file Hpath.
  apply preserves_bind_lift. intros found _.
  destruct (negb found); [intros st HQ; exact HQ|].
  apply preserves_try; [|intros e; apply silent_preserves, silent_print].
  destruct (read_json w manifest_file) as [[| | | | |manifest|]|e] eqn:Hread;
    try (apply silent_preserves, load_plugin_manifest_silent;
         intros manifest0 sub0 Hr; rewrite Hread in Hr; discriminate).
  destruct (dict_get manifest "commands" (PyStr "commands"))
    as [| | |sub| | |] eqn:Hsub;
    try (apply silent_preserves, load_plugin_manifest_silent;
         intros manifest0 sub0 Hr Hs; rewrite Hread in Hr; injection Hr as <-;
         rewrite Hsub in Hs; discriminate).
  destruct (load_plugin_manifest_steps plugin_dir manifest_file manifest sub Hread Hsub)
    as (tail & Htail & Hsteps).
  apply (preserves_ext _ _ _ Hsteps).
  assert (Horigin : forall d c,
            In d (plugin_command_dirs plugin_dir manifest) ->
            made_in w d "plugin" n c ->
            made_by_visited_plugin w project_root module_dir n c).
  { intros d c Hd Hmade. exists plugin_dir. split; [exact Hvisited|].
    exists manifest_file, manifest, d. auto. }
  unfold plugin_command_dirs in Horigin. rewrite Hsub in Horigin.
  apply preserves_bind; [|intros _; apply preserves_bind;
                           [|intros _; apply silent_preserves, Htail]].
  - apply load_if_exists_keeps. intros c. apply Horigin. left. reflexivity.
  - apply load_if_exists_keeps. intros c. apply Horigin. right. left. reflexivity.
Qed.

(** A plugin whose manifest is read, whose commands directories load
    without error and one of them defines [n], leaves under [n] a record
    made of one of its command files. *)
Lemma load_plugin_establishes (plugin_dir manifest_file dir : Os.path)
    (manifest : list (pyval * pyval)) (st : LoadState) :
  In plugin_dir (plugin_dirs w project_root module_dir) ->
  manifest_path w plugin_dir = Ok manifest_file ->
  path_exists w manifest_file = Ok true ->
  read_json w manifest_file = Ok (PyDict manifest) ->
  In dir (plugin_command_dirs plugin_dir manifest) ->
  Forall (loads_quietly w) (plugin_command_dirs plugin_dir manifest) ->
  defines_command w dir "plugin" n ->
  holds (made_by_visited_plugin w project_root module_dir n) n
    (commands (registry (snd (_load_plugin w plugin_dir st)))).
Proof.
  intros Hvisited Hpath Hex Hread Hdir Hquiet Hdef.
  unfold _load_plugin. rewrite Hpath, bind_lift_ok, Hex, bind_lift_ok. cbn [negb].
  assert (Horigin : forall d c,
            In d (plugin_command_dirs plugin_dir manifest) ->
            made_in w d "plugin" n c ->
            made_by_visited_plugin w project_root module_dir n c).
  { intros d c Hd Hmade. exists plugin_dir. split; [exact Hvisited|].
    exists manifest_file, manifest, d. auto. }
  assert (Hbody : holds (made_by_visited_plugin w project_root module_dir n) n
            (commands (registry (snd (load_plugin_manifest w plugin_dir
                                        manifest_file st))))).
  { unfold plugin_command_dirs in Hdir, Hquiet, Horigin.
    destruct (dict_get manifest "commands" (PyStr "commands"))
      as [| | |sub| | |] eqn:Hsub; try contradiction.
    destruct (load_plugin_manifest_steps plugin_dir manifest_file manifest sub
                Hread Hsub) as (tail & Htail & ->).
    cbv beta.
    apply Forall_cons_1 in Hquiet. destruct Hquiet as [Hquiet1 _].
    destruct Hdir as [<-|[<-|[]]].
    - apply established_then_kept.
      + apply load_if_exists_establishes; [exact Hdef|].
        intros c. apply Horigin. left. reflexivity.
      + intros _. apply preserves_bind; [|intros _; apply silent_preserves, Htail].
        apply load_if_exists_keeps. intros c. apply Horigin. right. left. reflexivity.
    - rewrite (bind_ok _ _ st tt) by (apply load_if_exists_returns, Hquiet1).
      apply established_then_kept.
      + apply load_if_exists_establishes; [exact Hdef|].
        intros c. apply Horigin. right. left. reflexivity.
      + intros _. apply silent_preserves, Htail. }
  unfold try_except.
  destruct (load_plugin_manifest w plugin_dir manifest_file st)
    as [[[]|e] st1]; simpl in *; exact Hbody.
Qed.

(** **** The pass *)

Lemma load_plugins_under_keeps (d : Os.path) :
  (forall plugin_dir,
     In plugin_dir (plugin_dirs_under w d) ->
     In plugin_dir (plugin_dirs w project_root module_dir)) ->
  preserves (holds (made_by_visited_plugin w project_root module_dir n) n)
    (load_plugins_under w d).
Proof.
  intros Hvisited. unfold load_plugins_under.
  apply preserves_bind_lift. intros found Hfound.
  destruct found; [|intros st HQ; exact HQ].
  apply preserves_bind_lift. intros entries Hentries.
  apply preserves_for_each. intros plugin_dir Hin.
  apply preserves_bind_lift. intros directory Hdirectory.
  destruct directory; [|intros st HQ; exact HQ].
  apply load_plugin_keeps, Hvisited.
  unfold plugin_dirs_under. rewrite Hfound.
  unfold listdir in Hentries.
  destruct (iterdir w d) as [entries0|]; [|discriminate].
  injection Hentries as ->. apply filter_In. rewrite Hdirectory. auto.
Qed.

Lemma load_plugins_under_establishes (d plugin_dir : Os.path) (st : LoadState) :
  fst (load_plugins_under w d st) = Ok tt ->
  In plugin_dir (plugin_dirs_under w d) ->
  (forall p,
     In p (plugin_dirs_under w d) ->
     In p (plugin_dirs w project_root module_dir)) ->
  (forall st0,
     holds (made_by_visited_plugin w project_root module_dir n) n
       (commands (registry (snd (_load_plugin w plugin_dir st0))))) ->
  holds (made_by_visited_plugin w project_root module_dir n) n
    (commands (registry (snd (load_plugins_under w d st)))).
Proof.
  intros Hret Hin Hvisited Hest.
  pose proof Hvisited as Hvisited0.
  unfold plugin_dirs_under in Hin, Hvisited. unfold load_plugins_under, listdir in *.
  destruct (path_exists w d) as [[|]|e]; try destruct Hin.
  destruct (iterdir w d) as [entries|]; [|destruct Hin].
  rewrite !bind_lift_ok in *.
  apply filter_In in Hin. destruct Hin as [Hin Hdir].
  destruct (is_dir w plugin_dir) as [[|]|e] eqn:Hdirectory; try discriminate.
  apply (for_each_establishes _ _ _ plugin_dir).
  - exact Hret.
  - intros x Hx. apply preserves_bind_lift. intros directory Hdirectory'.
    destruct directory; [|intros st0 HQ; exact HQ].
    apply load_plugin_keeps, Hvisited. apply filter_In. rewrite Hdirectory'. auto.
  - exact Hin.
  - intros st0. rewrite Hdirectory, bind_lift_ok. apply Hest.
Qed.

Lemma load_plugins_establishes (plugin_dir : Os.path) (st : LoadState) :
  fst (_load_plugins w project_root module_dir st) = Ok tt ->
  In plugin_dir (plugin_dirs w project_root module_dir) ->
  (forall st0,
     holds (made_by_visited_plugin w project_root module_dir n) n
       (commands (registry (snd (_load_plugin w plugin_dir st0))))) ->
  holds (made_by_visited_plugin w project_root module_dir n) n
    (commands (registry (snd (_load_plugins w project_root module_dir st)))).
Proof.
  intros Hret Hin Hest. unfold _load_plugins in *.
  assert (Hfirst : forall p,
            In p (plugin_dirs_under w (joinpath project_root ".claude-plugins")) ->
            In p (plugin_dirs w project_root module_dir)).
  { intros p Hp. unfold plugin_dirs. apply in_or_app. left. exact Hp. }
  assert (Hlast : forall p,
            In p (plugin_dirs_under w (joinpath module_dir "plugins")) ->
            In p (plugin_dirs w project_root module_dir)).
  { intros p Hp. unfold plugin_dirs. apply in_or_app. right.
    apply in_or_app. right. exact Hp. }
  pose proof Hret as Hret1.
  apply bind_returned in Hret1. destruct Hret1 as [[] [Hok1 Heq1]].
  rewrite Heq1 in Hret |- *.
  set (st1 := snd (load_plugins_under w (joinpath project_root ".claude-plugins") st))
    in *.
  pose proof Hret as Hret2.
  apply bind_lift_returned in Hret2. destruct Hret2 as [local [Hlocal Heq2]].
  rewrite Heq2 in Hret |- *.
  pose proof Hret as Hret3.
  apply bind_returned in Hret3. destruct Hret3 as [[] [Hok3 Heq3]].
  rewrite Heq3 in Hret |- *.
  assert (Hkeep_local :
            local = true -> In project_root (plugin_dirs w project_root module_dir)).
  { intros ->. unfold plugin_dirs. apply in_or_app. right. apply in_or_app. left.
    rewrite Hlocal. left. reflexivity. }
  unfold plugin_dirs in Hin. apply in_app_or in Hin.
  destruct Hin as [Hin|Hin]; [|apply in_app_or in Hin; destruct Hin as [Hin|Hin]].
  - apply load_plugins_under_keeps; [exact Hlast|].
    assert (Hkeep : preserves
              (holds (made_by_visited_plugin w project_root module_dir n) n)
              (if local then _load_plugin w project_root else ret tt)).
    { destruct local; [apply load_plugin_keeps; auto|intros s HQ; exact HQ]. }
    apply Hkeep.
    apply (load_plugins_under_establishes _ plugin_dir); assumption.
  - apply load_plugins_under_keeps; [exact Hlast|].
    rewrite Hlocal in Hin. destruct local; [|destruct Hin].
    destruct Hin as [<-|[]]. apply Hest.
  - apply (load_plugins_under_establishes _ plugin_dir); assumption.
Qed.

End Plugins.

(** C6.  In a load pass that completes, the project's commands directory
    and a commands directory of a visited plugin both define the display
    name [n]; the plugin's manifest is read as a JSON object and its
    commands directories load without error.  Then the project's record
    stands under [n] after the project's commands are loaded, and the
    registry that the pass returns holds under [n] a record that the load
    made of a command file of a visited plugin, with scope plugin, whole:
    the later write has replaced the earlier one.  When the plugins of
    the pass make only one record of that name, that record is the one
    retained. *)
Theorem plugin_command_replaces_project_command
    (w : world) (project_root module_dir : Os.path) (n : string)
    (plugin_dir manifest_file dir : Os.path) (manifest : list (pyval * pyval))
    (reg : BridgeRegistry) (final : LoadState) :
  load_all w project_root module_dir fresh = (Ok reg, final) ->
  defines_command w (joinpath (joinpath project_root ".claude") "commands") "project" n ->
  In plugin_dir (plugin_dirs w project_root module_dir) ->
  manifest_path w plugin_dir = Ok manifest_file ->
  path_exists w manifest_file = Ok true ->
  read_json w manifest_file = Ok (PyDict manifest) ->
  In dir (plugin_command_dirs plugin_dir manifest) ->
  Forall (loads_quietly w) (plugin_command_dirs plugin_dir manifest) ->
  defines_command w dir "plugin" n ->
  (exists c0,
     commands (registry (snd (_load_commands w
                  (joinpath (joinpath project_root ".claude") "commands")
                  "project" fresh))) !! n = Some c0
     /\ made_in w (joinpath (joinpath project_root ".claude") "commands") "project" n c0
     /\ Command.scope c0 = "project")
  /\ (exists c visited,
        commands reg !! n = Some c
        /\ In visited (plugin_dirs w project_root module_dir)
        /\ made_by_plugin w visited n c
        /\ Command.name c = n
        /\ Command.scope c = "plugin")
  /\ (forall only,
        (forall visited c,
           In visited (plugin_dirs w project_root module_dir) ->
           made_by_plugin w visited n c -> c = only) ->
        commands reg !! n = Some only).
Proof.
  intros Hall Hproject Hvisited Hpath Hex Hread Hdir Hquiet Hplugin.
  assert (Hfinal : holds (made_by_visited_plugin w project_root module_dir n) n
                     (commands reg)).
  { assert (Hret : fst (load_all w project_root module_dir fresh) = Ok reg)
      by (rewrite Hall; reflexivity).
    unfold load_all in Hret, Hall. cbv zeta in Hret, Hall.
    apply bind_returned in Hret. destruct Hret as [[] [_ Heq1]].
    rewrite Heq1 in Hall. pose proof Hall as Hret. apply (f_equal fst) in Hret.
    cbn [fst] in Hret.
    apply bind_returned in Hret. destruct Hret as [[] [_ Heq2]].
    rewrite Heq2 in Hall. pose proof Hall as Hret. apply (f_equal fst) in Hret.
    cbn [fst] in Hret.
    apply bind_returned in Hret. destruct Hret as [[] [_ Heq3]].
    rewrite Heq3 in Hall. pose proof Hall as Hret. apply (f_equal fst) in Hret.
    cbn [fst] in Hret.
    apply bind_returned in Hret. destruct Hret as [[] [Hok4 Heq4]].
    rewrite Heq4 in Hall. injection Hall as Hreg _.
    rewrite <- Hreg.
    apply (load_plugins_establishes w project_root module_dir n plugin_dir);
      [exact Hok4|exact Hvisited|].
    intros st. eapply load_plugin_establishes; eassumption. }
  split; [|split].
  - destruct (load_commands_establishes
                (made_in w (joinpath (joinpath project_root ".claude") "commands")
                   "project" n)
                n w "project" _ fresh Hproject (fun c Hc => Hc))
      as (c0 & Hlook & Hmade).
    exists c0. split; [exact Hlook|]. split; [exact Hmade|].
    destruct Hmade as (f & _ & Hbuilt & _). eapply build_command_scope, Hbuilt.
  - destruct Hfinal as (c & Hlook & visited & Hin & Hmade).
    exists c, visited. repeat split; try assumption.
    + destruct Hmade as (mf & m & d & _ & _ & _ & f & _ & _ & Hname). exact Hname.
    + destruct Hmade as (mf & m & d & _ & _ & _ & f & _ & Hbuilt & _).
      eapply build_command_scope, Hbuilt.
  - intros only Honly. destruct Hfinal as (c & Hlook & visited & Hin & Hmade).
    rewrite Hlook. f_equal. eapply Honly; eassumption.
Qed.

End Pass.

End LoaderFacts.

(** ** The properties at work on the sample project *)

Module Examples.

Import Py Os Loader Sample.

(** *** Commands *)

Example spec_example_arguments :
  CommandExecutor._substitute_arguments "Hello $ARGUMENTS, arg1=$1" ["world"; "x"]
  = "Hello world x, arg1=world".
Proof. reflexivity. Qed.

(** C3, counterexample.  The build exits with code 0 and writes a warning
    to standard error: the token is replaced by the trimmed standard
    output alone. *)
Lemma stderr_dropped_on_success :
  fst (subprocess_run workshop "build" "/proj" [] 30)
  = Completed (process 0 (line "done") (line "warning: x"))
  /\ fst (CommandExecutor._execute_inline_bash executor "see !`build`" workshop)
     = "see done".
Proof. split; reflexivity. Qed.

(** C3 at work: the same build, by the amended statement. *)
Lemma inline_command_replacement_witness :
  exists replacement,
    fst (CommandExecutor._execute_inline_bash executor "see !`build`" workshop)
    = "see " +:+ replacement
    /\ replacement = "done".
Proof.
  destruct (CommandFacts.inline_command_replacement executor "see !`build`" workshop
              (literals "see ") "build" []
              (process 0 (line "done") (line "warning: x"))
              (snd (subprocess_run workshop "build" "/proj" [] 30))
              eq_refl eq_refl)
    as (replacement & Htext & Hplain & _).
  exists replacement. split.
  - rewrite Htext. simpl. rewrite PyFacts.str_app_nil_r. reflexivity.
  - rewrite (Hplain (or_introl eq_refl)). reflexivity.
Defined.

(** C4, counterexample.  With no argument, a placeholder reaches the
    prompt from an inlined file, which is not substituted; and from the
    body [$$11], where deleting the placeholder in the middle makes a new
    one. *)
Lemma placeholder_survives :
  match fst (CommandExecutor.prepare_prompt executor (command_with "Bill: @notes.txt")
               [] workshop) with
  | Ok prompt => contains "$1" prompt
  | Raise _ => false
  end = true
  /\ fst (CommandExecutor.prepare_prompt executor (command_with "$$11") [] workshop)
     = Ok "$1".
Proof. split; reflexivity. Qed.

(** C4 at work: a body with two placeholders and no argument. *)
Lemma no_arguments_no_placeholders_witness :
  contains "$1" (CommandExecutor._substitute_arguments "Deploy $1 to $2 now" []) = false
  /\ CommandExecutor.prepare_prompt executor (command_with "Deploy $1 to $2 now")
       [] workshop
     = (Ok "Deploy  to  now", workshop).
Proof.
  assert (Hindex : 1 <= 1 <= 9) by (split; repeat constructor).
  destruct (CommandFacts.no_arguments_no_placeholders executor
              (command_with "Deploy $1 to $2 now") workshop 1 eq_refl Hindex)
    as [Hnone Hprompt].
  split; [exact Hnone|]. apply Hprompt; reflexivity.
Defined.

(** C8, the failing input.  A reference to the home of a user the system
    does not know: the expansion raises, outside the [try], and so do the
    stage and the preparation of the prompt. *)
Lemma unknown_user_reference_raises :
  CommandExecutor._resolve_file_references executor workshop "See @~ghost/notes.txt"
  = Raise (Exn "RuntimeError" "Could not determine home directory.")
  /\ fst (CommandExecutor.prepare_prompt executor (command_with "See @~ghost/notes.txt")
            [] workshop)
     = Raise (Exn "RuntimeError" "Could not determine home directory.").
Proof. split; reflexivity. Qed.

Example spec_example_inline_command :
  fst (CommandExecutor._execute_inline_bash executor "Say !`echo hi`." workshop)
  = "Say hi.".
Proof. reflexivity. Qed.

Example spec_example_missing_file :
  CommandExecutor._resolve_file_references executor workshop "Read @missing.txt"
  = Ok "Read [File not found: missing.txt]".
Proof. reflexivity. Qed.


(** *** Hooks *)


(** C1 at work: the guard vetoes, and the auditor registered after it
    does not run. *)
Lemma exit_code_decides_witness :
  HookEngine.execute (engine_with [guard; auditor]) HookEngine.PRETOOLUSE
    (use_of "Bash") (start workshop)
  = (Ok HookEngine.BLOCK,
     {| HookEngine.executed_once_hooks := ∅;
        HookEngine.os := snd (subprocess_run workshop "check" "/proj" [] 600);
        HookEngine.trace :=
          [HookEngine.Ran "check"; HookEngine.Printed "[Hook BLOCKED] denied"] |}).
Proof.
  destruct (HookFacts.exit_code_decides (engine_with [guard; auditor])
              HookEngine.PRETOOLUSE (use_of "Bash") [] guard [auditor]
              (start workshop) HookEngine.CONTINUE (start workshop) "check"
              (process 2 "" (line "denied"))
              (snd (subprocess_run workshop "check" "/proj" [] 600))
              (lookup_singleton_eq _ _) eq_refl
              ltac:(discriminate) eq_refl ltac:(discriminate) eq_refl eq_refl
              ltac:(discriminate) eq_refl)
    as [Hblock _].
  destruct (Hblock eq_refl) as (_ & Hexec & _).
  rewrite Hexec. reflexivity.
Defined.


(** A hook whose matcher the library rejects with [re.error] changes
    nothing. *)
Example rejected_matcher_changes_nothing :
  HookEngine.execute (engine_with [broken; auditor]) HookEngine.PRETOOLUSE
    (use_of "Bash") (start workshop)
  = HookEngine.execute (engine_with [auditor]) HookEngine.PRETOOLUSE
      (use_of "Bash") (start workshop).
Proof.
  assert (Hinvalid : forall name,
            re_match_ignorecase (HookEngine.matcher broken) name = ReError)
    by (intros name; reflexivity).
  rewrite (HookFacts.rejected_matcher_is_skipped (engine_with [broken; auditor])
             HookEngine.PRETOOLUSE (use_of "Bash") [] broken [auditor] (start workshop)
             Hinvalid (lookup_singleton_eq _ _)).
  reflexivity.
Qed.

(** C9 at work, on the failing input.  A hook whose matcher asks for
    4294967295 repeats: the library raises [OverflowError]; the exception
    leaves [_matches] and [execute], and the auditor registered after the
    hook does not run, where the dispatch without the hook runs it and
    returns CONTINUE. *)
Lemma matcher_failure_outcomes_witness :
  HookEngine._matches (HookEngine.matcher overflowing) "Bash"
  = Raise (Exn "OverflowError" "the repetition number is too large")
  /\ HookEngine.execute (engine_with [overflowing; auditor]) HookEngine.PRETOOLUSE
       (use_of "Bash") (start workshop)
     = (Raise (Exn "OverflowError" "the repetition number is too large"),
        start workshop)
  /\ fst (HookEngine.execute (engine_with [auditor]) HookEngine.PRETOOLUSE
            (use_of "Bash") (start workshop))
     = Ok HookEngine.CONTINUE
  /\ HookEngine.executions
       (HookEngine.trace
          (snd (HookEngine.execute (engine_with [auditor]) HookEngine.PRETOOLUSE
                  (use_of "Bash") (start workshop))))
     = 1.
Proof.
  destruct (HookFacts.matcher_failure_outcomes (engine_with [overflowing; auditor])
              HookEngine.PRETOOLUSE (use_of "Bash") [] overflowing [auditor]
              (start workshop) (lookup_singleton_eq _ _))
    as [_ Hraises].
  destruct (Hraises HookEngine.CONTINUE (start workshop)
              (Exn "OverflowError" "the repetition number is too large")
              eq_refl ltac:(discriminate) eq_refl)
    as [Hmatch Hexecute].
  split; [exact Hmatch|]. split; [exact Hexecute|]. split; reflexivity.
Defined.

(** *** The loader *)

Example frontmatter_without_delimiter :
  parse_frontmatter "Just a body" = Ok (PyDict [], "Just a body").
Proof. reflexivity. Qed.

Example frontmatter_rejected_header :
  parse_frontmatter ("---" +:+ nl +:+ "no colon here" +:+ nl +:+ "---" +:+ nl +:+ "body")
  = Ok (PyDict [],
        "---" +:+ nl +:+ "no colon here" +:+ nl +:+ "---" +:+ nl +:+ "body").
Proof. reflexivity. Qed.

(** C7 at work, on the failing input.  A header that writes a date with
    a month that does not exist: the pattern matches, the YAML loader
    raises [ValueError] when it makes the date, which is not a YAML error,
    and the exception leaves [parse_frontmatter]. *)
Lemma frontmatter_outcomes_witness :
  match_frontmatter ("---" +:+ nl +:+ "d: 2001-13-45" +:+ nl +:+ "---" +:+ nl +:+ "body")
  = Some ("d: 2001-13-45", "body")
  /\ yaml_safe_load "d: 2001-13-45"
     = YamlOtherError (Exn "ValueError" "month must be in 1..12")
  /\ parse_frontmatter
       ("---" +:+ nl +:+ "d: 2001-13-45" +:+ nl +:+ "---" +:+ nl +:+ "body")
     = Raise (Exn "ValueError" "month must be in 1..12").
Proof.
  split; [reflexivity|]. split; [reflexivity|].
  destruct (LoaderFacts.frontmatter_outcomes
              ("---" +:+ nl +:+ "d: 2001-13-45" +:+ nl +:+ "---" +:+ nl +:+ "body"))
    as [_ Hmatched].
  destruct (Hmatched "d: 2001-13-45" "body" eq_refl) as (_ & _ & _ & Hother).
  exact (proj1 (Hother (Exn "ValueError" "month must be in 1..12") eq_refl)).
Defined.

Example frontmatter_read :
  parse_frontmatter ("---" +:+ nl +:+ "model: opus" +:+ nl +:+ "---" +:+ nl +:+ "body")
  = Ok (PyDict [(PyStr "model", PyStr "opus")], "body").
Proof. reflexivity. Qed.

Example plugin_version_is_kept :
  option_map Command.content
    (commands (registry (snd (load_all checkout "/proj" "/opt/bridge" fresh))) !! "foo")
  = Some "plugin version"
  /\ option_map Command.content
       (commands (registry (snd (_load_commands checkout "/proj/.claude/commands"
                                   "project" fresh))) !! "foo")
     = Some "project version".
Proof. split; vm_compute; reflexivity. Qed.

(** C6 at work: foo of the plugin stands in the registry. *)
Lemma plugin_command_replaces_project_command_witness :
  exists c,
    commands (registry (snd (load_all checkout "/proj" "/opt/bridge" fresh))) !! "foo"
    = Some c
    /\ Command.scope c = "plugin"
    /\ made_by_plugin checkout "/proj/.claude-plugins/pack" "foo" c.
Proof.
  destruct (LoaderFacts.plugin_command_replaces_project_command
              checkout "/proj" "/opt/bridge" "foo"
              "/proj/.claude-plugins/pack" "/proj/.claude-plugins/pack/plugin.json"
              "/proj/.claude-plugins/pack/commands" []
              (registry (snd (load_all checkout "/proj" "/opt/bridge" fresh)))
              (snd (load_all checkout "/proj" "/opt/bridge" fresh)))
    as (_ & (c & visited & Hlook & Hvisited & Hmade & _ & Hscope) & _).
  - vm_compute. reflexivity.
  - split; [reflexivity|]. eexists. exists "/proj/.claude/commands/foo.md".
    split; [left; reflexivity|]. split; reflexivity.
  - left. reflexivity.
  - reflexivity.
  - reflexivity.
  - reflexivity.
  - left. reflexivity.
  - constructor; [reflexivity|]. constructor; [exact I|]. constructor.
  - split; [reflexivity|]. eexists.
    exists "/proj/.claude-plugins/pack/commands/foo.md".
    split; [left; reflexivity|]. split; reflexivity.
  - exists c. split; [exact Hlook|]. split; [exact Hscope|].
    destruct Hvisited as [<-|[]]. exact Hmade.
Defined.

End Examples.

(** ** More of the command executor: files, failures, tool restrictions *)

Module CommandProps.

Import Py Os Loader CommandExecutor PyFacts.



Lemma tool_pattern_complete (tool_name pattern rest : string) :
  tool_name <> "" ->
  every isword tool_name = true ->
  pattern <> "" ->
  contains ")" pattern = false ->
  tool_pattern (tool_name +:+ "(" +:+ pattern +:+ ")" +:+ rest)
  = Some (tool_name, pattern).
Proof.
  intros Hname Hword Hpat Hclosed. unfold tool_pattern.
  change ("(" +:+ pattern +:+ ")" +:+ rest)
    with (String "(" (pattern +:+ String ")" rest)).
  rewrite CommandFacts.take_while_app by (try assumption; reflexivity).
  rewrite drop_length_app.
  change (Ascii.eqb "(" "(") with true. cbv beta iota zeta.
  rewrite CommandFacts.take_while_app
    by (first [apply every_no_char; assumption | reflexivity]).
  rewrite drop_length_app.
  destruct tool_name; [contradiction|]. destruct pattern; [contradiction|].
  reflexivity.
Qed.

(** The loop over the entries, from any dict: the entries that match the
    pattern and those that do not, each kind in the order of the list. *)
Lemma sort_tools (entries : list string) (r : Restrictions) :
  allowed (fold_left sort_tool entries r)
  = allowed r
    ++ flat_map (fun e => match tool_pattern e with
                          | None => [e]
                          | Some _ => []
                          end) entries
  /\ allowed_patterns (fold_left sort_tool entries r)
     = allowed_patterns r
       ++ flat_map (fun e => match tool_pattern e with
                             | Some (n, p) => [{| tool := n; pattern := p |}]
                             | None => []
                             end) entries
  /\ disallowed (fold_left sort_tool entries r) = disallowed r.
Proof.
  revert r. induction entries as [|e entries IH]; intros r.
  - simpl. rewrite !app_nil_r. auto.
  - simpl fold_left. destruct (IH (sort_tool r e)) as (Ha & Hp & Hd).
    rewrite Ha, Hp, Hd. unfold sort_tool. simpl flat_map.
    destruct (tool_pattern e) as [[n p]|]; simpl;
      rewrite <- ?app_assoc; auto.
Qed.

(** Entries that do not match the pattern are all plain tools. *)
Lemma plain_entries (entries : list string) :
  Forall (fun entry => tool_pattern entry = None) entries ->
  flat_map (fun e => match tool_pattern e with
                     | None => [e]
                     | Some _ => []
                     end) entries = entries
  /\ flat_map (fun e => match tool_pattern e with
                        | Some (n, p) => [{| tool := n; pattern := p |}]
                        | None => []
                        end) entries = [].
Proof.
  induction 1 as [|e l He _ [IHa IHp]]; [split; reflexivity|].
  simpl. rewrite He, IHa, IHp. split; reflexivity.
Qed.

Section Stages.
Context `{Host}.

(** A body that is one reference to a readable file, prepared with any
    arguments.  The text of the file meets stage 3 only: it is put between
    the marker lines as it is, so that a placeholder or a reference in it
    stays, whatever the arguments, and the inline commands in it are
    run. *)
Theorem referenced_text_meets_stage_three_only
    (self : CommandExecutor.t) (command : Command.t) (arguments : list string)
    (w : world) (file_path : string) (p : Os.path) (file_content : string) :
  file_path <> "" ->
  every (fun c => negb (isspace c || Ascii.eqb c "@")) file_path = true ->
  contains "$" file_path = false ->
  (path_exists w (joinpath (project_root self) file_path) = Ok true
   /\ p = joinpath (project_root self) file_path)
  \/ (path_exists w (joinpath (project_root self) file_path) = Ok false
      /\ expanduser w file_path = Some p) ->
  path_exists w p = Ok true ->
  is_file w p = Ok true ->
  read_text w p = inl file_content ->
  let block :=
    nl +:+ "--- Content of " +:+ file_path +:+ " ---" +:+ nl
    +:+ file_content +:+ nl
    +:+ "--- End of " +:+ file_path +:+ " ---" +:+ nl in
  _resolve_file_references self w ("@" +:+ file_path) = Ok block
  /\ prepare_prompt self (with_content command ("@" +:+ file_path)) arguments w
     = (Ok (fst (_execute_inline_bash self block w)),
        snd (_execute_inline_bash self block w)).
Proof.
  intros Hne Hpath Hdollar Hloc Hex Hfile Hread block.
  assert (Hresolved : _resolve_file_references self w ("@" +:+ file_path) = Ok block).
  { pose proof (CommandFacts.reference_token_resolves self w "" file_path "" p
                  file_content "" eq_refl Hne Hpath I Hloc Hex Hfile Hread eq_refl)
      as Hr.
    rewrite !str_app_nil_r in Hr. rewrite !str_app_nil_l in Hr. exact Hr. }
  split; [exact Hresolved|].
  rewrite CommandFacts.prepare_prompt_stages. simpl Command.content.
  rewrite CommandFacts.substitute_plain_text
    by (apply (contains_char_app "$" "@" file_path); [reflexivity|exact Hdollar]).
  rewrite Hresolved. reflexivity.
Qed.

(** An inline command that times out, or that cannot be started, leaves
    its marker where the token stood, and the rest of the body is still
    gone over, in the world that the attempt leaves. *)
Theorem failed_inline_command_is_marked (self : CommandExecutor.t)
    (before command after : string) (w : world) :
  contains "!" before = false ->
  command <> "" ->
  contains "`" command = false ->
  let attempt := subprocess_run w command (project_root self) [] 30 in
  let rest := _execute_inline_bash self after (snd attempt) in
  let prompt :=
    _execute_inline_bash self (before +:+ "!`" +:+ command +:+ "`" +:+ after) w in
  snd prompt = snd rest
  /\ (fst attempt = TimeoutExpired ->
      fst prompt = before +:+ "[Command timed out: " +:+ command +:+ "]" +:+ fst rest)
  /\ (forall e,
        fst attempt = RunFailed e ->
        fst prompt
        = before +:+ "[Error executing '" +:+ command +:+ "': " +:+ e +:+ "]"
          +:+ fst rest).
Proof.
  intros Hbang Hne Htick attempt rest prompt.
  unfold prompt. rewrite CommandFacts.inline_token_runs by assumption.
  unfold rest, attempt, execute_and_replace.
  destruct (subprocess_run w command (project_root self) [] 30) as [outcome w1].
  cbn [fst snd].
  destruct outcome as [result| |e0];
    destruct (_execute_inline_bash self after w1) as [text w2]; cbn [fst snd];
    (split; [reflexivity|]); split; try discriminate.
  - intros _. rewrite !str_app_assoc. reflexivity.
  - intros e [= <-]. rewrite !str_app_assoc. reflexivity.
Qed.

End Stages.

Section Agent.
Context `{Host} `{Library}.


(** Entries that are a tool name, a parenthesis, a pattern and the closing
    parenthesis, and nothing more, come back as they were given when each
    pattern is shown as [tool(pattern)], which is how the header of the
    agent prompt shows them. *)
Theorem pattern_entries_are_shown_as_given (command : Command.t) :
  Forall (fun entry =>
            exists tool_name pattern,
              entry = tool_name +:+ "(" +:+ pattern +:+ ")"
              /\ tool_name <> "" /\ every isword tool_name = true
              /\ pattern <> "" /\ contains ")" pattern = false)
         (Command.allowed_tools command) ->
  let restrictions := get_tool_restrictions command in
  allowed restrictions = []
  /\ map show_pattern (allowed_patterns restrictions) = Command.allowed_tools command.
Proof.
  intros Hshape restrictions. unfold restrictions, get_tool_restrictions.
  destruct (sort_tools (Command.allowed_tools command)
              {| allowed := []; allowed_patterns := [];
                 disallowed := Command.disallowed_tools command |})
    as (Ha & Hp & _).
  rewrite Ha, Hp. simpl. clear Ha Hp.
  induction Hshape as [|e l (n & p & -> & Hn & Hw & Hp & Hc) _ [IHa IHp]];
    [split; reflexivity|].
  simpl.
  assert (Hm : tool_pattern (n +:+ "(" +:+ p +:+ ")") = Some (n, p)).
  { pose proof (tool_pattern_complete n p "" Hn Hw Hp Hc) as Hm.
    rewrite str_app_nil_r in Hm. exact Hm. }
  rewrite Hm. simpl. split; [exact IHa|]. f_equal. exact IHp.
Qed.

(** The prompt for the agent of a command without tools and without a
    model: the title line, an empty line, the rule, and the prepared
    prompt; nothing when the preparation raises. *)
Theorem bare_command_header (self : CommandExecutor.t) (command : Command.t)
    (arguments : list string) (w : world) :
  Command.allowed_tools command = [] ->
  Command.disallowed_tools command = [] ->
  value_truthy (Command.model command) = false ->
  format_for_agent self command arguments w
  = match prepare_prompt self command arguments w with
    | (Ok prompt, w') =>
        (Ok ("# Executing Command: /" +:+ Command.name command +:+ nl +:+ nl
             +:+ nl +:+ "---" +:+ nl +:+ nl +:+ prompt), w')
    | (Raise e, w') => (Raise e, w')
    end.
Proof.
  intros Htools Hdis Hmodel. unfold format_for_agent.
  destruct (prepare_prompt self command arguments w) as [[prompt|e] w'];
    [|reflexivity].
  unfold agent_header, get_tool_restrictions. rewrite Htools, Hdis, Hmodel.
  simpl fold_left. cbn [allowed allowed_patterns disallowed].
  rewrite !str_app_assoc. reflexivity.
Qed.

(** The prompt for the agent of a command whose allowed tools are plain
    names, with disallowed tools and a model given as a text: the three
    lines stand in that order between the title and the rule, the tools
    joined by a comma and a space. *)
Theorem plain_tools_header (self : CommandExecutor.t) (command : Command.t)
    (arguments : list string) (w : world) (model prompt : string) (w' : world) :
  Command.allowed_tools command <> [] ->
  Forall (fun entry => tool_pattern entry = None) (Command.allowed_tools command) ->
  Command.disallowed_tools command <> [] ->
  Command.model command = PyStr model ->
  model <> "" ->
  prepare_prompt self command arguments w = (Ok prompt, w') ->
  format_for_agent self command arguments w
  = (Ok ("# Executing Command: /" +:+ Command.name command +:+ nl +:+ nl
         +:+ "**Allowed Tools**: " +:+ join ", " (Command.allowed_tools command) +:+ nl
         +:+ "**Disallowed Tools**: "
         +:+ join ", " (Command.disallowed_tools command) +:+ nl
         +:+ "**Preferred Model**: " +:+ model +:+ nl
         +:+ nl +:+ "---" +:+ nl +:+ nl +:+ prompt), w').
Proof.
  intros Htools Hplain Hdis Hmodel Hne Hprep. unfold format_for_agent.
  rewrite Hprep. unfold agent_header, get_tool_restrictions.
  destruct (sort_tools (Command.allowed_tools command)
              {| allowed := []; allowed_patterns := [];
                 disallowed := Command.disallowed_tools command |})
    as (Ha & Hp & Hd).
  destruct (plain_entries _ Hplain) as [Hall Hnone].
  rewrite Hall in Ha. rewrite Hnone in Hp. simpl in Ha, Hp, Hd.
  rewrite Ha, Hp, Hd, Hmodel.
  destruct (Command.allowed_tools command) as [|t ts]; [contradiction|].
  destruct (Command.disallowed_tools command) as [|d ds]; [contradiction|].
  destruct model as [|m ms]; [contradiction|].
  cbn [value_truthy truthy str_of]. f_equal. rewrite !str_app_assoc. reflexivity.
Qed.

End Agent.

End CommandProps.

(** ** More of the hook engine: what a dispatch can change, hooks that
    cannot run, templates *)

Module HookProps.

Import Py Os Loader HookEngine PyFacts HookFacts.

Lemma upper_app (a b : string) : upper (a +:+ b) = upper a +:+ upper b.
Proof.
  induction a as [|c a IH]; [reflexivity|].
  rewrite str_app_cons. simpl. rewrite IH. reflexivity.
Qed.

Lemma contains_app_r (t a b : string) : contains t b = true -> contains t (a +:+ b) = true.
Proof.
  intros Hb. induction a as [|c a IH]; [exact Hb|].
  rewrite str_app_cons, contains_cons, IH. apply orb_true_r.
Qed.

Lemma contains_app_l (t b : string) : contains t (t +:+ b) = true.
Proof.
  destruct t as [|c t]; [destruct b; reflexivity|].
  rewrite str_app_cons, contains_cons, <- str_app_cons, startswith_app. reflexivity.
Qed.


Section Dispatch.
Context `{Host} `{Library}.

(** A hook adds to the trace and never rewrites it. *)
Lemma execute_hook_extends_trace (self : HookEngine.t) (hook : HookConfig)
    (context : HookContext) (st : State) :
  exists added, trace (snd (_execute_hook self hook context st)) = trace st ++ added.
Proof.
  assert (Hnone : exists added : list event, trace st = trace st ++ added)
    by (exists []; rewrite app_nil_r; reflexivity).
  unfold _execute_hook.
  destruct (String.eqb (type hook) "command");
    [|destruct (String.eqb (type hook) "prompt");
      [|destruct (String.eqb (type hook) "agent")]].
  - unfold _execute_command_hook.
    destruct (command hook) as [template|]; [|exact Hnone].
    destruct (truthy template); [|exact Hnone]. cbn [negb].
    destruct (subprocess_run _ _ _ _ _) as [[result| |e] w']; cbn [snd].
    + destruct (Z.eqb (returncode result) 0); [|destruct (Z.eqb (returncode result) 2)];
        cbn [snd]; rewrite trace_print_if; simpl; rewrite <- app_assoc; eauto.
    + simpl. rewrite <- app_assoc. eauto.
    + simpl. rewrite <- app_assoc. eauto.
  - unfold _execute_prompt_hook.
    destruct (prompt hook) as [template|]; [|exact Hnone].
    destruct (prompt_executor self) as [run_prompt|]; [|exact Hnone].
    destruct (truthy template); [|exact Hnone]. cbn [negb].
    destruct (run_prompt _ _ _) as [[result|e] w']; simpl;
      rewrite <- ?app_assoc; eauto.
  - unfold _execute_agent_hook.
    destruct (agent hook) as [name|]; [|exact Hnone].
    destruct (agent_executor self) as [run_agent|]; [|exact Hnone].
    destruct (truthy name); [|exact Hnone]. cbn [negb].
    destruct (run_agent _ _ _) as [[result|e] w']; simpl;
      rewrite <- ?app_assoc; eauto.
  - simpl. eauto.
Qed.

(** The loop only adds: to the executed-once set, identities of once
    hooks among those pending; to the trace, at its end. *)
Lemma dispatch_adds (self : HookEngine.t) (type_str : string) (context : HookContext)
    (pending : list HookConfig) (result : HookResult) (st : State) :
  let after := snd (dispatch self type_str context pending result st) in
  executed_once_hooks st ⊆ executed_once_hooks after
  /\ (exists added, trace after = trace st ++ added)
  /\ (forall id,
        id ∈ executed_once_hooks after ->
        id ∉ executed_once_hooks st ->
        exists hook,
          In hook pending /\ once hook = true /\ id = hook_id type_str hook).
Proof.
  revert result st. induction pending as [|hook rest IH]; intros result st.
  - simpl. split; [reflexivity|]. split.
    + exists []. rewrite app_nil_r. reflexivity.
    + intros id Hin Hout. contradiction.
  - assert (Hskip : forall r,
              let after := snd (dispatch self type_str context rest r st) in
              executed_once_hooks st ⊆ executed_once_hooks after
              /\ (exists added, trace after = trace st ++ added)
              /\ (forall id,
                    id ∈ executed_once_hooks after ->
                    id ∉ executed_once_hooks st ->
                    exists hook0,
                      In hook0 (hook :: rest) /\ once hook0 = true
                      /\ id = hook_id type_str hook0)).
    { intros r. destruct (IH r st) as (Hsub & Htrace & Hnew).
      split; [exact Hsub|]. split; [exact Htrace|].
      intros id Hin Hout. destruct (Hnew id Hin Hout) as (h & Hh & Ho & Hid).
      exists h. split; [right; exact Hh|]. auto. }
    simpl.
    destruct (_matches (matcher hook) (tool_name context)) as [[|]|e];
      [|apply Hskip|].
    2: { simpl. split; [reflexivity|]. split.
         - exists []. rewrite app_nil_r. reflexivity.
         - intros id Hin Hout. contradiction. }
    destruct (once hook && bool_decide (hook_id type_str hook ∈ executed_once_hooks st));
      [apply Hskip|].
    pose proof (execute_hook_keeps_once self hook context st) as Hkeep.
    pose proof (execute_hook_extends_trace self hook context st) as Hext.
    destruct (_execute_hook self hook context st) as [hook_result st1].
    cbn [snd] in Hkeep, Hext. destruct Hext as [added1 Hext].
    set (st2 := if once hook then mark (hook_id type_str hook) st1 else st1).
    assert (Hsub2 : executed_once_hooks st ⊆ executed_once_hooks st2).
    { unfold st2. destruct (once hook); simpl; rewrite Hkeep;
        [apply union_subseteq_r|reflexivity]. }
    assert (Htrace2 : trace st2 = trace st ++ added1).
    { unfold st2. destruct (once hook); exact Hext. }
    assert (Hnew2 : forall id,
              id ∈ executed_once_hooks st2 -> id ∉ executed_once_hooks st ->
              once hook = true /\ id = hook_id type_str hook).
    { intros id. unfold st2. destruct (once hook); simpl; rewrite Hkeep.
      - intros Hin Hout. split; [reflexivity|].
        apply elem_of_union in Hin. destruct Hin as [Hin|Hin]; [|contradiction].
        apply elem_of_singleton in Hin. exact Hin.
      - intros Hin Hout. contradiction. }
    assert (Hthen : forall r,
              let after := snd (dispatch self type_str context rest r st2) in
              executed_once_hooks st ⊆ executed_once_hooks after
              /\ (exists added, trace after = trace st ++ added)
              /\ (forall id,
                    id ∈ executed_once_hooks after ->
                    id ∉ executed_once_hooks st ->
                    exists hook0,
                      In hook0 (hook :: rest) /\ once hook0 = true
                      /\ id = hook_id type_str hook0)).
    { intros r. destruct (IH r st2) as (Hsub & [added Htrace] & Hnew).
      split; [etrans; eassumption|]. split.
      - exists (added1 ++ added). rewrite Htrace, Htrace2, app_assoc. reflexivity.
      - intros id Hin Hout.
        destruct (decide (id ∈ executed_once_hooks st2)) as [Hin2|Hout2].
        + destruct (Hnew2 id Hin2 Hout) as [Ho Hid].
          exists hook. split; [left; reflexivity|]. auto.
        + destruct (Hnew id Hin Hout2) as (h & Hh & Ho & Hid).
          exists h. split; [right; exact Hh|]. auto. }
    destruct hook_result; [apply Hthen|apply Hthen|].
    cbn [snd]. split; [exact Hsub2|]. split; [eauto|].
    intros id Hin Hout. destruct (Hnew2 id Hin Hout) as [Ho Hid].
    exists hook. split; [left; reflexivity|]. auto.
Qed.

(** A dispatch only adds.  Nothing leaves the executed-once set, and
    what enters it is the identity of a once hook registered for the event
    type; the trace is extended at its end. *)
Theorem dispatch_only_adds (self : HookEngine.t) (hook_type : HookType)
    (context : HookContext) (st : State) :
  let after := snd (execute self hook_type context st) in
  executed_once_hooks st ⊆ executed_once_hooks after
  /\ (exists added, trace after = trace st ++ added)
  /\ (forall id,
        id ∈ executed_once_hooks after ->
        id ∉ executed_once_hooks st ->
        exists registered hook,
          hooks self !! value hook_type = Some registered
          /\ In hook registered /\ once hook = true
          /\ id = hook_id (value hook_type) hook).
Proof.
  unfold execute. destruct (hooks self !! value hook_type) as [registered|] eqn:Hreg.
  - destruct (dispatch_adds self (value hook_type) context registered CONTINUE st)
      as (Hsub & Htrace & Hnew).
    split; [exact Hsub|]. split; [exact Htrace|].
    intros id Hin Hout. destruct (Hnew id Hin Hout) as (hook & Hh & Ho & Hid).
    exists registered, hook. auto.
  - simpl. split; [reflexivity|]. split.
    + exists []. rewrite app_nil_r. reflexivity.
    + intros id Hin Hout. contradiction.
Qed.

(** Once a hook has resolved to ERROR, the loop does not return
    CONTINUE. *)
Lemma dispatch_after_error (self : HookEngine.t) (type_str : string)
    (context : HookContext) (pending : list HookConfig) (st : State) :
  fst (dispatch self type_str context pending ERROR st) <> Ok CONTINUE.
Proof.
  revert st. induction pending as [|hook rest IH]; intros st; [discriminate|].
  simpl. destruct (_matches (matcher hook) (tool_name context)) as [[|]|e];
    [|apply IH|discriminate].
  destruct (once hook && bool_decide (hook_id type_str hook ∈ executed_once_hooks st));
    [apply IH|].
  destruct (_execute_hook self hook context st) as [[| |] st1];
    [apply IH|apply IH|discriminate].
Qed.

(** An error is not forgotten.  When a hook that is reached and run
    resolves to ERROR, the dispatch does not return CONTINUE, whatever the
    hooks registered after it do: it returns ERROR or BLOCK, or an
    exception of a later matcher ends it. *)
Theorem error_is_not_forgotten
    (self : HookEngine.t) (hook_type : HookType) (context : HookContext)
    (before : list HookConfig) (hook : HookConfig) (after : list HookConfig)
    (st : State) (so_far : HookResult) (st0 st1 : State) :
  hooks self !! value hook_type = Some (before ++ hook :: after) ->
  dispatch self (value hook_type) context before CONTINUE st = (Ok so_far, st0) ->
  so_far <> BLOCK ->
  _matches (matcher hook) (tool_name context) = Ok true ->
  (once hook = true -> hook_id (value hook_type) hook ∉ executed_once_hooks st0) ->
  _execute_hook self hook context st0 = (ERROR, st1) ->
  fst (execute self hook_type context st) <> Ok CONTINUE
  /\ (Forall (fun h => _matches (matcher h) (tool_name context) = Ok false) after ->
      execute self hook_type context st
      = (Ok ERROR, if once hook then mark (hook_id (value hook_type) hook) st1 else st1)).
Proof.
  intros Hreg Hbefore Hnb Hm Honce Hrun. unfold execute. rewrite Hreg.
  rewrite dispatch_app by discriminate. rewrite Hbefore. cbn [fst snd].
  assert (Hstep : forall r,
            dispatch self (value hook_type) context (hook :: after) r st0
            = dispatch self (value hook_type) context after ERROR
                (if once hook then mark (hook_id (value hook_type) hook) st1 else st1)).
  { intros r. rewrite dispatch_runs by assumption. rewrite Hrun. reflexivity. }
  destruct so_far; [| |contradiction]; rewrite Hstep;
    (split; [apply dispatch_after_error|]);
    intros Hnone; apply dispatch_none_match; exact Hnone.
Qed.

(** A hook that has nothing to run resolves to ERROR and changes
    nothing: a command hook without command, a prompt or agent hook
    without its payload or on an engine that has no runner for it.  A hook
    whose type is not command, prompt or agent resolves to ERROR too, and
    prints a warning. *)
Theorem hook_with_nothing_to_run_is_error (self : HookEngine.t) (hook : HookConfig)
    (context : HookContext) (st : State) :
  ((type hook = "command" /\ (command hook = None \/ command hook = Some ""))
   \/ (type hook = "prompt"
       /\ (prompt hook = None \/ prompt hook = Some "" \/ prompt_executor self = None))
   \/ (type hook = "agent"
       /\ (agent hook = None \/ agent hook = Some "" \/ agent_executor self = None)) ->
   _execute_hook self hook context st = (ERROR, st))
  /\ (type hook <> "command" -> type hook <> "prompt" -> type hook <> "agent" ->
      _execute_hook self hook context st
      = (ERROR, log (Printed ("Warning: Unknown hook type: " +:+ type hook)) st)).
Proof.
  unfold _execute_hook. split.
  - intros [[Ht Hc]|[[Ht Hc]|[Ht Hc]]]; rewrite Ht.
    + change (String.eqb "command" "command") with true. cbv iota.
      unfold _execute_command_hook. destruct Hc as [->| ->]; reflexivity.
    + change (String.eqb "prompt" "command") with false.
      change (String.eqb "prompt" "prompt") with true. cbv iota.
      unfold _execute_prompt_hook.
      destruct Hc as [->|[->| ->]]; try reflexivity.
      * destruct (prompt_executor self); reflexivity.
      * destruct (prompt hook); reflexivity.
    + change (String.eqb "agent" "command") with false.
      change (String.eqb "agent" "prompt") with false.
      change (String.eqb "agent" "agent") with true. cbv iota.
      unfold _execute_agent_hook.
      destruct Hc as [->|[->| ->]]; try reflexivity.
      * destruct (agent_executor self); reflexivity.
      * destruct (agent hook); reflexivity.
  - intros Hc Hp Ha. apply String.eqb_neq in Hc, Hp, Ha. rewrite Hc, Hp, Ha.
    reflexivity.
Qed.

(** A prompt hook blocks when the answer of the runner holds the word
    block in any letter case, wherever it stands in the answer. *)
Theorem answer_with_block_blocks (self : HookEngine.t) (hook : HookConfig)
    (context : HookContext) (st : State) (template : string) (run_prompt : executor)
    (lead word rest : string) (w' : world) :
  type hook = "prompt" ->
  prompt hook = Some template ->
  template <> "" ->
  prompt_executor self = Some run_prompt ->
  run_prompt (_substitute_variables self template context) context (os st)
  = (Returned (lead +:+ word +:+ rest), w') ->
  upper word = "BLOCK" ->
  _execute_hook self hook context st
  = (BLOCK, log (Prompted (_substitute_variables self template context)) (with_os w' st)).
Proof.
  intros Ht Hp Hne Hrun Hanswer Hword. unfold _execute_hook. rewrite Ht.
  change (String.eqb "prompt" "command") with false.
  change (String.eqb "prompt" "prompt") with true. cbv iota.
  unfold _execute_prompt_hook. rewrite Hp, Hrun.
  destruct template as [|c template]; [contradiction|]. cbn [truthy negb].
  rewrite Hanswer.
  assert (Hsignal : block_signal (lead +:+ word +:+ rest) = true).
  { unfold block_signal. apply andb_true_intro. split.
    - destruct lead; [|reflexivity]. rewrite str_app_nil_l.
      destruct word; [discriminate|]. reflexivity.
    - rewrite !upper_app, Hword. apply contains_app_r, contains_app_l. }
  rewrite Hsignal. reflexivity.
Qed.



(** *** Loading hooks *)

Lemma ensure_key_hooks (hook_type : string) (self : HookEngine.t) :
  hooks (ensure_key hook_type self)
  = <[hook_type := default [] (hooks self !! hook_type)]> (hooks self)
  /\ project_root (ensure_key hook_type self) = project_root self
  /\ prompt_executor (ensure_key hook_type self) = prompt_executor self
  /\ agent_executor (ensure_key hook_type self) = agent_executor self.
Proof.
  unfold ensure_key. destruct (hooks self !! hook_type) as [registered|] eqn:Hreg.
  - simpl. rewrite insert_id by exact Hreg. auto.
  - simpl. auto.
Qed.

(** The inner loop appends the configurations it makes, in the order of
    the list, until an entry stops it. *)
Lemma load_list_appends (hook_type : string) (hook_dicts : list pyval) :
  forall (self : HookEngine.t) (registered : list HookConfig),
    hooks self !! hook_type = Some registered ->
    match load_list self hook_type hook_dicts with
    | Loaded self' =>
        exists configs,
          Forall2 (fun d c => config_of d = Ok (Some c)) hook_dicts configs
          /\ hooks self' = <[hook_type := registered ++ configs]> (hooks self)
          /\ project_root self' = project_root self
          /\ prompt_executor self' = prompt_executor self
          /\ agent_executor self' = agent_executor self
    | LoadRaised e self' =>
        exists done bad rest configs,
          hook_dicts = done ++ bad :: rest
          /\ Forall2 (fun d c => config_of d = Ok (Some c)) done configs
          /\ config_of bad = Raise e
          /\ hooks self' = <[hook_type := registered ++ configs]> (hooks self)
    | Untyped => True
    end.
Proof.
  induction hook_dicts as [|hook_dict rest IH]; intros self registered Hreg.
  - simpl. exists []. rewrite app_nil_r, insert_id by exact Hreg.
    split; [constructor|]. auto.
  - cbn [load_list]. destruct (config_of hook_dict) as [[config|]|e] eqn:Hconfig.
    + assert (Hstep : hooks (append_config hook_type config self)
                      = <[hook_type := registered ++ [config]]> (hooks self))
        by (unfold append_config; rewrite Hreg; reflexivity).
      assert (Hlook : hooks (append_config hook_type config self) !! hook_type
                      = Some (registered ++ [config]))
        by (rewrite Hstep; apply lookup_insert_eq).
      assert (Hsame : project_root (append_config hook_type config self)
                      = project_root self
                      /\ prompt_executor (append_config hook_type config self)
                         = prompt_executor self
                      /\ agent_executor (append_config hook_type config self)
                         = agent_executor self)
        by (unfold append_config; rewrite Hreg; auto).
      destruct Hsame as (Hroot & Hprompt & Hagent).
      specialize (IH _ _ Hlook).
      destruct (load_list (append_config hook_type config self) hook_type rest)
        as [self'|e self'|].
      * destruct IH as (configs & Hall & Hhooks & Hr & Hp & Ha).
        exists (config :: configs). split; [constructor; assumption|].
        rewrite Hhooks, Hstep, insert_insert_eq, <- app_assoc.
        split; [reflexivity|]. rewrite Hr, Hp, Ha. auto.
      * destruct IH as (done & bad & rest' & configs & -> & Hall & Hbad & Hhooks).
        exists (hook_dict :: done), bad, rest', (config :: configs).
        split; [reflexivity|]. split; [constructor; assumption|].
        split; [exact Hbad|].
        rewrite Hhooks, Hstep, insert_insert_eq, <- app_assoc. reflexivity.
      * exact I.
    + exact I.
    + exists [], hook_dict, rest, []. split; [reflexivity|].
      split; [constructor|]. split; [exact Hconfig|].
      rewrite app_nil_r, insert_id by exact Hreg. reflexivity.
Qed.

(** Hooks are added, never replaced.  A load of the hooks of one event
    type that returns leaves registered, for that type, the hooks that were
    there followed by the configurations made of the entries, in the order
    of the list; the hooks of the other event types and the runners are as
    before.  An entry without any key makes a command hook that matches
    every name, has no command, a timeout of 600 seconds and is not
    once. *)
Theorem loaded_hooks_are_appended (self self' : HookEngine.t) (hook_type : string)
    (hook_dicts : list pyval) :
  load_hooks self (PyDict [(PyStr hook_type, PyList hook_dicts)]) = Loaded self' ->
  (exists configs,
     Forall2 (fun d c => config_of d = Ok (Some c)) hook_dicts configs
     /\ hooks self' !! hook_type
        = Some (default [] (hooks self !! hook_type) ++ configs)
     /\ (forall other, other <> hook_type -> hooks self' !! other = hooks self !! other)
     /\ prompt_executor self' = prompt_executor self
     /\ agent_executor self' = agent_executor self)
  /\ config_of (PyDict [])
     = Ok (Some {| type := "command"; matcher := ".*"; command := None;
                   prompt := None; agent := None; timeout := 600; once := false |}).
Proof.
  intros Hload. split; [|reflexivity].
  cbn [load_hooks load_items iterate] in Hload.
  destruct (ensure_key_hooks hook_type self) as (Hkey & Hroot & Hprompt & Hagent).
  assert (Hreg : hooks (ensure_key hook_type self) !! hook_type
                 = Some (default [] (hooks self !! hook_type)))
    by (rewrite Hkey; apply lookup_insert_eq).
  pose proof (load_list_appends hook_type hook_dicts _ _ Hreg) as Hlist.
  destruct (load_list (ensure_key hook_type self) hook_type hook_dicts)
    as [loaded|e loaded|]; try discriminate.
  cbn [load_items] in Hload. injection Hload as <-.
  destruct Hlist as (configs & Hall & Hhooks & _ & Hp & Ha).
  exists configs. split; [exact Hall|].
  rewrite Hhooks, Hkey, insert_insert_eq.
  split; [apply lookup_insert_eq|]. split.
  - intros other Hother. apply lookup_insert_ne. congruence.
  - rewrite Hp, Ha, Hprompt, Hagent. auto.
Qed.

(** Nothing is taken back.  When an entry of the list is not a mapping,
    the load raises at that entry, and the hooks made of the entries
    before it stay registered. *)
Theorem bad_hook_entry_keeps_earlier_hooks (self : HookEngine.t) (hook_type : string)
    (done : list pyval) (configs : list HookConfig) (bad : pyval) (rest : list pyval) :
  Forall2 (fun d c => config_of d = Ok (Some c)) done configs ->
  (forall entries, bad <> PyDict entries) ->
  exists e self',
    load_hooks self (PyDict [(PyStr hook_type, PyList (done ++ bad :: rest))])
    = LoadRaised e self'
    /\ hooks self' !! hook_type
       = Some (default [] (hooks self !! hook_type) ++ configs).
Proof.
  intros Hdone Hbad. cbn [load_hooks load_items iterate].
  destruct (ensure_key_hooks hook_type self) as (Hkey & _).
  assert (Hreg : hooks (ensure_key hook_type self) !! hook_type
                 = Some (default [] (hooks self !! hook_type)))
    by (rewrite Hkey; apply lookup_insert_eq).
  revert Hreg. generalize (default [] (hooks self !! hook_type)).
  generalize (ensure_key hook_type self). clear Hkey.
  induction Hdone as [|d c done configs Hd _ IH]; intros engine registered Hreg.
  - cbn [app load_list].
    assert (Hraise : exists e, config_of bad = Raise e).
    { destruct bad; simpl; eauto. exfalso. eapply Hbad. reflexivity. }
    destruct Hraise as [e ->]. exists e, engine. split; [reflexivity|].
    rewrite app_nil_r. exact Hreg.
  - cbn [app load_list]. rewrite Hd.
    destruct (IH (append_config hook_type c engine) (registered ++ [c])) as (e & s & Hl & Hh).
    + unfold append_config. rewrite Hreg. apply lookup_insert_eq.
    + destruct (load_list (append_config hook_type c engine) hook_type
                  (done ++ bad :: rest)) as [x|e0 x|] eqn:Hrun; try discriminate.
      injection Hl as -> ->. exists e, s. split; [reflexivity|].
      rewrite Hh, <- app_assoc. reflexivity.
Qed.

(** A hooks file that is missing, or that cannot be read as JSON, leaves
    the engine as it was, and the call returns; the second case prints a
    warning.  Only an error of the check that the file exists, which
    stands before the [try], leaves the call. *)
Theorem hooks_file_failures_change_nothing (self : HookEngine.t) (w : world)
    (hooks_file : Os.path) :
  (path_exists w hooks_file = Ok false ->
   load_hooks_from_file self w hooks_file = Some (Ok tt, self, []))
  /\ (forall e,
        path_exists w hooks_file = Ok true ->
        read_json w hooks_file = Raise e ->
        load_hooks_from_file self w hooks_file
        = Some (Ok tt, self,
                ["Warning: Failed to load hooks from " +:+ path_str hooks_file
                 +:+ ": " +:+ exn_text e]))
  /\ (forall e,
        path_exists w hooks_file = Raise e ->
        load_hooks_from_file self w hooks_file = Some (Raise e, self, [])).
Proof.
  unfold load_hooks_from_file. split; [|split].
  - intros ->. reflexivity.
  - intros e -> ->. reflexivity.
  - intros e ->. reflexivity.
Qed.


(** Front matter without hooks loads nothing, where [load_hooks] itself
    would raise on a value that is no mapping; on a mapping the two do the
    same. *)
Theorem missing_frontmatter_hooks_load_nothing (self : HookEngine.t) :
  load_hooks_from_frontmatter self PyNone = Loaded self
  /\ load_hooks_from_frontmatter self (PyDict []) = Loaded self
  /\ (exists e, load_hooks self PyNone = LoadRaised e self)
  /\ (forall items,
        load_hooks_from_frontmatter self (PyDict items) = load_hooks self (PyDict items)).
Proof.
  split; [reflexivity|]. split; [reflexivity|]. split; [eexists; reflexivity|].
  intros [|item items]; reflexivity.
Qed.

End Dispatch.

End HookProps.

(** ** More of the loader: what the registry holds after a pass *)

Module LoaderProps.

Import Py Os Loader PyFacts LoaderFacts.

(** *** Hooks given as a list in the front matter *)

Lemma key_eqb_str (k : pyval) (t : string) :
  key_eqb k (PyStr t) = true -> k = PyStr t.
Proof.
  destruct k; try discriminate.
  unfold key_eqb. simpl. intros Heq. apply String.eqb_eq in Heq. subst. reflexivity.
Qed.

Lemma key_eqb_str_iff (t t' : string) :
  key_eqb (PyStr t) (PyStr t') = String.eqb t t'.
Proof. reflexivity. Qed.

(** The list that [result[hook_type].append(hook)] leaves under each
    key. *)
Lemma group_append_lookup (acc : pydict (list pyval)) (t t' : string) (hook : pyval) :
  dict_lookup (group_append acc (PyStr t) hook) (PyStr t')
  = if String.eqb t t'
    then Some (default [] (dict_lookup acc (PyStr t)) ++ [hook])
    else dict_lookup acc (PyStr t').
Proof.
  induction acc as [|[k l] acc IH]; cbn [group_append dict_lookup].
  - rewrite key_eqb_str_iff. destruct (String.eqb t t'); reflexivity.
  - destruct (key_eqb k (PyStr t)) eqn:Hk.
    + apply key_eqb_str in Hk. subst k. cbn [dict_lookup].
      rewrite ?key_eqb_str_iff, ?String.eqb_refl.
      destruct (String.eqb t t'); reflexivity.
    + cbn [dict_lookup].
      destruct (key_eqb k (PyStr t')) eqn:Hk'.
      * apply key_eqb_str in Hk'. subst k. rewrite key_eqb_str_iff in Hk.
        rewrite String.eqb_sym, Hk. reflexivity.
      * exact IH.
Qed.

Lemma dict_get_groups (acc : pydict (list pyval)) (t : string) :
  dict_get (map (fun kl => (fst kl, PyList (snd kl))) acc) t PyNone
  = match dict_lookup acc (PyStr t) with
    | Some l => PyList l
    | None => PyNone
    end.
Proof.
  induction acc as [|[k l] acc IH]; [reflexivity|].
  cbn [map dict_get dict_lookup fst snd].
  destruct (key_eqb k (PyStr t)); [reflexivity|exact IH].
Qed.

(** A list of hooks, each a mapping whose type, when it gives one, is a
    text: [parse_hooks_from_frontmatter] returns a mapping that has, under
    each type, the hooks of that type in the order of the list, those
    without a type being of the type PreToolUse; and it has nothing under
    a type that no hook has. *)
Theorem hooks_are_grouped_by_type (hooks : list pyval) :
  let type_of hook :=
    match hook with
    | PyDict entries => dict_get entries "type" (PyStr "PreToolUse")
    | _ => PyNone
    end in
  let of_type t hook :=
    match type_of hook with
    | PyStr t' => String.eqb t' t
    | _ => false
    end in
  Forall (fun hook => (exists entries, hook = PyDict entries)
                      /\ exists t, type_of hook = PyStr t) hooks ->
  exists groups,
    parse_hooks_from_frontmatter (PyList hooks) = Ok (PyDict groups)
    /\ forall t,
         dict_get groups t PyNone
         = match List.filter (of_type t) hooks with
           | [] => PyNone
           | found => PyList found
           end.
Proof.
  intros type_of of_type Hshape. unfold parse_hooks_from_frontmatter.
  assert (Hgen : forall processed acc,
            (forall t, dict_lookup acc (PyStr t)
                       = match List.filter (of_type t) processed with
                         | [] => None
                         | found => Some found
                         end) ->
            exists groups,
              group_hooks hooks acc = Ok (PyDict groups)
              /\ forall t,
                   dict_get groups t PyNone
                   = match List.filter (of_type t) (processed ++ hooks) with
                     | [] => PyNone
                     | found => PyList found
                     end).
  { induction Hshape as [|hook hooks [[entries ->] [t0 Ht0]] _ IH];
      intros processed acc Hacc.
    - eexists. split; [reflexivity|]. intros t. rewrite app_nil_r, dict_get_groups, Hacc.
      destruct (List.filter (of_type t) processed); reflexivity.
    - cbn [group_hooks]. cbn [type_of] in Ht0. rewrite Ht0. cbn [hashable].
      destruct (IH (processed ++ [PyDict entries])
                  (group_append acc (PyStr t0) (PyDict entries))) as (groups & Hg & Hl).
      + intros t. rewrite group_append_lookup, List.filter_app.
        cbn [List.filter]. unfold of_type at 2. cbn [type_of]. rewrite Ht0.
        rewrite !Hacc. destruct (String.eqb t0 t) eqn:Ht.
        * apply String.eqb_eq in Ht. subst t0.
          destruct (List.filter (of_type t) processed); reflexivity.
        * rewrite app_nil_r. reflexivity.
      + exists groups. split; [exact Hg|]. intros t. rewrite Hl, <- app_assoc.
        reflexivity. }
  destruct (Hgen [] []) as (groups & Hg & Hl); [intros t; reflexivity|].
  exists groups. split; [exact Hg|]. exact Hl.
Qed.

(** A list of hooks with an entry that is not a mapping has no result:
    the call raises, and the file whose front matter holds the list is
    not loaded. *)
Theorem hook_entry_that_is_no_mapping_raises (hooks : list pyval) (entry : pyval) :
  In entry hooks ->
  (forall entries, entry <> PyDict entries) ->
  exists e, parse_hooks_from_frontmatter (PyList hooks) = Raise e.
Proof.
  intros Hin Hno. unfold parse_hooks_from_frontmatter.
  generalize (@nil (pyval * list pyval)).
  induction hooks as [|hook hooks IH]; [destruct Hin|]. intros acc.
  cbn [group_hooks]. destruct Hin as [->|Hin].
  - destruct entry; eauto. exfalso. eapply Hno. reflexivity.
  - destruct hook; eauto.
    destruct (hashable (dict_get entries "type" (PyStr "PreToolUse"))); eauto.
Qed.

Section Pass.
Context `{Host} `{Library}.

(** What [_load_commands] puts in the fields of a record that do not come
    from the front matter. *)
Lemma build_command_shape (w : world) (d : Os.path) (scope : string) (f : Os.path)
    (c : Command.t) :
  build_command w d scope f = Ok c ->
  Command.path c = f
  /\ Command.scope c = scope
  /\ Command.namespace c
     = (if String.eqb (relative_parent f d) "." then "" else relative_parent f d)
  /\ Command.name c
     = (if truthy (Command.namespace c)
        then Command.namespace c +:+ ":" +:+ stem f
        else stem f).
Proof.
  unfold build_command, and_then.
  repeat match goal with
         | |- context [match ?r with Ok _ => _ | Raise _ => _ end] =>
             destruct r; [|discriminate]
         | |- context [let '(_, _) := ?p in _] => destruct p
         end.
  intros [= <-]. cbn [Command.path Command.scope Command.namespace Command.name].
  auto.
Qed.

Section Keyed.
Variable w : world.

(** A record that the loader made: of its own path, for its own scope,
    which is that of the project or of a plugin. *)
Let made (c : Command.t) : Prop :=
  (Command.scope c = "project" \/ Command.scope c = "plugin")
  /\ exists commands_dir,
       build_command w commands_dir (Command.scope c) (Command.path c) = Ok c.

Let keyed (m : gmap string Command.t) : Prop :=
  forall n c, m !! n = Some c -> Command.name c = n /\ made c.

Lemma load_commands_keeps_keyed (d : Os.path) (scope : string) :
  scope = "project" \/ scope = "plugin" ->
  preserves keyed (_load_commands w d scope).
Proof.
  intros Hscope. unfold _load_commands.
  apply preserves_bind_lift. intros found _.
  destruct (negb found); [intros st HQ; exact HQ|].
  apply preserves_bind; [|intros _; apply silent_preserves, silent_scan_end].
  apply preserves_for_each. intros f _. apply preserves_try;
    [|intros e; apply silent_preserves, silent_print].
  unfold load_command_file. apply preserves_bind_lift. intros c Hc.
  intros st HQ n c0. simpl.
  destruct (decide (Command.name c = n)) as [<-|Hne].
  - rewrite lookup_insert_eq. intros [= <-]. split; [reflexivity|].
    destruct (build_command_shape _ _ _ _ _ Hc) as (Hpath & Hsc & _).
    split; [rewrite Hsc; exact Hscope|]. exists d. rewrite Hsc, Hpath. exact Hc.
  - rewrite lookup_insert_ne by exact Hne. apply HQ.
Qed.

Lemma load_plugin_keeps_keyed (plugin_dir : Os.path) :
  preserves keyed (_load_plugin w plugin_dir).
Proof.
  unfold _load_plugin.
  apply preserves_bind_lift. intros manifest_file _.
  apply preserves_bind_lift. intros found _.
  destruct (negb found); [intros st HQ; exact HQ|].
  apply preserves_try; [|intros e; apply silent_preserves, silent_print].
  unfold load_plugin_manifest.
  apply preserves_bind_lift. intros manifest _.
  apply preserves_bind_lift. intros name _.
  apply preserves_bind_lift. intros version _.
  apply preserves_bind_lift. intros description _.
  cbv zeta.
  apply preserves_bind_lift. intros commands_value _.
  apply preserves_bind_lift. intros commands_dir _.
  assert (Hload : forall d, preserves keyed (load_if_exists w _load_commands d)).
  { intros d. unfold load_if_exists. apply preserves_bind_lift. intros present _.
    destruct present; [|intros st HQ; exact HQ].
    apply load_commands_keeps_keyed. right. reflexivity. }
  apply preserves_bind; [apply Hload|intros _].
  apply preserves_bind; [apply Hload|intros _].
  apply silent_preserves. apply plugin_tail_silent.
Qed.

Lemma load_plugins_under_keeps_keyed (d : Os.path) :
  preserves keyed (load_plugins_under w d).
Proof.
  unfold load_plugins_under.
  apply preserves_bind_lift. intros found _.
  destruct found; [|intros st HQ; exact HQ].
  apply preserves_bind_lift. intros entries _.
  apply preserves_for_each. intros plugin_dir _.
  apply preserves_bind_lift. intros directory _.
  destruct directory; [apply load_plugin_keeps_keyed|intros st HQ; exact HQ].
Qed.

(** Whatever the file system holds, and whether the pass returns or an
    error ends it, every command of the registry of a loader that started
    empty stands under its own display name, is whole the record that
    [_load_commands] makes of the file at its path, and has the scope of
    the project or of a plugin. *)
Theorem registry_commands_are_keyed_by_name (project_root module_dir : Os.path)
    (n : string) (c : Command.t) :
  commands (registry (snd (load_all w project_root module_dir fresh))) !! n = Some c ->
  Command.name c = n
  /\ (Command.scope c = "project" \/ Command.scope c = "plugin")
  /\ exists commands_dir,
       build_command w commands_dir (Command.scope c) (Command.path c) = Ok c.
Proof.
  assert (Hpass : preserves keyed (load_all w project_root module_dir)).
  { unfold load_all. cbv zeta.
    apply preserves_bind;
      [apply load_commands_keeps_keyed; left; reflexivity|intros _].
    apply preserves_bind; [apply silent_preserves, silent_load_subagents|intros _].
    apply preserves_bind; [apply silent_preserves, silent_load_skills|intros _].
    apply preserves_bind; [|intros _ st HQ; exact HQ].
    unfold _load_plugins.
    apply preserves_bind; [apply load_plugins_under_keeps_keyed|intros _].
    apply preserves_bind_lift. intros local _.
    apply preserves_bind; [|intros _; apply load_plugins_under_keeps_keyed].
    destruct local; [apply load_plugin_keeps_keyed|intros st HQ; exact HQ]. }
  intros Hlook.
  assert (Hempty : keyed (commands (registry fresh))).
  { intros n0 c0 Hl. simpl in Hl. rewrite lookup_empty in Hl. discriminate. }
  destruct (Hpass fresh Hempty n c Hlook) as [Hname [Hscope Hbuilt]].
  auto.
Qed.

End Keyed.

(** A project without a [.claude] directory and without plugins: the
    pass returns the empty registry and prints nothing. *)
Theorem empty_project_loads_nothing (w : world) (project_root module_dir : Os.path) :
  path_exists w (joinpath (joinpath project_root ".claude") "commands") = Ok false ->
  path_exists w (joinpath (joinpath project_root ".claude") "agents") = Ok false ->
  path_exists w (joinpath (joinpath project_root ".claude") "skills") = Ok false ->
  path_exists w (joinpath project_root ".claude-plugins") = Ok false ->
  path_exists w (joinpath project_root ".claude-plugin") = Ok false ->
  path_exists w (joinpath module_dir "plugins") = Ok false ->
  load_all w project_root module_dir fresh = (Ok empty_registry, fresh).
Proof.
  intros Hc Ha Hs Hp Hl Hm.
  unfold load_all, _load_commands, _load_subagents, _load_skills, _load_plugins,
    load_plugins_under.
  cbv zeta. unfold bind, lift. rewrite Hc, Ha, Hs, Hp, Hl, Hm. reflexivity.
Qed.

(** A command file that cannot be made into a record is reported and
    passed over, and the files after it are still loaded: of a directory
    whose scan gives a file that fails and then a file that makes a record,
    the load returns, prints one warning that names the first file, and
    writes the record of the second under its name. *)
Theorem failing_command_file_is_reported (w : world) (d : Os.path) (scope : string)
    (bad good : Os.path) (e : exn) (c : Command.t) (st : LoadState) :
  path_exists w d = Ok true ->
  rglob_md w d = ([bad; good], None) ->
  build_command w d scope bad = Raise e ->
  build_command w d scope good = Ok c ->
  _load_commands w d scope st
  = (Ok tt,
     {| registry := set_command (Command.name c) c (registry st);
        printed := printed st
                   ++ ["Warning: Failed to load command " +:+ path_str bad
                       +:+ ": " +:+ exn_text e] |}).
Proof.
  intros Hex Hscan Hbad Hgood.
  unfold _load_commands. unfold bind at 1. unfold lift at 1. rewrite Hex. cbn [negb].
  rewrite Hscan. cbn [fst snd for_each scan_end].
  unfold bind, try_except, load_command_file, bind, lift, print, update, ret.
  rewrite Hbad, Hgood. reflexivity.
Qed.

(** The hooks of a plugin are added to those the registry has for the
    event type, after them; a value that is not a list adds nothing, and
    the event type is then known with the hooks it had, or none. *)
Theorem merged_hooks_accumulate (hook_type : string) (value : pyval) (st : LoadState) :
  let before := default [] (dict_lookup (hooks (registry st)) (PyStr hook_type)) in
  let after := snd (_merge_hooks (PyDict [(PyStr hook_type, value)]) st) in
  fst (_merge_hooks (PyDict [(PyStr hook_type, value)]) st) = Ok tt
  /\ dict_lookup (hooks (registry after)) (PyStr hook_type)
     = Some (before ++ match value with PyList added => added | _ => [] end)
  /\ commands (registry after) = commands (registry st)
  /\ printed after = printed st.
Proof.
  assert (Hset : forall (d : pydict (list pyval)) v,
            dict_lookup (dict_set d (PyStr hook_type) v) (PyStr hook_type) = Some v).
  { intros d v.
    assert (Hrefl : key_eqb (PyStr hook_type) (PyStr hook_type) = true)
      by apply String.eqb_refl.
    induction d as [|[k l] d IH]; cbn [dict_set dict_lookup].
    - rewrite Hrefl. reflexivity.
    - destruct (key_eqb k (PyStr hook_type)) eqn:Hk; cbn [dict_lookup]; rewrite Hk;
        [reflexivity|exact IH]. }
  intros before after. unfold after, before. simpl.
  split; [reflexivity|]. split; [|split; reflexivity].
  unfold merge_entry.
  destruct (dict_lookup (hooks (registry st)) (PyStr hook_type)) as [old|] eqn:Hold.
  - destruct value; simpl; rewrite ?Hold, ?Hset, ?app_nil_r; reflexivity.
  - destruct value; simpl; rewrite ?Hset; reflexivity.
Qed.

End Pass.

End LoaderProps.

(** ** The system prompt *)

Module PromptProps.

Import Py Os Loader SystemPrompt PyFacts.

Section Manager.
Context `{Host}.

(** Without any of the three files there is no prompt, and nothing to
    put in the instructions of OpenCode. *)
Theorem no_sources_no_prompt (self : SystemPrompt.t) (w : world) :
  path_exists w (joinpath (joinpath (home_dir self) ".claude") "CLAUDE.md") = Ok false ->
  path_exists w (joinpath (project_root self) "CLAUDE.md") = Ok false ->
  path_exists w (joinpath (joinpath (project_root self) ".claude") "project-context.md")
  = Ok false ->
  get_system_prompt self w = Ok ""
  /\ get_opencode_instruction_config self w = Ok [].
Proof.
  intros Hg Hp Hc.
  assert (Hprompt : get_system_prompt self w = Ok "").
  { unfold get_system_prompt, add_section, and_then. rewrite Hg, Hp, Hc. reflexivity. }
  split; [exact Hprompt|].
  unfold get_opencode_instruction_config. rewrite Hprompt. reflexivity.
Qed.

(** With the three files, none of them blank, the prompt is made of
    their trimmed texts under their titles, the global instructions first,
    then those of the project, then the context of the project, with an
    empty line between two sections and nothing before the first or after
    the last; and the instructions of OpenCode are that prompt. *)
Theorem three_sources_in_order (self : SystemPrompt.t) (w : world)
    (global_text project_text context_text : string) :
  let global_claude := joinpath (joinpath (home_dir self) ".claude") "CLAUDE.md" in
  let project_claude := joinpath (project_root self) "CLAUDE.md" in
  let project_context :=
    joinpath (joinpath (project_root self) ".claude") "project-context.md" in
  path_exists w global_claude = Ok true ->
  read_text w global_claude = inl global_text ->
  strip global_text <> "" ->
  path_exists w project_claude = Ok true ->
  read_text w project_claude = inl project_text ->
  strip project_text <> "" ->
  path_exists w project_context = Ok true ->
  read_text w project_context = inl context_text ->
  strip context_text <> "" ->
  let prompt :=
    "## GLOBAL INSTRUCTIONS" +:+ nl +:+ strip global_text +:+ nl +:+ nl
    +:+ "## PROJECT INSTRUCTIONS" +:+ nl +:+ strip project_text +:+ nl +:+ nl
    +:+ "## PROJECT CONTEXT" +:+ nl +:+ strip context_text in
  get_system_prompt self w = Ok prompt
  /\ get_opencode_instruction_config self w = Ok [("instructions", prompt)].
Proof.
  intros global_claude project_claude project_context
    Hg Hgt Hgn Hp Hpt Hpn Hc Hct Hcn prompt.
  assert (Hprompt : get_system_prompt self w = Ok prompt).
  { unfold get_system_prompt, add_section, and_then, read.
    fold global_claude project_claude project_context.
    rewrite Hg, Hgt, Hp, Hpt, Hc, Hct.
    destruct (strip global_text) as [|g1 g] eqn:Heg; [contradiction|].
    destruct (strip project_text) as [|p1 p] eqn:Hep; [contradiction|].
    destruct (strip context_text) as [|c1 c] eqn:Hec; [contradiction|].
    cbn [truthy app]. unfold join. cbn [String.concat]. unfold prompt.
    rewrite !str_app_assoc. reflexivity. }
  split; [exact Hprompt|].
  unfold get_opencode_instruction_config. rewrite Hprompt. cbn [and_then].
  assert (Htruthy : truthy prompt = true) by reflexivity.
  rewrite Htruthy. reflexivity.
Qed.

(** A file that holds only white space counts as a missing one: with the
    instructions of the project alone, beside a blank context and no
    global instructions, the prompt is the one section, without any
    separator. *)
Theorem blank_source_is_left_out (self : SystemPrompt.t) (w : world)
    (project_text context_text : string) :
  let global_claude := joinpath (joinpath (home_dir self) ".claude") "CLAUDE.md" in
  let project_claude := joinpath (project_root self) "CLAUDE.md" in
  let project_context :=
    joinpath (joinpath (project_root self) ".claude") "project-context.md" in
  path_exists w global_claude = Ok false ->
  path_exists w project_claude = Ok true ->
  read_text w project_claude = inl project_text ->
  strip project_text <> "" ->
  path_exists w project_context = Ok true ->
  read_text w project_context = inl context_text ->
  strip context_text = "" ->
  get_system_prompt self w
  = Ok ("## PROJECT INSTRUCTIONS" +:+ nl +:+ strip project_text).
Proof.
  intros global_claude project_claude project_context Hg Hp Hpt Hpn Hc Hct Hcn.
  unfold get_system_prompt, add_section, and_then, read.
  fold global_claude project_claude project_context.
  rewrite Hg, Hp, Hpt, Hc, Hct, Hcn.
  destruct (strip project_text) as [|p1 p] eqn:Hep; [contradiction|].
  reflexivity.
Qed.


End Manager.

End PromptProps.

(** ** The further properties at work on the sample project *)

Module MoreExamples.

Import Py Os Loader Sample.

(** *** Commands *)

(** The file of steps, referenced by a body and prepared with an
    argument: its reference and its placeholder stay, its inline command
    is run. *)
Lemma referenced_text_meets_stage_three_only_witness :
  fst (CommandExecutor.prepare_prompt executor (command_with "@steps.md") ["x"] desk)
  = Ok (nl +:+ "--- Content of steps.md ---" +:+ nl
        +:+ "see @notes.txt then hi for $1" +:+ nl
        +:+ "--- End of steps.md ---" +:+ nl)
  /\ history (snd (CommandExecutor.prepare_prompt executor (command_with "@steps.md")
                     ["x"] desk))
     = ["echo hi"].
Proof.
  destruct (CommandProps.referenced_text_meets_stage_three_only executor
              (command_with "") ["x"] desk "steps.md" "/proj/steps.md"
              "see @notes.txt then !`echo hi` for $1"
              ltac:(discriminate) eq_refl eq_refl
              (or_introl (conj eq_refl eq_refl)) eq_refl eq_refl eq_refl)
    as [_ Hprompt].
  change (command_with "@steps.md")
    with (CommandExecutor.with_content (command_with "") ("@" +:+ "steps.md")).
  rewrite Hprompt. split; reflexivity.
Defined.

(** A command that outlasts its timeout, in the middle of a body. *)
Lemma failed_inline_command_is_marked_witness :
  fst (CommandExecutor._execute_inline_bash executor
         "wait !`sleep 60` then !`echo hi`" desk)
  = "wait [Command timed out: sleep 60] then hi".
Proof.
  destruct (CommandProps.failed_inline_command_is_marked executor
              "wait " "sleep 60" " then !`echo hi`" desk
              eq_refl ltac:(discriminate) eq_refl)
    as (_ & Htimeout & _).
  exact (Htimeout eq_refl).
Defined.

Lemma pattern_entries_are_shown_as_given_witness :
  map CommandExecutor.show_pattern
    (CommandExecutor.allowed_patterns
       (CommandExecutor.get_tool_restrictions
          (tooled ["Bash(git:*)"; "Read(src/**)"] [] PyNone)))
  = ["Bash(git:*)"; "Read(src/**)"].
Proof.
  assert (Hshape :
    Forall (fun entry =>
              exists tool_name pattern,
                entry = tool_name +:+ "(" +:+ pattern +:+ ")"
                /\ tool_name <> "" /\ every isword tool_name = true
                /\ pattern <> "" /\ contains ")" pattern = false)
           (Command.allowed_tools (tooled ["Bash(git:*)"; "Read(src/**)"] [] PyNone))).
  { constructor; [exists "Bash", "git:*"|constructor; [exists "Read", "src/**"|constructor]];
      (split; [reflexivity|]); (split; [discriminate|]); (split; [reflexivity|]);
      (split; [discriminate|reflexivity]). }
  exact (proj2 (CommandProps.pattern_entries_are_shown_as_given _ Hshape)).
Defined.

Lemma bare_command_header_witness :
  fst (CommandExecutor.format_for_agent executor (command_with "Hello") [] workshop)
  = Ok ("# Executing Command: /demo" +:+ nl +:+ nl +:+ nl +:+ "---" +:+ nl +:+ nl
        +:+ "Hello").
Proof.
  rewrite (CommandProps.bare_command_header executor (command_with "Hello") [] workshop
             eq_refl eq_refl eq_refl).
  reflexivity.
Defined.

Lemma plain_tools_header_witness :
  fst (CommandExecutor.format_for_agent executor
         (tooled ["Read"; "Edit"] ["Bash"] (PyStr "opus")) [] workshop)
  = Ok ("# Executing Command: /ship" +:+ nl +:+ nl
        +:+ "**Allowed Tools**: Read, Edit" +:+ nl
        +:+ "**Disallowed Tools**: Bash" +:+ nl
        +:+ "**Preferred Model**: opus" +:+ nl
        +:+ nl +:+ "---" +:+ nl +:+ nl +:+ "Ship it").
Proof.
  assert (Hplain : Forall (fun entry => CommandExecutor.tool_pattern entry = None)
                     (Command.allowed_tools
                        (tooled ["Read"; "Edit"] ["Bash"] (PyStr "opus"))))
    by (repeat constructor).
  rewrite (CommandProps.plain_tools_header executor
             (tooled ["Read"; "Edit"] ["Bash"] (PyStr "opus")) [] workshop
             "opus" "Ship it" workshop
             ltac:(discriminate) Hplain ltac:(discriminate) eq_refl
             ltac:(discriminate) eq_refl).
  reflexivity.
Defined.

(** *** Hooks *)

(** The linter is not known to the shell and exits with 127: the
    dispatch goes on to the auditor, which passes, and returns ERROR. *)
Lemma error_is_not_forgotten_witness :
  fst (HookEngine.execute (engine_with [linter; auditor]) HookEngine.PRETOOLUSE
         (use_of "Bash") (start workshop))
  <> Ok HookEngine.CONTINUE
  /\ HookEngine.executions
       (HookEngine.trace
          (snd (HookEngine.execute (engine_with [linter; auditor]) HookEngine.PRETOOLUSE
                  (use_of "Bash") (start workshop))))
     = 2.
Proof.
  split; [|reflexivity].
  exact (proj1 (HookProps.error_is_not_forgotten (engine_with [linter; auditor])
                  HookEngine.PRETOOLUSE (use_of "Bash") [] linter [auditor]
                  (start workshop) HookEngine.CONTINUE (start workshop)
                  (snd (HookEngine._execute_hook (engine_with [linter; auditor])
                          linter (use_of "Bash") (start workshop)))
                  (lookup_singleton_eq _ _) eq_refl ltac:(discriminate) eq_refl
                  ltac:(discriminate) eq_refl)).
Defined.

Lemma hook_with_nothing_to_run_is_error_witness :
  HookEngine._execute_hook (engine_with []) (prompt_hook ".*" "Is this safe?")
    (use_of "Bash") (start workshop)
  = (HookEngine.ERROR, start workshop).
Proof.
  apply (proj1 (HookProps.hook_with_nothing_to_run_is_error (engine_with [])
                  (prompt_hook ".*" "Is this safe?") (use_of "Bash") (start workshop))).
  right. left. split; [reflexivity|]. right. right. reflexivity.
Defined.

(** An answer that only says that there is nothing to unblock blocks. *)
Lemma answer_with_block_blocks_witness :
  fst (HookEngine._execute_hook
         (HookEngine.register_prompt_executor (engine_with [])
            (answering "Nothing to unblock here"))
         (prompt_hook ".*" "Is $TOOL_NAME safe?") (use_of "Bash") (start workshop))
  = HookEngine.BLOCK.
Proof.
  rewrite (HookProps.answer_with_block_blocks
             (HookEngine.register_prompt_executor (engine_with [])
                (answering "Nothing to unblock here"))
             (prompt_hook ".*" "Is $TOOL_NAME safe?") (use_of "Bash") (start workshop)
             "Is $TOOL_NAME safe?" (answering "Nothing to unblock here")
             "Nothing to un" "block" " here" workshop
             eq_refl eq_refl ltac:(discriminate) eq_refl eq_refl eq_refl).
  reflexivity.
Defined.



(** An entry without keys, loaded for PreToolUse on an engine that has
    the guard: the guard stays first. *)
Lemma loaded_hooks_are_appended_witness :
  exists engine,
    HookEngine.load_hooks (engine_with [guard])
      (PyDict [(PyStr "PreToolUse", PyList [PyDict []])])
    = HookEngine.Loaded engine
    /\ HookEngine.hooks engine !! "PreToolUse"
       = Some [guard;
               {| HookEngine.type := "command"; HookEngine.matcher := ".*";
                  HookEngine.command := None; HookEngine.prompt := None;
                  HookEngine.agent := None; HookEngine.timeout := 600;
                  HookEngine.once := false |}].
Proof.
  destruct (HookEngine.load_hooks (engine_with [guard])
              (PyDict [(PyStr "PreToolUse", PyList [PyDict []])]))
    as [engine|e engine|] eqn:Hload; [|discriminate Hload|discriminate Hload].
  exists engine. split; [reflexivity|].
  destruct (HookProps.loaded_hooks_are_appended (engine_with [guard]) engine
              "PreToolUse" [PyDict []] Hload)
    as [(configs & Hall & Hhooks & _) _].
  rewrite Hhooks.
  inversion Hall as [|d c ds cs Hc Hrest]; subst.
  inversion Hrest; subst. injection Hc as <-. reflexivity.
Defined.

Lemma bad_hook_entry_keeps_earlier_hooks_witness :
  exists e engine,
    HookEngine.load_hooks (engine_with [guard])
      (PyDict [(PyStr "PreToolUse", PyList [PyDict []; PyStr "oops"; PyDict []])])
    = HookEngine.LoadRaised e engine
    /\ option_map (@length _) (HookEngine.hooks engine !! "PreToolUse") = Some 2.
Proof.
  assert (Hdone : Forall2 (fun d c => HookEngine.config_of d = Ok (Some c))
                    [PyDict []]
                    [{| HookEngine.type := "command"; HookEngine.matcher := ".*";
                        HookEngine.command := None; HookEngine.prompt := None;
                        HookEngine.agent := None; HookEngine.timeout := 600;
                        HookEngine.once := false |}])
    by (repeat constructor).
  destruct (HookProps.bad_hook_entry_keeps_earlier_hooks (engine_with [guard])
              "PreToolUse" _ _ (PyStr "oops") [PyDict []] Hdone
              ltac:(discriminate))
    as (e & engine & Hload & Hhooks).
  exists e, engine. split; [exact Hload|]. rewrite Hhooks. reflexivity.
Defined.


Lemma hooks_file_failures_change_nothing_witness :
  HookEngine.load_hooks_from_file (engine_with [guard]) hooked "/proj/hooks/none.json"
  = Some (Ok tt, engine_with [guard], []).
Proof.
  exact (proj1 (HookProps.hooks_file_failures_change_nothing (engine_with [guard]) hooked
                  "/proj/hooks/none.json") eq_refl).
Defined.

(** *** The loader *)

Lemma hooks_are_grouped_by_type_witness :
  parse_hooks_from_frontmatter
    (PyList [PyDict [(PyStr "type", PyStr "Stop"); (PyStr "command", PyStr "a")];
             PyDict [(PyStr "command", PyStr "b")];
             PyDict [(PyStr "type", PyStr "Stop"); (PyStr "command", PyStr "c")]])
  = Ok (PyDict
          [(PyStr "Stop",
            PyList [PyDict [(PyStr "type", PyStr "Stop"); (PyStr "command", PyStr "a")];
                    PyDict [(PyStr "type", PyStr "Stop"); (PyStr "command", PyStr "c")]]);
           (PyStr "PreToolUse", PyList [PyDict [(PyStr "command", PyStr "b")]])]).
Proof.
  destruct (LoaderProps.hooks_are_grouped_by_type
              [PyDict [(PyStr "type", PyStr "Stop"); (PyStr "command", PyStr "a")];
               PyDict [(PyStr "command", PyStr "b")];
               PyDict [(PyStr "type", PyStr "Stop"); (PyStr "command", PyStr "c")]])
    as (groups & Hgroups & _).
  - repeat constructor; eauto.
  - reflexivity.
Defined.

Lemma hook_entry_that_is_no_mapping_raises_witness :
  exists e,
    parse_hooks_from_frontmatter (PyList [PyDict []; PyStr "oops"]) = Raise e.
Proof.
  apply (LoaderProps.hook_entry_that_is_no_mapping_raises
           [PyDict []; PyStr "oops"] (PyStr "oops")).
  - right. left. reflexivity.
  - discriminate.
Defined.

Lemma registry_commands_are_keyed_by_name_witness :
  exists c,
    commands (registry (snd (load_all checkout "/proj" "/opt/bridge" fresh))) !! "foo"
    = Some c
    /\ Command.name c = "foo"
    /\ Command.path c = "/proj/.claude-plugins/pack/commands/foo.md"
    /\ exists commands_dir,
         build_command checkout commands_dir (Command.scope c) (Command.path c) = Ok c.
Proof.
  destruct (commands (registry (snd (load_all checkout "/proj" "/opt/bridge" fresh)))
            !! "foo") as [c|] eqn:Hlook; [|vm_compute in Hlook; discriminate Hlook].
  exists c. split; [reflexivity|].
  destruct (LoaderProps.registry_commands_are_keyed_by_name checkout "/proj"
              "/opt/bridge" "foo" c Hlook)
    as (Hname & _ & Hbuilt).
  split; [exact Hname|]. split; [|exact Hbuilt].
  vm_compute in Hlook. injection Hlook as <-. reflexivity.
Defined.

Lemma empty_project_loads_nothing_witness :
  load_all workshop "/proj" "/opt/bridge" fresh = (Ok empty_registry, fresh).
Proof.
  exact (LoaderProps.empty_project_loads_nothing workshop "/proj" "/opt/bridge"
           eq_refl eq_refl eq_refl eq_refl eq_refl eq_refl).
Defined.

(** The command whose front matter holds the date that cannot be made is
    reported with the error of the date, and the command after it is
    loaded. *)
Lemma failing_command_file_is_reported_witness :
  printed (snd (_load_commands shelf "/proj/.claude/commands" "project" fresh))
  = ["Warning: Failed to load command /proj/.claude/commands/a.md: "
     +:+ "month must be in 1..12"]
  /\ option_map Command.content
       (commands (registry (snd (_load_commands shelf "/proj/.claude/commands"
                                   "project" fresh))) !! "b")
     = Some "plain body".
Proof.
  destruct (build_command shelf "/proj/.claude/commands" "project"
              "/proj/.claude/commands/b.md") as [c|e] eqn:Hgood;
    [|vm_compute in Hgood; discriminate Hgood].
  assert (Hbad : build_command shelf "/proj/.claude/commands" "project"
                   "/proj/.claude/commands/a.md"
                 = Raise (Exn "ValueError" "month must be in 1..12"))
    by (vm_compute; reflexivity).
  rewrite (LoaderProps.failing_command_file_is_reported shelf "/proj/.claude/commands"
             "project" "/proj/.claude/commands/a.md" "/proj/.claude/commands/b.md"
             (Exn "ValueError" "month must be in 1..12") c fresh
             eq_refl eq_refl Hbad Hgood).
  vm_compute in Hgood. injection Hgood as <-.
  split; [reflexivity|]. vm_compute. reflexivity.
Defined.

(** *** The system prompt *)

Lemma no_sources_no_prompt_witness :
  SystemPrompt.get_system_prompt manager workshop = Ok ""
  /\ SystemPrompt.get_opencode_instruction_config manager workshop = Ok [].
Proof.
  exact (PromptProps.no_sources_no_prompt manager workshop eq_refl eq_refl eq_refl).
Defined.

Lemma three_sources_in_order_witness :
  SystemPrompt.get_system_prompt manager study
  = Ok ("## GLOBAL INSTRUCTIONS" +:+ nl +:+ "Be brief." +:+ nl +:+ nl
        +:+ "## PROJECT INSTRUCTIONS" +:+ nl +:+ "Use tabs." +:+ nl +:+ nl
        +:+ "## PROJECT CONTEXT" +:+ nl +:+ "Sprint 3").
Proof.
  exact (proj1 (PromptProps.three_sources_in_order manager study
                  (line "Be brief.") (line "Use tabs.") (line "Sprint 3")
                  eq_refl eq_refl ltac:(discriminate)
                  eq_refl eq_refl ltac:(discriminate)
                  eq_refl eq_refl ltac:(discriminate))).
Defined.

Lemma blank_source_is_left_out_witness :
  SystemPrompt.get_system_prompt manager study_blank
  = Ok ("## PROJECT INSTRUCTIONS" +:+ nl +:+ "Use tabs.").
Proof.
  exact (PromptProps.blank_source_is_left_out manager study_blank
           (line "Use tabs.") (line "  ")
           eq_refl eq_refl eq_refl ltac:(discriminate) eq_refl eq_refl eq_refl).
Defined.


End MoreExamples.
